(** * The busboy: menu catalog, order store and quantity entry

    A shallow embedding of [src/config.py], [src/models/menu.py],
    [src/models/orders.py] and of the quantity-entry handlers of
    [src/handlers/order_handlers.py], followed by the properties the
    specification states about them.

    Conventions of the embedding.
    - Python [int] is [Z]; [str] is [string] (the UTF-8 bytes of the text,
      so that [String.eqb] is Python's [==] on [str]).
    - An object held in a list and mutated in place is modelled by
      rewriting the element of the list that the search loop returned
      (the first match).
    - A dictionary of fixed keys ([to_dict]/[from_dict], the FSM data bag)
      is a record with one field per key; a key read with [dict.get] is an
      [option] field.
    - The JSON files are part of the managers' state ([file]); a write is
      taken to succeed (on an I/O error the source logs and goes on).
    - [datetime.now().isoformat()] is an explicit argument wherever the
      source reads the clock. *)

From Stdlib Require Import ZArith List String Ascii Bool Lia DecimalString.
From Stdlib Require DecimalPos DecimalZ.
Import ListNotations.
Open Scope string_scope.
Open Scope Z_scope.

(** ** Results of fallible code *)

Inductive exn : Type :=
| ValueError (msg : string)
| AttributeError (msg : string).

Inductive result (A : Type) : Type :=
| Ok (a : A)
| Raise (e : exn).
Arguments Ok {A} a.
Arguments Raise {A} e.

(** What a JSON data file can hold when a manager is constructed. *)
Inductive file_content (D : Type) : Type :=
| Absent                      (* os.path.exists is False *)
| Unreadable                  (* open / json.load / from_dict raises *)
| NotAList                    (* valid JSON, but not a list *)
| Records (ds : list D).      (* a list of records *)
Arguments Absent {D}.
Arguments Unreadable {D}.
Arguments NotAList {D}.
Arguments Records {D} ds.

(** Python's [x in xs] on a list of [str]. *)
Definition str_in (x : string) (xs : list string) : bool :=
  existsb (String.eqb x) xs.

(** Python's [max(xs, default=d)]. *)
Definition py_max (xs : list Z) (default : Z) : Z :=
  match xs with
  | [] => default
  | x :: rest => fold_left Z.max rest x
  end.

(** Python's [str(n)] for an [int]. *)
Definition py_str (n : Z) : string := NilZero.string_of_int (Z.to_int n).

(** The object reached by [for x in xs: if p(x): ...] is the first match;
    a mutation of that object shows in the list at its position. *)
Fixpoint update_first {A : Type} (p : A -> bool) (f : A -> A) (xs : list A)
  : list A :=
  match xs with
  | [] => []
  | x :: rest => if p x then f x :: rest else x :: update_first p f rest
  end.

(** ** config.py *)

Module Config.

Definition TABLE_COUNT : Z := 11.

Definition MAIN_CATEGORIES : list string := ["Кухня"; "Бар"].

(** A dict literal: iteration follows insertion order. *)
Definition MENU_CATEGORIES : list (string * list string) :=
  [ ("Кухня", ["Закуски"; "Гарниры"; "Горячее"; "Десерты"; "Салаты"]);
    ("Бар", ["Коктейли"; "Алкоголь"; "Пиво"; "Лимонады"; "Чай"]) ].

Definition ALL_CATEGORIES : list string :=
  flat_map snd MENU_CATEGORIES.

End Config.

(** ** models/menu.py : MenuItem *)

Module MenuItem.

Record t : Type := mk {
  id : Z;
  name : string;
  category : string;
  main_category : string
}.

(** The dictionary written to and read from [menu.json]; [from_dict] reads
    [main_category] with [data.get], so that key may be missing. *)
Record dict : Type := mk_dict {
  d_id : Z;
  d_name : string;
  d_category : string;
  d_main_category : option string
}.

Definition _determine_main_category (category : string) : string :=
  match find (fun entry => str_in category (snd entry)) Config.MENU_CATEGORIES with
  | Some entry => fst entry
  | None => "Кухня"
  end.

(** [MenuItem.__init__] *)
Definition init (id : Z) (name category : string) (main_category : option string) : t :=
  {| id := id;
     name := name;
     category := category;
     main_category :=
       match main_category with
       | None => _determine_main_category category
       | Some m => m
       end |}.

Definition to_dict (self : t) : dict :=
  {| d_id := id self;
     d_name := name self;
     d_category := category self;
     d_main_category := Some (main_category self) |}.

Definition from_dict (data : dict) : t :=
  let main_category := d_main_category data in
  init (d_id data) (d_name data) (d_category data) main_category.

End MenuItem.

(** ** models/menu.py : MenuManager *)

Module MenuManager.

Record t : Type := mk {
  menu_items : list MenuItem.t;
  file : file_content MenuItem.dict
}.

Definition save_menu (self : t) : t :=
  {| menu_items := menu_items self;
     file := Records (map MenuItem.to_dict (menu_items self)) |}.

Definition add_item (name category : string) (main_category : option string)
    (self : t) : MenuItem.t * t :=
  let new_id := py_max (map MenuItem.id (menu_items self)) 0 + 1 in
  let item := MenuItem.init new_id name category main_category in
  let self1 := {| menu_items := (menu_items self ++ [item])%list;
                  file := file self |} in
  (item, save_menu self1).

(** [del self.menu_items[i]] at the first index whose item has the id. *)
Fixpoint delete_first (item_id : Z) (items : list MenuItem.t)
  : option (list MenuItem.t) :=
  match items with
  | [] => None
  | item :: rest =>
      if MenuItem.id item =? item_id then Some rest
      else match delete_first item_id rest with
           | Some rest' => Some (item :: rest')
           | None => None
           end
  end.

Definition delete_item (item_id : Z) (self : t) : bool * t :=
  match delete_first item_id (menu_items self) with
  | Some items' =>
      (true, save_menu {| menu_items := items'; file := file self |})
  | None => (false, self)
  end.

Definition get_item_by_id (item_id : Z) (self : t) : option MenuItem.t :=
  find (fun item => MenuItem.id item =? item_id) (menu_items self).

(** [lower] stands for Python's [str.lower]. *)
Definition get_menu_items_by_category (lower : string -> string)
    (category : string) (self : t) : list MenuItem.t :=
  filter (fun item => String.eqb (lower (MenuItem.category item)) (lower category))
         (menu_items self).

Definition get_menu_items_by_main_category (main_category : string) (self : t)
  : list MenuItem.t :=
  filter (fun item => String.eqb (MenuItem.main_category item) main_category)
         (menu_items self).

Definition get_all_categories : list string := Config.ALL_CATEGORIES.

Definition get_main_categories : list string := Config.MAIN_CATEGORIES.

(** [MENU_CATEGORIES.get(main_category, [])] *)
Definition get_subcategories (main_category : string) : list string :=
  match find (fun entry => String.eqb (fst entry) main_category)
             Config.MENU_CATEGORIES with
  | Some entry => snd entry
  | None => []
  end.

(** [load_menu]. After [from_dict] every item has a main category
    ([MenuItem.__init__] derives a missing one), so the loop that looks for
    items without one finds none, [needs_update] stays [False] and the file
    is not written back. *)
Definition load_menu (self : t) : t :=
  match file self with
  | Records ds =>
      {| menu_items := map MenuItem.from_dict ds; file := file self |}
  | NotAList => save_menu {| menu_items := []; file := file self |}
  | Unreadable => {| menu_items := []; file := file self |}
  | Absent => save_menu {| menu_items := []; file := file self |}
  end.

(** [MenuManager.__init__], run on whatever [menu.json] holds. *)
Definition init (content : file_content MenuItem.dict) : t :=
  load_menu {| menu_items := []; file := content |}.

(** Calls made on the catalog, one after the other. [Reload] constructs
    the manager anew from the file the previous one left behind. *)
Inductive op : Type :=
| AddItem (name category : string) (main_category : option string)
| DeleteItem (item_id : Z)
| Reload.

Definition step (o : op) (self : t) : t :=
  match o with
  | AddItem name category main_category =>
      snd (add_item name category main_category self)
  | DeleteItem item_id => snd (delete_item item_id self)
  | Reload => init (file self)
  end.

Definition run (ops : list op) (self : t) : t :=
  fold_left (fun s o => step o s) ops self.

(** Ids are not repeated and are at least 1. *)
Definition ids_fresh (items : list MenuItem.t) : Prop :=
  NoDup (map MenuItem.id items)
  /\ forall item, In item items -> 1 <= MenuItem.id item.

End MenuManager.

(** ** models/orders.py : OrderItem and Order *)

Module OrderItem.

Record t : Type := mk {
  menu_item : MenuItem.t;
  quantity : Z
}.

Record dict : Type := mk_dict {
  d_menu_item : MenuItem.dict;
  d_quantity : Z
}.

Definition to_dict (self : t) : dict :=
  {| d_menu_item := MenuItem.to_dict (menu_item self);
     d_quantity := quantity self |}.

Definition from_dict (data : dict) : t :=
  let menu_item := MenuItem.from_dict (d_menu_item data) in
  {| menu_item := menu_item; quantity := d_quantity data |}.

End OrderItem.

Module Order.

Record t : Type := mk {
  id : Z;
  table_number : Z;
  items : list OrderItem.t;
  timestamp : string;
  is_active : bool
}.

Record dict : Type := mk_dict {
  d_id : Z;
  d_table_number : Z;
  d_items : list OrderItem.dict;
  d_timestamp : string;
  d_is_active : bool
}.

(** [Order.__init__]; [items or []] and [timestamp or datetime.now()...]:
    an empty list and an empty string are falsy, as is [None]. *)
Definition init (id table_number : Z) (items : option (list OrderItem.t))
    (timestamp : option string) (is_active : bool) (now : string) : t :=
  {| id := id;
     table_number := table_number;
     items := match items with
              | Some (x :: rest) => x :: rest
              | _ => []
              end;
     timestamp := match timestamp with
                  | Some (String c s) => String c s
                  | _ => now
                  end;
     is_active := is_active |}.

Definition to_dict (self : t) : dict :=
  {| d_id := id self;
     d_table_number := table_number self;
     d_items := map OrderItem.to_dict (items self);
     d_timestamp := timestamp self;
     d_is_active := is_active self |}.

Definition from_dict (now : string) (data : dict) : t :=
  let items := map OrderItem.from_dict (d_items data) in
  init (d_id data) (d_table_number data) (Some items)
       (Some (d_timestamp data)) (d_is_active data) now.

(** The loop of [add_item] over [self.items]. *)
Fixpoint add_to_items (menu_item : MenuItem.t) (quantity : Z)
    (items : list OrderItem.t) : list OrderItem.t :=
  match items with
  | [] => [OrderItem.mk menu_item quantity]
  | order_item :: rest =>
      if MenuItem.id (OrderItem.menu_item order_item) =? MenuItem.id menu_item
      then OrderItem.mk (OrderItem.menu_item order_item)
                        (OrderItem.quantity order_item + quantity) :: rest
      else order_item :: add_to_items menu_item quantity rest
  end.

Definition add_item (menu_item : MenuItem.t) (quantity : Z) (self : t) : t :=
  {| id := id self;
     table_number := table_number self;
     items := add_to_items menu_item quantity (items self);
     timestamp := timestamp self;
     is_active := is_active self |}.

(** The lines an order holds for one menu item id. *)
Definition lines_for (item_id : Z) (self : t) : list OrderItem.t :=
  filter (fun order_item => MenuItem.id (OrderItem.menu_item order_item) =? item_id)
         (items self).

Definition set_is_active (b : bool) (self : t) : t :=
  {| id := id self;
     table_number := table_number self;
     items := items self;
     timestamp := timestamp self;
     is_active := b |}.

(** The loop of [remove_item]: [del self.items[i]] at the first line of
    the menu item id. *)
Fixpoint remove_from_items (menu_item_id : Z) (items : list OrderItem.t)
  : option (list OrderItem.t) :=
  match items with
  | [] => None
  | order_item :: rest =>
      if MenuItem.id (OrderItem.menu_item order_item) =? menu_item_id then Some rest
      else match remove_from_items menu_item_id rest with
           | Some rest' => Some (order_item :: rest')
           | None => None
           end
  end.

Definition remove_item (menu_item_id : Z) (self : t) : bool * t :=
  match remove_from_items menu_item_id (items self) with
  | Some items' =>
      (true, {| id := id self;
                table_number := table_number self;
                items := items';
                timestamp := timestamp self;
                is_active := is_active self |})
  | None => (false, self)
  end.

End Order.

(** The persisted shapes of the specification: a menu record carries its
    [main_category]; an order record carries a timestamp (an ISO-8601
    string, hence not empty) and lines that hold menu records. *)
Definition persisted_menu_record (data : MenuItem.dict) : bool :=
  match MenuItem.d_main_category data with Some _ => true | None => false end.

Definition persisted_order_record (data : Order.dict) : bool :=
  negb (String.eqb (Order.d_timestamp data) EmptyString)
  && forallb (fun d => persisted_menu_record (OrderItem.d_menu_item d))
             (Order.d_items data).

(** ** models/orders.py : OrderManager *)

Module OrderManager.

Record t : Type := mk {
  orders : list Order.t;
  file : file_content Order.dict
}.

Definition save_orders (self : t) : t :=
  {| orders := orders self;
     file := Records (map Order.to_dict (orders self)) |}.

(** [[Order.from_dict(order) for order in orders_data]]; the record at
    position [k] reads the clock as [clock k] when it needs a timestamp. *)
Fixpoint from_dicts (clock : nat -> string) (k : nat) (ds : list Order.dict)
  : list Order.t :=
  match ds with
  | [] => []
  | d :: rest => Order.from_dict (clock k) d :: from_dicts clock (S k) rest
  end.

Definition load_orders (clock : nat -> string) (self : t) : t :=
  match file self with
  | Records ds =>
      {| orders := filter Order.is_active (from_dicts clock 0 ds);
         file := file self |}
  | NotAList => save_orders {| orders := []; file := file self |}
  | Unreadable => {| orders := []; file := file self |}
  | Absent => save_orders {| orders := []; file := file self |}
  end.

(** [OrderManager.__init__], run on whatever [orders.json] holds. *)
Definition init (clock : nat -> string) (content : file_content Order.dict) : t :=
  load_orders clock {| orders := []; file := content |}.

Definition get_order_by_id (order_id : Z) (self : t) : option Order.t :=
  find (fun order => Order.id order =? order_id) (orders self).

Definition get_active_orders (self : t) : list Order.t :=
  filter Order.is_active (orders self).

Definition get_table_active_order (table_number : Z) (self : t) : option Order.t :=
  find (fun order => (Order.table_number order =? table_number)
                     && Order.is_active order) (orders self).

Definition create_order (now : string) (table_number : Z) (self : t)
  : result (Order.t * t) :=
  if negb ((1 <=? table_number) && (table_number <=? Config.TABLE_COUNT)) then
    Raise (ValueError "Table number must be between 1 and 11")
  else
    match find (fun order => (Order.table_number order =? table_number)
                             && Order.is_active order) (orders self) with
    | Some order => Ok (order, self)
    | None =>
        let new_id := py_max (map Order.id (orders self)) 0 + 1 in
        let order := Order.init new_id table_number None None true now in
        let self1 := {| orders := (orders self ++ [order])%list;
                        file := file self |} in
        Ok (order, save_orders self1)
    end.

Definition close_order (order_id : Z) (self : t) : bool * t :=
  match get_order_by_id order_id self with
  | Some _ =>
      let self1 :=
        {| orders := update_first (fun order => Order.id order =? order_id)
                                  (Order.set_is_active false) (orders self);
           file := file self |} in
      let self2 := save_orders self1 in
      (true, {| orders := filter Order.is_active (orders self2);
                file := file self2 |})
  | None => (false, self)
  end.

(** The store side of [add_item_with_quantity] (order_handlers.py, lines
    538-549), the specification's [addLine]: [order.add_item] on the order
    found by id, then [save_orders]; nothing when the id is unknown. *)
Definition add_line (order_id : Z) (menu_item : MenuItem.t) (quantity : Z)
    (self : t) : t :=
  match get_order_by_id order_id self with
  | Some _ =>
      save_orders
        {| orders := update_first (fun order => Order.id order =? order_id)
                                  (Order.add_item menu_item quantity) (orders self);
           file := file self |}
  | None => self
  end.

(** Calls made on the store, one after the other. [Restart] constructs the
    manager anew from the file the previous one left behind. *)
Inductive op : Type :=
| CreateOrder (now : string) (table_number : Z)
| AddLine (order_id : Z) (menu_item : MenuItem.t) (quantity : Z)
| CloseOrder (order_id : Z)
| Restart (clock : nat -> string).

Definition step (o : op) (self : t) : t :=
  match o with
  | CreateOrder now table_number =>
      match create_order now table_number self with
      | Ok (_, self') => self'
      | Raise _ => self
      end
  | AddLine order_id menu_item quantity => add_line order_id menu_item quantity self
  | CloseOrder order_id => snd (close_order order_id self)
  | Restart clock => init clock (file self)
  end.

Definition run (ops : list op) (self : t) : t :=
  fold_left (fun s o => step o s) ops self.

(** The active orders of one table. *)
Definition active_for_table (table_number : Z) (self : t) : list Order.t :=
  filter (fun order => Order.is_active order
                       && (Order.table_number order =? table_number))
         (orders self).

Definition all_active (self : t) : bool :=
  forallb Order.is_active (orders self).

(** What the store's own operations look at in an order. *)
Definition core (order : Order.t) : Z * Z * bool :=
  (Order.id order, Order.table_number order, Order.is_active order).

(** The state of a store that started on no file: every order is active,
    ids and tables are not repeated, and constructing the manager anew from
    the file gives the same orders up to their lines and timestamps. *)
Record well_formed (self : t) : Prop := mk_well_formed {
  wf_active : all_active self = true;
  wf_ids : NoDup (map Order.id (orders self));
  wf_tables : NoDup (map Order.table_number (orders self));
  wf_file : forall clock,
      map core (orders (init clock (file self))) = map core (orders self)
}.

(** An order with an id of at least 1 for one of the restaurant's tables. *)
Definition in_range (order : Order.t) : Prop :=
  1 <= Order.id order /\ 1 <= Order.table_number order <= Config.TABLE_COUNT.

End OrderManager.

(** ** handlers/common.py and handlers/order_handlers.py : quantity entry *)

Module Handlers.

Inductive OrderStates : Type :=
| selecting_table
| selecting_main_category
| selecting_category
| selecting_menu_item
| entering_quantity
| viewing_order
| managing_order
| confirm_close.

(** The FSM context of one chat: the current state ([None] once cleared)
    and the data bag, with the keys of the order-taking flow. *)
Record FSMContext : Type := mk_ctx {
  state : option OrderStates;
  current_order_id : option Z;
  current_item_id : option Z;
  current_main_category : option string;
  current_category : option string;
  active_orders : option (list (string * Z))
}.

(** [message.answer(text, reply_markup=...)]: the text and the rows of
    button labels of the keyboard. *)
Record Answer : Type := mk_answer {
  text : string;
  reply_markup : list (list string)
}.

(** What a handler works on: the chat's FSM context, the two singleton
    managers and the answers sent so far. *)
Record world : Type := mk_world {
  fsm : FSMContext;
  order_manager : OrderManager.t;
  menu_manager : MenuManager.t;
  sent : list Answer
}.

Definition set_state (s : OrderStates) (w : world) : world :=
  {| fsm := {| state := Some s;
               current_order_id := current_order_id (fsm w);
               current_item_id := current_item_id (fsm w);
               current_main_category := current_main_category (fsm w);
               current_category := current_category (fsm w);
               active_orders := active_orders (fsm w) |};
     order_manager := order_manager w;
     menu_manager := menu_manager w;
     sent := sent w |}.

Definition answer (text : string) (reply_markup : list (list string)) (w : world)
  : world :=
  {| fsm := fsm w;
     order_manager := order_manager w;
     menu_manager := menu_manager w;
     sent := (sent w ++ [mk_answer text reply_markup])%list |}.

Definition set_order_manager (om : OrderManager.t) (w : world) : world :=
  {| fsm := fsm w;
     order_manager := om;
     menu_manager := menu_manager w;
     sent := sent w |}.

Definition nl : string := String (ascii_of_nat 10) EmptyString.
Definition dquote : string := String (ascii_of_nat 34) EmptyString.

Definition get_main_keyboard : list (list string) :=
  [ ["🆕 Новый заказ"]; ["📋 Активные заказы"]; ["🍽️ Меню"] ].

Definition get_main_categories_keyboard : list (list string) :=
  (map (fun category => [category]) Config.MAIN_CATEGORIES
   ++ [ ["✅ Завершить заказ"]; ["🔙 Назад к столам"] ])%list.

Definition get_quantity_keyboard : list (list string) :=
  [ ["1"; "2"; "3"]; ["4"; "5"; "Другое количество"]; ["🔙 Назад"] ].

Section WithBuiltins.

(** Python's [int(text)] on a [str] ([None] when it raises [ValueError])
    and [str.lower]. *)
Variable int : string -> option Z.
Variable lower : string -> string.

(** With no [current_category] in the data bag, [category.lower()] raises
    as soon as the comprehension reaches a first menu item. *)
Definition back_to_items (w : world) : result world :=
  let category := current_category (fsm w) in
  let items :=
    match category with
    | Some c => Ok (MenuManager.get_menu_items_by_category lower c (menu_manager w))
    | None =>
        match MenuManager.menu_items (menu_manager w) with
        | [] => Ok []
        | _ :: _ => Raise (AttributeError "'NoneType' object has no attribute 'lower'")
        end
    end in
  match items with
  | Raise e => Raise e
  | Ok items =>
      let keyboard :=
        (map (fun item => [MenuItem.name item]) items
         ++ [ ["🔙 Назад к подкатегориям"] ])%list in
      let w1 := set_state selecting_menu_item w in
      Ok (answer ("🍽️ <b>Выберите позицию из категории " ++ dquote
                  ++ match category with Some c => c | None => "None" end
                  ++ dquote ++ "</b>")
                 keyboard w1)
  end.

Definition add_item_with_quantity (quantity : Z) (w : world) : world :=
  let order_id := current_order_id (fsm w) in
  let item_id := current_item_id (fsm w) in
  let order :=
    match order_id with
    | Some i => OrderManager.get_order_by_id i (order_manager w)
    | None => None
    end in
  let item :=
    match item_id with
    | Some i => MenuManager.get_item_by_id i (menu_manager w)
    | None => None
    end in
  match order, item with
  | Some order, Some item =>
      let w1 :=
        set_order_manager
          (OrderManager.add_line (Order.id order) item quantity (order_manager w)) w in
      let w2 := set_state selecting_main_category w1 in
      answer ("✅ В заказ добавлено: " ++ MenuItem.name item ++ " x" ++ py_str quantity
              ++ nl ++ nl ++ "Выберите раздел меню или завершите заказ:")
             get_main_categories_keyboard w2
  | _, _ =>
      answer "❌ Ошибка при добавлении позиции. Попробуйте снова."
             get_main_keyboard w
  end.

(** The handler of [entering_quantity]. (The handler registered before it
    for this state takes the text "🔙 Назад" and is [back_to_items].)
    Both branches of the [try] that end in [ValueError] send the same
    re-prompt. *)
Definition process_quantity (text : string) (w : world) : result world :=
  if String.eqb text "Другое количество" then
    Ok (answer "Введите количество (число):" [ ["🔙 Назад"] ] w)
  else if String.eqb text "🔙 Назад" || String.eqb text "🔙 Отмена" then
    back_to_items w
  else
    match int text with
    | Some quantity =>
        if quantity <=? 0 then
          Ok (answer "❌ Пожалуйста, введите корректное положительное число."
                     get_quantity_keyboard w)
        else Ok (add_item_with_quantity quantity w)
    | None =>
        Ok (answer "❌ Пожалуйста, введите корректное положительное число."
                   get_quantity_keyboard w)
    end.

End WithBuiltins.

(** A handler run that only sent one answer: the FSM context (state and
    data bag) and both managers are as before. *)
Definition only_answered (w w' : world) (text : string)
    (reply_markup : list (list string)) : Prop :=
  fsm w' = fsm w
  /\ order_manager w' = order_manager w
  /\ menu_manager w' = menu_manager w
  /\ sent w' = (sent w ++ [mk_answer text reply_markup])%list.

(** Stand-ins for the two builtins, to run the handlers on examples:
    [decimal_int] reads a non-empty string of ASCII digits and refuses
    everything else; [same_case] leaves a string as it is. *)
Definition digit_value (c : ascii) : option Z :=
  let n := Z.of_nat (nat_of_ascii c) in
  if (48 <=? n) && (n <=? 57) then Some (n - 48) else None.

Fixpoint decimal_digits (acc : Z) (s : string) : option Z :=
  match s with
  | EmptyString => Some acc
  | String c rest =>
      match digit_value c with
      | Some d => decimal_digits (10 * acc + d) rest
      | None => None
      end
  end.

Definition decimal_int (s : string) : option Z :=
  match s with
  | EmptyString => None
  | String _ _ => decimal_digits 0 s
  end.

Definition same_case (s : string) : string := s.

(** *** The other handlers of the order-taking flow *)

(** [state.clear()]: no state and an empty data bag. *)
Definition clear (w : world) : world :=
  {| fsm := mk_ctx None None None None None None;
     order_manager := order_manager w;
     menu_manager := menu_manager w;
     sent := sent w |}.

(** [state.update_data(key=value)], one definition per key. *)
Definition update_current_order_id (order_id : Z) (w : world) : world :=
  {| fsm := {| state := state (fsm w);
               current_order_id := Some order_id;
               current_item_id := current_item_id (fsm w);
               current_main_category := current_main_category (fsm w);
               current_category := current_category (fsm w);
               active_orders := active_orders (fsm w) |};
     order_manager := order_manager w;
     menu_manager := menu_manager w;
     sent := sent w |}.

Definition update_current_item_id (item_id : Z) (w : world) : world :=
  {| fsm := {| state := state (fsm w);
               current_order_id := current_order_id (fsm w);
               current_item_id := Some item_id;
               current_main_category := current_main_category (fsm w);
               current_category := current_category (fsm w);
               active_orders := active_orders (fsm w) |};
     order_manager := order_manager w;
     menu_manager := menu_manager w;
     sent := sent w |}.

Definition update_current_main_category (main_category : string) (w : world) : world :=
  {| fsm := {| state := state (fsm w);
               current_order_id := current_order_id (fsm w);
               current_item_id := current_item_id (fsm w);
               current_main_category := Some main_category;
               current_category := current_category (fsm w);
               active_orders := active_orders (fsm w) |};
     order_manager := order_manager w;
     menu_manager := menu_manager w;
     sent := sent w |}.

Definition update_current_category (category : string) (w : world) : world :=
  {| fsm := {| state := state (fsm w);
               current_order_id := current_order_id (fsm w);
               current_item_id := current_item_id (fsm w);
               current_main_category := current_main_category (fsm w);
               current_category := Some category;
               active_orders := active_orders (fsm w) |};
     order_manager := order_manager w;
     menu_manager := menu_manager w;
     sent := sent w |}.

Definition update_active_orders (order_map : list (string * Z)) (w : world) : world :=
  {| fsm := {| state := state (fsm w);
               current_order_id := current_order_id (fsm w);
               current_item_id := current_item_id (fsm w);
               current_main_category := current_main_category (fsm w);
               current_category := current_category (fsm w);
               active_orders := Some order_map |};
     order_manager := order_manager w;
     menu_manager := menu_manager w;
     sent := sent w |}.

(** Python's [s.split(sep)] for a one-character separator. *)
Fixpoint split_on (sep : ascii) (s : string) : list string :=
  match s with
  | EmptyString => [EmptyString]
  | String c rest =>
      if Ascii.eqb c sep then EmptyString :: split_on sep rest
      else match split_on sep rest with
           | piece :: pieces => String c piece :: pieces
           | [] => [String c EmptyString]
           end
  end.

(** Python's [range(start, stop, step)] for a positive step. *)
Fixpoint range_from (fuel : nat) (i stop step : Z) : list Z :=
  match fuel with
  | O => []
  | S fuel' => if i <? stop then i :: range_from fuel' (i + step) stop step else []
  end.

Definition py_range (start stop step : Z) : list Z :=
  range_from (Z.to_nat (stop - start)) start stop step.

(** A [dict] from button texts to order ids: [d[key] = value] and
    [d.get(key)]. *)
Fixpoint dict_set (key : string) (value : Z) (d : list (string * Z))
  : list (string * Z) :=
  match d with
  | [] => [(key, value)]
  | (k, v) :: rest =>
      if String.eqb k key then (k, value) :: rest
      else (k, v) :: dict_set key value rest
  end.

Definition dict_get (key : string) (d : list (string * Z)) : option Z :=
  match find (fun entry => String.eqb (fst entry) key) d with
  | Some entry => Some (snd entry)
  | None => None
  end.

Definition table_button (j : Z) : string := "Стол " ++ py_str j.

Definition get_tables_keyboard : list (list string) :=
  (map (fun i =>
          map table_button (py_range i (Z.min (i + 3) (Config.TABLE_COUNT + 1)) 1))
       (py_range 1 (Config.TABLE_COUNT + 1) 3)
   ++ [ ["🔙 Вернуться в главное меню"] ])%list.

(** Rows of two, as the loop over [range(0, len(subcategories), 2)]
    builds them. *)
Fixpoint rows_of_two (xs : list string) : list (list string) :=
  match xs with
  | [] => []
  | [x] => [ [x] ]
  | x :: y :: rest => [x; y] :: rows_of_two rest
  end.

(** [MENU_CATEGORIES.get(main_category, [])] on what [data.get] gave. *)
Definition subcategories_of (main_category : option string) : list string :=
  match main_category with
  | Some m => MenuManager.get_subcategories m
  | None => []
  end.

Definition get_subcategories_keyboard (main_category : option string)
  : list (list string) :=
  (rows_of_two (subcategories_of main_category)
   ++ [ ["🔙 Назад к основным категориям"] ])%list.

(** The text of an order's button in the list of active orders. *)
Definition order_button (order : Order.t) : string :=
  "Стол " ++ py_str (Order.table_number order) ++ " - "
  ++ py_str (Z.of_nat (List.length (Order.items order))) ++ " поз.".

Definition get_active_orders_keyboard (om : OrderManager.t) : list (list string) :=
  (map (fun order => [order_button order]) (OrderManager.get_active_orders om)
   ++ [ ["🔙 Вернуться в главное меню"] ])%list.

Definition get_order_actions_keyboard (order : Order.t) : list (list string) :=
  [ ["➕ Добавить позиции (Стол " ++ py_str (Order.table_number order) ++ ")"];
    ["✅ Закрыть заказ (Стол " ++ py_str (Order.table_number order) ++ ")"];
    ["🔙 Назад к заказам"] ].

Definition get_confirmation_keyboard : list (list string) :=
  [ ["✅ Да, закрыть заказ"; "❌ Нет, отмена"] ].

(** [items_by_category]: a [dict] from category to the lines of that
    category; a new category goes to the end, a line goes to the end of
    the list of its category. *)
Fixpoint group_insert (category : string) (line : OrderItem.t)
    (groups : list (string * list OrderItem.t)) : list (string * list OrderItem.t) :=
  match groups with
  | [] => [(category, [line])]
  | (c, lines) :: rest =>
      if String.eqb c category then (c, (lines ++ [line])%list) :: rest
      else (c, lines) :: group_insert category line rest
  end.

Definition items_by_category (lines : list OrderItem.t)
  : list (string * list OrderItem.t) :=
  fold_left (fun groups line =>
               group_insert (MenuItem.category (OrderItem.menu_item line)) line groups)
            lines [].

(** The lines of one category, numbered from [i] ([enumerate(items, 1)]). *)
Fixpoint numbered_lines (indent : string) (i : Z) (lines : list OrderItem.t) : string :=
  match lines with
  | [] => EmptyString
  | line :: rest =>
      indent ++ py_str i ++ ". " ++ MenuItem.name (OrderItem.menu_item line)
      ++ " x" ++ py_str (OrderItem.quantity line) ++ nl
      ++ numbered_lines indent (i + 1) rest
  end.

Fixpoint format_groups (indent : string) (groups : list (string * list OrderItem.t))
  : string :=
  match groups with
  | [] => EmptyString
  | (category, lines) :: rest =>
      "<b>" ++ category ++ ":</b>" ++ nl ++ numbered_lines indent 1 lines
      ++ format_groups indent rest
  end.

Definition format_order_text (order : Order.t) : string :=
  let text := "<b>Заказ #" ++ py_str (Order.id order) ++ " (Стол "
              ++ py_str (Order.table_number order) ++ ")</b>" ++ nl ++ nl in
  match Order.items order with
  | [] => text ++ "Заказ пуст. Добавьте позиции из меню." ++ nl
  | _ :: _ =>
      text ++ format_groups "    " (items_by_category (Order.items order)) ++ nl
  end.

(** The first lookup of the list handlers: [order_map] maps the button of
    each active order to its id; a later order with the same button text
    takes the entry over. *)
Definition order_map_of (orders : list Order.t) : list (string * Z) :=
  fold_left (fun order_map order => dict_set (order_button order) (Order.id order) order_map)
            orders [].

(** The distinct elements of a list, in the order of their first
    occurrence, and the lines of one category. *)
Definition first_occurrences (xs : list string) : list string :=
  fold_left (fun seen x => if str_in x seen then seen else (seen ++ [x])%list) xs [].

Definition lines_of_category (category : string) (lines : list OrderItem.t)
  : list OrderItem.t :=
  filter (fun line =>
            String.eqb (MenuItem.category (OrderItem.menu_item line)) category)
         lines.

(** Both managers are as before. *)
Definition same_stores (w w' : world) : Prop :=
  order_manager w' = order_manager w /\ menu_manager w' = menu_manager w.

(** A handler that may raise after it has changed something. *)
Inductive outcome : Type :=
| Returned (w : world)
| Raised (e : exn) (w : world).

Definition world_of (o : outcome) : world :=
  match o with
  | Returned w => w
  | Raised _ w => w
  end.

Section OrderFlow.

(** Python's [int(text)], [str.lower] and
    [datetime.fromisoformat(ts).strftime("%d.%m.%Y %H:%M")] ([None] when
    it raises [ValueError]). *)
Variable int : string -> option Z.
Variable lower : string -> string.
Variable format_timestamp : string -> option string.

Definition new_order (w : world) : world :=
  answer ("🆕 <b>Новый заказ</b>" ++ nl ++ nl ++ "Выберите номер стола:")
         get_tables_keyboard (set_state selecting_table w).

(** [show_active_orders]; [back_to_active_orders] has the same body. *)
Definition show_active_orders (w : world) : world :=
  let active_orders := OrderManager.get_active_orders (order_manager w) in
  match active_orders with
  | [] =>
      answer ("📋 <b>Активные заказы</b>" ++ nl ++ nl
              ++ "На данный момент нет активных заказов.")
             get_main_keyboard w
  | _ :: _ =>
      let w1 := update_active_orders (order_map_of active_orders) w in
      let w2 := set_state viewing_order w1 in
      answer ("📋 <b>Активные заказы</b>" ++ nl ++ nl
              ++ "Выберите заказ для просмотра:")
             (get_active_orders_keyboard (order_manager w2)) w2
  end.

Definition back_to_active_orders (w : world) : world := show_active_orders w.

Definition back_to_tables (w : world) : world :=
  answer ("🆕 <b>Новый заказ</b>" ++ nl ++ nl ++ "Выберите номер стола:")
         get_tables_keyboard (set_state selecting_table w).

(** The [try] block of [select_table]: [IndexError] and [ValueError] both
    end in the re-prompt. *)
Definition parse_table (text : string) : option Z :=
  match nth_error (split_on " "%char text) 1 with
  | Some piece =>
      match int piece with
      | Some table_number =>
          if (1 <=? table_number) && (table_number <=? Config.TABLE_COUNT)
          then Some table_number else None
      | None => None
      end
  | None => None
  end.

Definition select_table (now : string) (text : string) (w : world) : result world :=
  if String.eqb text "🔙 Вернуться в главное меню" then
    Ok (answer "Вы вернулись в главное меню." get_main_keyboard (clear w))
  else if negb (String.prefix "Стол " text) then
    Ok (answer "❌ Пожалуйста, выберите стол из списка:" get_tables_keyboard w)
  else
    match parse_table text with
    | None =>
        Ok (answer "❌ Пожалуйста, выберите стол из списка:" get_tables_keyboard w)
    | Some table_number =>
        match OrderManager.get_table_active_order table_number (order_manager w) with
        | Some existing_order =>
            let w1 := update_current_order_id (Order.id existing_order) w in
            let w2 := set_state managing_order w1 in
            Ok (answer ("📋 <b>Существующий заказ для стола " ++ py_str table_number
                        ++ "</b>" ++ nl ++ nl ++ format_order_text existing_order)
                       (get_order_actions_keyboard existing_order) w2)
        | None =>
            match OrderManager.create_order now table_number (order_manager w) with
            | Raise e => Raise e
            | Ok (order, om) =>
                let w1 := set_order_manager om w in
                let w2 := update_current_order_id (Order.id order) w1 in
                let w3 := set_state selecting_main_category w2 in
                Ok (answer ("🆕 <b>Новый заказ для стола " ++ py_str table_number
                            ++ "</b>" ++ nl ++ nl ++ "Выберите раздел меню:")
                           get_main_categories_keyboard w3)
            end
        end
    end.

(** [order_manager.get_order_by_id(data.get("current_order_id"))] *)
Definition current_order (w : world) : option Order.t :=
  match current_order_id (fsm w) with
  | Some i => OrderManager.get_order_by_id i (order_manager w)
  | None => None
  end.

(** [close_order] with what [data.get("current_order_id")] gave; no order
    has the id [None]. *)
Definition close_current_order (w : world) : bool * world :=
  match current_order_id (fsm w) with
  | Some i =>
      let closed := OrderManager.close_order i (order_manager w) in
      (fst closed, set_order_manager (snd closed) w)
  | None => (false, w)
  end.

Definition select_main_category (text : string) (w : world) : world :=
  if String.eqb text "🔙 Назад к столам" then back_to_tables w
  else if String.eqb text "✅ Завершить заказ" then
    match current_order w with
    | None => answer "❌ Заказ не найден." get_main_keyboard w
    | Some order =>
        match Order.items order with
        | [] =>
            let w1 := snd (close_current_order w) in
            let w2 :=
              answer "❌ Заказ отменен, так как не было добавлено ни одной позиции."
                     get_main_keyboard w1 in
            clear w2
        | _ :: _ =>
            let w1 :=
              answer ("✅ <b>Заказ для стола " ++ py_str (Order.table_number order)
                      ++ " создан</b>" ++ nl ++ nl ++ format_order_text order)
                     get_main_keyboard w in
            clear w1
        end
    end
  else if negb (str_in text Config.MAIN_CATEGORIES) then
    answer "❌ Пожалуйста, выберите раздел меню из списка:"
           get_main_categories_keyboard w
  else
    let w1 := update_current_main_category text w in
    let w2 := set_state selecting_category w1 in
    answer ("<b>" ++ text ++ "</b>" ++ nl ++ nl ++ "Выберите категорию блюд:")
           (get_subcategories_keyboard (Some text)) w2.

Definition items_keyboard (items : list MenuItem.t) : list (list string) :=
  (map (fun item => [MenuItem.name item]) items
   ++ [ ["🔙 Назад к подкатегориям"] ])%list.

Definition select_subcategory (text : string) (w : world) : world :=
  let main_category := current_main_category (fsm w) in
  if String.eqb text "🔙 Назад к основным категориям" then
    answer "Выберите раздел меню:" get_main_categories_keyboard
           (set_state selecting_main_category w)
  else if negb (str_in text (subcategories_of main_category)) then
    answer "❌ Пожалуйста, выберите категорию из списка:"
           (get_subcategories_keyboard main_category) w
  else
    let w1 := update_current_category text w in
    let items :=
      MenuManager.get_menu_items_by_category lower text (menu_manager w1) in
    match items with
    | [] =>
        answer ("❌ В категории " ++ dquote ++ text ++ dquote ++ " нет позиций.")
               (get_subcategories_keyboard main_category) w1
    | _ :: _ =>
        answer ("🍽️ <b>Выберите позицию из категории " ++ dquote ++ text
                ++ dquote ++ "</b>")
               (items_keyboard items) (set_state selecting_menu_item w1)
    end.

Definition back_to_subcategories (w : world) : world :=
  let main_category := current_main_category (fsm w) in
  answer ("<b>" ++ match main_category with Some m => m | None => "None" end
          ++ "</b>" ++ nl ++ nl ++ "Выберите категорию блюд:")
         (get_subcategories_keyboard main_category)
         (set_state selecting_category w).

(** [get_menu_items_by_category] on what [data.get("current_category")]
    gave: with [None], [category.lower()] raises at the first menu item. *)
Definition items_of_current_category (w : world) : result (list MenuItem.t) :=
  match current_category (fsm w) with
  | Some c => Ok (MenuManager.get_menu_items_by_category lower c (menu_manager w))
  | None =>
      match MenuManager.menu_items (menu_manager w) with
      | [] => Ok []
      | _ :: _ => Raise (AttributeError "'NoneType' object has no attribute 'lower'")
      end
  end.

(** [get_category_items_keyboard(category)] runs the query once more. *)
Definition select_menu_item (text : string) (w : world) : result world :=
  match items_of_current_category w with
  | Raise e => Raise e
  | Ok items =>
      match find (fun item => String.prefix (MenuItem.name item) text) items with
      | None =>
          Ok (answer "❌ Пожалуйста, выберите блюдо из списка:"
                     (items_keyboard items) w)
      | Some selected_item =>
          let w1 := update_current_item_id (MenuItem.id selected_item) w in
          let w2 := set_state entering_quantity w1 in
          Ok (answer ("🔢 <b>Выберите количество</b>" ++ nl ++ nl ++ "Блюдо: "
                      ++ MenuItem.name selected_item)
                     get_quantity_keyboard w2)
      end
  end.

Definition view_order (text : string) (w : world) : world :=
  if String.eqb text "🔙 Вернуться в главное меню" then
    answer "Вы вернулись в главное меню." get_main_keyboard (clear w)
  else
    let order_map :=
      match active_orders (fsm w) with Some d => d | None => [] end in
    match dict_get text order_map with
    | None =>
        answer "❌ Пожалуйста, выберите заказ из списка:"
               (get_active_orders_keyboard (order_manager w)) w
    | Some order_id =>
        if order_id =? 0 then
          answer "❌ Пожалуйста, выберите заказ из списка:"
                 (get_active_orders_keyboard (order_manager w)) w
        else
          match OrderManager.get_order_by_id order_id (order_manager w) with
          | None =>
              answer "❌ Заказ не найден."
                     (get_active_orders_keyboard (order_manager w)) w
          | Some order =>
              let w1 := update_current_order_id order_id w in
              let w2 := set_state managing_order w1 in
              answer ("📋 <b>Заказ для стола " ++ py_str (Order.table_number order)
                      ++ "</b>" ++ nl ++ nl ++ format_order_text order)
                     (get_order_actions_keyboard order) w2
          end
    end.

Definition manage_order (text : string) (w : world) : world :=
  if String.eqb text "🔙 Назад к заказам" then back_to_active_orders w
  else
    match current_order w with
    | None => answer "❌ Заказ не найден." get_main_keyboard w
    | Some order =>
        if String.prefix "➕ Добавить позиции" text then
          answer ("🆕 <b>Добавление позиций в заказ стола "
                  ++ py_str (Order.table_number order) ++ "</b>" ++ nl ++ nl
                  ++ "Выберите раздел меню:")
                 get_main_categories_keyboard
                 (set_state selecting_main_category w)
        else if String.prefix "✅ Закрыть заказ" text then
          answer ("⚠️ <b>Подтверждение закрытия заказа</b>" ++ nl ++ nl
                  ++ format_order_text order ++ nl ++ nl
                  ++ "Вы действительно хотите закрыть заказ для стола "
                  ++ py_str (Order.table_number order) ++ "?")
                 get_confirmation_keyboard
                 (set_state confirm_close w)
        else
          answer "❌ Пожалуйста, выберите действие из списка:"
                 (get_order_actions_keyboard order) w
    end.

(** [if not order_id]: [None] and [0] are falsy. *)
Definition falsy_id (order_id : option Z) : bool :=
  match order_id with
  | Some i => i =? 0
  | None => true
  end.

(** The handler of [confirm_close] for the text "✅ Да, закрыть заказ".
    The receipt is built from the order object found before the call of
    [close_order]. *)
Definition confirm_close_order (w : world) : outcome :=
  if falsy_id (current_order_id (fsm w)) then
    Returned (answer "❌ Ошибка! Информация о заказе не найдена." get_main_keyboard w)
  else
    match current_order w with
    | None =>
        Returned (answer "❌ Заказ не найден! Возможно, он был уже закрыт."
                         get_main_keyboard w)
    | Some order =>
        let closed := close_current_order w in
        if fst closed then
          match format_timestamp (Order.timestamp order) with
          | None => Raised (ValueError "Invalid isoformat string") (snd closed)
          | Some timestamp =>
              Returned
                (answer ("✅ <b>ЗАКАЗ #" ++ py_str (Order.id order) ++ " ЗАКРЫТ</b>"
                         ++ nl ++ nl ++ "<b>Дата:</b> " ++ timestamp ++ nl
                         ++ "<b>Стол:</b> " ++ py_str (Order.table_number order)
                         ++ nl ++ nl ++ "<b>СОСТАВ ЗАКАЗА:</b>" ++ nl
                         ++ format_groups "  " (items_by_category (Order.items order)))
                        get_main_keyboard (snd closed))
          end
        else
          Returned (answer "❌ Ошибка при закрытии заказа!" get_main_keyboard
                           (snd closed))
    end.

(** The handler of [confirm_close] for the text "❌ Нет, отмена". *)
Definition cancel_close_order (w : world) : world :=
  if falsy_id (current_order_id (fsm w)) then
    answer "❌ Ошибка! Информация о заказе не найдена." get_main_keyboard w
  else
    match current_order w with
    | Some order =>
        answer "Отмена закрытия заказа. Вы вернулись к управлению заказом."
               (get_order_actions_keyboard order)
               (set_state managing_order w)
    | None => answer "❌ Заказ не найден." get_main_keyboard w
    end.

End OrderFlow.

End Handlers.

(** ** handlers/menu_handlers.py : the menu-editing flow *)

Module MenuHandlers.

Inductive MenuStates : Type :=
| main_menu
| edit_menu
| adding_item_main_category
| adding_item_category
| adding_item_name
| deleting_main_category
| deleting_category
| deleting_item_select
| confirm_delete.

(** The FSM context of one chat, with the keys of the menu-editing flow. *)
Record FSMContext : Type := mk_ctx {
  state : option MenuStates;
  new_item_main_category : option string;
  new_item_category : option string;
  new_item_name : option string;
  delete_main_category : option string;
  delete_category : option string;
  delete_item_id : option Z;
  delete_item_name : option string
}.

(** [message.answer(text, reply_markup=...)]; some answers of this flow
    carry no keyboard. *)
Record Answer : Type := mk_answer {
  text : string;
  reply_markup : option (list (list string))
}.

Record world : Type := mk_world {
  fsm : FSMContext;
  menu_manager : MenuManager.t;
  sent : list Answer
}.

Definition with_fsm (ctx : FSMContext) (w : world) : world :=
  {| fsm := ctx; menu_manager := menu_manager w; sent := sent w |}.

Definition set_state (s : MenuStates) (w : world) : world :=
  with_fsm {| state := Some s;
              new_item_main_category := new_item_main_category (fsm w);
              new_item_category := new_item_category (fsm w);
              new_item_name := new_item_name (fsm w);
              delete_main_category := delete_main_category (fsm w);
              delete_category := delete_category (fsm w);
              delete_item_id := delete_item_id (fsm w);
              delete_item_name := delete_item_name (fsm w) |} w.

(** [state.clear()] *)
Definition clear (w : world) : world :=
  with_fsm (mk_ctx None None None None None None None None) w.

Definition update_new_item_main_category (v : string) (w : world) : world :=
  with_fsm {| state := state (fsm w);
              new_item_main_category := Some v;
              new_item_category := new_item_category (fsm w);
              new_item_name := new_item_name (fsm w);
              delete_main_category := delete_main_category (fsm w);
              delete_category := delete_category (fsm w);
              delete_item_id := delete_item_id (fsm w);
              delete_item_name := delete_item_name (fsm w) |} w.

Definition update_new_item_category (v : string) (w : world) : world :=
  with_fsm {| state := state (fsm w);
              new_item_main_category := new_item_main_category (fsm w);
              new_item_category := Some v;
              new_item_name := new_item_name (fsm w);
              delete_main_category := delete_main_category (fsm w);
              delete_category := delete_category (fsm w);
              delete_item_id := delete_item_id (fsm w);
              delete_item_name := delete_item_name (fsm w) |} w.

Definition update_new_item_name (v : string) (w : world) : world :=
  with_fsm {| state := state (fsm w);
              new_item_main_category := new_item_main_category (fsm w);
              new_item_category := new_item_category (fsm w);
              new_item_name := Some v;
              delete_main_category := delete_main_category (fsm w);
              delete_category := delete_category (fsm w);
              delete_item_id := delete_item_id (fsm w);
              delete_item_name := delete_item_name (fsm w) |} w.

Definition update_delete_main_category (v : string) (w : world) : world :=
  with_fsm {| state := state (fsm w);
              new_item_main_category := new_item_main_category (fsm w);
              new_item_category := new_item_category (fsm w);
              new_item_name := new_item_name (fsm w);
              delete_main_category := Some v;
              delete_category := delete_category (fsm w);
              delete_item_id := delete_item_id (fsm w);
              delete_item_name := delete_item_name (fsm w) |} w.

Definition update_delete_category (v : string) (w : world) : world :=
  with_fsm {| state := state (fsm w);
              new_item_main_category := new_item_main_category (fsm w);
              new_item_category := new_item_category (fsm w);
              new_item_name := new_item_name (fsm w);
              delete_main_category := delete_main_category (fsm w);
              delete_category := Some v;
              delete_item_id := delete_item_id (fsm w);
              delete_item_name := delete_item_name (fsm w) |} w.

(** [state.update_data(delete_item_id=item.id, delete_item_name=item.name)] *)
Definition update_delete_item (item : MenuItem.t) (w : world) : world :=
  with_fsm {| state := state (fsm w);
              new_item_main_category := new_item_main_category (fsm w);
              new_item_category := new_item_category (fsm w);
              new_item_name := new_item_name (fsm w);
              delete_main_category := delete_main_category (fsm w);
              delete_category := delete_category (fsm w);
              delete_item_id := Some (MenuItem.id item);
              delete_item_name := Some (MenuItem.name item) |} w.

Definition set_menu_manager (mm : MenuManager.t) (w : world) : world :=
  {| fsm := fsm w; menu_manager := mm; sent := sent w |}.

Definition answer (text : string) (reply_markup : option (list (list string)))
    (w : world) : world :=
  {| fsm := fsm w;
     menu_manager := menu_manager w;
     sent := (sent w ++ [mk_answer text reply_markup])%list |}.

Definition nl : string := Handlers.nl.
Definition dquote : string := Handlers.dquote.

(** An f-string prints a missing key as [None]. *)
Definition shown (v : option string) : string :=
  match v with
  | Some s => s
  | None => "None"
  end.

Definition get_menu_main_keyboard : list (list string) :=
  [ ["⚙️ Изменить меню"]; ["🔙 Вернуться в главное меню"] ].

Definition get_edit_menu_keyboard : list (list string) :=
  [ ["➕ Добавить позицию"]; ["➖ Удалить позицию"]; ["🔙 Назад в меню"] ].

(** One button per row, then the back button. *)
Definition column_keyboard (labels : list string) : list (list string) :=
  (map (fun label => [label]) labels ++ [ ["🔙 Назад"] ])%list.

Definition show_menu (w : world) : world :=
  answer ("🍽️ <b>Меню ресторана</b>" ++ nl ++ nl ++ "Выберите действие:")
         (Some get_menu_main_keyboard) (set_state main_menu w).

Definition back_to_menu (w : world) : world :=
  answer ("🍽️ <b>Меню ресторана</b>" ++ nl ++ nl ++ "Выберите действие:")
         (Some get_menu_main_keyboard) (set_state main_menu w).

Definition handle_main_menu (text : string) (w : world) : world :=
  if String.eqb text "⚙️ Изменить меню" then
    answer ("⚙️ <b>Изменение меню</b>" ++ nl ++ nl ++ "Выберите действие:")
           (Some get_edit_menu_keyboard) (set_state edit_menu w)
  else if String.eqb text "🔙 Вернуться в главное меню" then
    answer "Вы вернулись в главное меню." (Some Handlers.get_main_keyboard) (clear w)
  else
    answer "❌ Пожалуйста, выберите действие из списка:"
           (Some get_menu_main_keyboard) w.

Definition add_item_start (w : world) : world :=
  answer ("➕ <b>Добавление новой позиции</b>" ++ nl ++ nl
          ++ "Выберите основную категорию (Кухня/Бар):")
         (Some (column_keyboard MenuManager.get_main_categories))
         (set_state adding_item_main_category w).

Definition delete_item_start (w : world) : world :=
  answer ("➖ <b>Удаление позиции</b>" ++ nl ++ nl
          ++ "Выберите основную категорию (Кухня/Бар):")
         (Some (column_keyboard MenuManager.get_main_categories))
         (set_state deleting_main_category w).

Definition handle_edit_menu (text : string) (w : world) : world :=
  if String.eqb text "➕ Добавить позицию" then add_item_start w
  else if String.eqb text "➖ Удалить позицию" then delete_item_start w
  else if String.eqb text "🔙 Назад в меню" then back_to_menu w
  else
    answer "❌ Пожалуйста, выберите действие из списка:"
           (Some get_edit_menu_keyboard) w.

Definition select_add_main_category (text : string) (w : world) : world :=
  if String.eqb text "🔙 Назад" then
    answer ("⚙️ <b>Изменение меню</b>" ++ nl ++ nl ++ "Выберите действие:")
           (Some get_edit_menu_keyboard) (set_state edit_menu w)
  else if negb (str_in text MenuManager.get_main_categories) then
    answer "❌ Пожалуйста, выберите категорию из списка." None w
  else
    let w1 := update_new_item_main_category text w in
    answer ("➕ <b>Добавление позиции</b>" ++ nl ++ nl
            ++ "Выбрана основная категория: " ++ text ++ nl
            ++ "Выберите подкатегорию:")
           (Some (column_keyboard (MenuManager.get_subcategories text)))
           (set_state adding_item_category w1).

Definition select_add_category (text : string) (w : world) : world :=
  let main_category := new_item_main_category (fsm w) in
  if String.eqb text "🔙 Назад" then add_item_start w
  else if negb (str_in text (Handlers.subcategories_of main_category)) then
    answer "❌ Пожалуйста, выберите подкатегорию из списка." None w
  else
    let w1 := update_new_item_category text w in
    answer ("➕ <b>Добавление позиции в категорию: " ++ text ++ "</b>" ++ nl ++ nl
            ++ "Введите название блюда:")
           (Some [ ["🔙 Назад"] ])
           (set_state adding_item_name w1).

(** [process_item_name]. A chat gets into [adding_item_name] only through
    [select_add_category], which stores [new_item_category] first; without
    that key the source would build a menu item with no category, which
    the typed [MenuItem.t] does not hold: the model gives [None] there. *)
Definition process_item_name (text : string) (w : world) : option world :=
  if String.eqb text "🔙 Назад" then
    let main_category := new_item_main_category (fsm w) in
    Some (answer "Выберите подкатегорию для новой позиции:"
                 (Some (column_keyboard (Handlers.subcategories_of main_category)))
                 (set_state adding_item_category w))
  else
    let w1 := update_new_item_name text w in
    match new_item_category (fsm w1) with
    | None => None
    | Some category =>
        let main_category := new_item_main_category (fsm w1) in
        let added :=
          MenuManager.add_item text category main_category (menu_manager w1) in
        let w2 := set_menu_manager (snd added) w1 in
        Some (answer ("✅ Позиция " ++ dquote ++ text ++ dquote
                      ++ " успешно добавлена в категорию " ++ dquote ++ category
                      ++ dquote ++ ".")
                     (Some get_edit_menu_keyboard)
                     (set_state edit_menu w2))
    end.

Definition select_delete_main_category (text : string) (w : world) : world :=
  if String.eqb text "🔙 Назад" then
    answer ("⚙️ <b>Изменение меню</b>" ++ nl ++ nl ++ "Выберите действие:")
           (Some get_edit_menu_keyboard) (set_state edit_menu w)
  else if negb (str_in text MenuManager.get_main_categories) then
    answer "❌ Пожалуйста, выберите категорию из списка." None w
  else
    let w1 := update_delete_main_category text w in
    answer ("➖ <b>Удаление позиции</b>" ++ nl ++ nl
            ++ "Выбрана основная категория: " ++ text ++ nl
            ++ "Выберите подкатегорию:")
           (Some (column_keyboard (MenuManager.get_subcategories text)))
           (set_state deleting_category w1).

Section WithLower.

Variable lower : string -> string.

(** [get_menu_items_by_category] on what [data.get("delete_category")]
    gave: with [None], [category.lower()] raises at the first menu item. *)
Definition items_to_delete (w : world) : result (list MenuItem.t) :=
  match delete_category (fsm w) with
  | Some c => Ok (MenuManager.get_menu_items_by_category lower c (menu_manager w))
  | None =>
      match MenuManager.menu_items (menu_manager w) with
      | [] => Ok []
      | _ :: _ => Raise (AttributeError "'NoneType' object has no attribute 'lower'")
      end
  end.

Definition select_delete_category (text : string) (w : world) : world :=
  let main_category := delete_main_category (fsm w) in
  if String.eqb text "🔙 Назад" then delete_item_start w
  else if negb (str_in text (Handlers.subcategories_of main_category)) then
    answer "❌ Пожалуйста, выберите подкатегорию из списка." None w
  else
    let items :=
      MenuManager.get_menu_items_by_category lower text (menu_manager w) in
    match items with
    | [] =>
        answer ("❌ В категории " ++ dquote ++ text ++ dquote ++ " нет позиций.")
               (Some get_edit_menu_keyboard) (set_state edit_menu w)
    | _ :: _ =>
        let w1 := update_delete_category text w in
        answer ("➖ <b>Удаление позиции из категории: " ++ text ++ "</b>" ++ nl ++ nl
                ++ "Выберите позицию для удаления:")
               (Some (column_keyboard (map MenuItem.name items)))
               (set_state deleting_item_select w1)
    end.

(** The handler of [deleting_item_select]; [next(...)] takes the first
    item of the category with exactly that name. *)
Definition confirm_delete_item (text : string) (w : world) : result world :=
  if String.eqb text "🔙 Назад" then
    let main_category := delete_main_category (fsm w) in
    Ok (answer ("➖ <b>Удаление позиции</b>" ++ nl ++ nl
                ++ "Выбрана основная категория: " ++ shown main_category ++ nl
                ++ "Выберите подкатегорию:")
               (Some (column_keyboard (Handlers.subcategories_of main_category)))
               (set_state deleting_category w))
  else
    match items_to_delete w with
    | Raise e => Raise e
    | Ok items =>
        match find (fun item => String.eqb (MenuItem.name item) text) items with
        | None =>
            Ok (answer "❌ Позиция не найдена." (Some get_edit_menu_keyboard) w)
        | Some item =>
            let w1 := update_delete_item item w in
            Ok (answer ("⚠️ <b>Подтверждение удаления</b>" ++ nl ++ nl
                        ++ "Вы действительно хотите удалить " ++ dquote
                        ++ MenuItem.name item ++ dquote ++ " из меню?")
                       (Some [ ["✅ Да"; "❌ Нет"] ])
                       (set_state confirm_delete w1))
        end
    end.

(** The handler of [confirm_delete]. [delete_item(None)] finds nothing. *)
Definition final_delete_item (text : string) (w : world) : result world :=
  if String.eqb text "❌ Нет" then
    match items_to_delete w with
    | Raise e => Raise e
    | Ok items =>
        Ok (answer ("➖ <b>Удаление позиции из категории: "
                    ++ shown (delete_category (fsm w)) ++ "</b>" ++ nl ++ nl
                    ++ "Выберите позицию для удаления:")
                   (Some (column_keyboard (map MenuItem.name items)))
                   (set_state deleting_item_select w))
    end
  else if String.eqb text "✅ Да" then
    let deleted :=
      match delete_item_id (fsm w) with
      | Some item_id => MenuManager.delete_item item_id (menu_manager w)
      | None => (false, menu_manager w)
      end in
    let w1 := set_state edit_menu (set_menu_manager (snd deleted) w) in
    if fst deleted then
      Ok (answer ("✅ Позиция " ++ dquote ++ shown (delete_item_name (fsm w)) ++ dquote
                  ++ " успешно удалена из категории " ++ dquote
                  ++ shown (delete_category (fsm w)) ++ dquote ++ ".")
                 (Some get_edit_menu_keyboard) w1)
    else
      Ok (answer "❌ Ошибка при удалении позиции." (Some get_edit_menu_keyboard) w1)
  else
    Ok (answer "❌ Пожалуйста, выберите Да или Нет." None w).

End WithLower.

End MenuHandlers.

(** ** Sample data *)

Module Sample.

Definition caesar : MenuItem.t := MenuItem.mk 1 "Салат Цезарь" "Салаты" "Кухня".
Definition lager : MenuItem.t := MenuItem.mk 2 "Светлое" "Пиво" "Бар".

Definition menu : MenuManager.t :=
  MenuManager.save_menu (MenuManager.mk [caesar; lager] Absent).

Definition noon : string := "2024-05-01T12:00:00".
Definition morning : nat -> string := fun _ => "2024-05-01T09:00:00".

(** Table 5 has an order with one portion of [caesar]. *)
Definition order5 : Order.t :=
  Order.mk 1 5 [OrderItem.mk caesar 1] noon true.

Definition store : OrderManager.t :=
  OrderManager.save_orders (OrderManager.mk [order5] Absent).


(** A chat that has picked order 1 and [caesar] and is asked for the
    quantity. *)
Definition asking_quantity : Handlers.FSMContext :=
  Handlers.mk_ctx (Some Handlers.entering_quantity) (Some 1) (Some 1)
                  (Some "Кухня") (Some "Салаты") None.

Definition world : Handlers.world :=
  Handlers.mk_world asking_quantity store menu [].


End Sample.

(** * Properties *)

Open Scope list_scope.

(** ** Lists, [py_max] and membership *)

Lemma str_in_iff (x : string) (xs : list string) :
  str_in x xs = true <-> In x xs.
Proof.
  unfold str_in. rewrite existsb_exists. split.
  - intros [y [Hin Heq]]. apply String.eqb_eq in Heq. now subst.
  - intros Hin. exists x. split; [assumption | apply String.eqb_refl].
Qed.

Lemma fold_max_lower (xs : list Z) (a : Z) : a <= fold_left Z.max xs a.
Proof.
  revert a. induction xs as [|x xs IH]; intros a; simpl.
  - lia.
  - specialize (IH (Z.max a x)). lia.
Qed.

Lemma fold_max_upper (xs : list Z) (a x : Z) :
  In x xs -> x <= fold_left Z.max xs a.
Proof.
  revert a. induction xs as [|y xs IH]; intros a Hin; simpl in *.
  - contradiction.
  - destruct Hin as [-> | Hin].
    + pose proof (fold_max_lower xs (Z.max a x)). lia.
    + now apply IH.
Qed.

Lemma fold_max_attained (xs : list Z) (a : Z) :
  fold_left Z.max xs a = a \/ In (fold_left Z.max xs a) xs.
Proof.
  revert a. induction xs as [|y xs IH]; intros a; simpl.
  - now left.
  - destruct (IH (Z.max a y)) as [Heq | Hin].
    + rewrite Heq. destruct (Z.max_spec a y) as [[_ ->] | [_ ->]]; auto.
    + auto.
Qed.

(** On a non-empty list [py_max] is the greatest element, whatever the
    default. *)
Lemma py_max_greatest (xs : list Z) (d : Z) :
  xs <> [] ->
  In (py_max xs d) xs /\ forall x, In x xs -> x <= py_max xs d.
Proof.
  destruct xs as [|a xs]; [congruence | intros _]. simpl. split.
  - destruct (fold_max_attained xs a) as [-> | Hin]; auto.
  - intros x [<- | Hin].
    + apply fold_max_lower.
    + now apply fold_max_upper.
Qed.

Lemma py_max_bounds (xs : list Z) (x : Z) : In x xs -> x <= py_max xs 0.
Proof.
  intros Hin. apply py_max_greatest; [|assumption].
  intros ->. contradiction.
Qed.

Lemma update_first_map {A B : Type} (p : A -> bool) (f : A -> A) (g : A -> B)
    (xs : list A) :
  (forall x, g (f x) = g x) -> map g (update_first p f xs) = map g xs.
Proof.
  intros Hg. induction xs as [|x xs IH]; simpl; [reflexivity|].
  destruct (p x); simpl; [now rewrite Hg | now rewrite IH].
Qed.

(** ** Catalog *)

Lemma delete_first_absent (item_id : Z) (items : list MenuItem.t) :
  ~ In item_id (map MenuItem.id items) ->
  MenuManager.delete_first item_id items = None.
Proof.
  induction items as [|item rest IH]; simpl; intros Hnot; [reflexivity|].
  destruct (Z.eqb_spec (MenuItem.id item) item_id) as [Heq | Hne].
  - exfalso. apply Hnot. now left.
  - rewrite IH; [reflexivity | tauto].
Qed.

Lemma delete_first_present (item_id : Z) (items : list MenuItem.t) :
  In item_id (map MenuItem.id items) ->
  exists before item after,
    items = before ++ item :: after
    /\ MenuItem.id item = item_id
    /\ ~ In item_id (map MenuItem.id before)
    /\ MenuManager.delete_first item_id items = Some (before ++ after).
Proof.
  induction items as [|x rest IH]; simpl; intros Hin; [contradiction|].
  destruct (Z.eqb_spec (MenuItem.id x) item_id) as [Heq | Hne].
  - exists [], x, rest. simpl. tauto.
  - destruct Hin as [Heq | Hin]; [contradiction|].
    destruct (IH Hin) as (before & item & after & -> & Hid & Hnot & ->).
    exists (x :: before), item, after. simpl. intuition congruence.
Qed.

Lemma find_category_none (category : string) (cats : list (string * list string)) :
  (forall entry, In entry cats -> ~ In category (snd entry)) ->
  find (fun entry => str_in category (snd entry)) cats = None.
Proof.
  induction cats as [|entry cats IH]; intros Hnone; simpl; [reflexivity|].
  destruct (str_in category (snd entry)) eqn:Hin.
  - apply str_in_iff in Hin. exfalso. apply (Hnone entry); simpl; auto.
  - apply IH. intros e He. apply Hnone. now right.
Qed.

Lemma add_item_id_above (name category : string) (main_category : option string)
    (self : MenuManager.t) (other : MenuItem.t) :
  In other (MenuManager.menu_items self) ->
  MenuItem.id other
  < MenuItem.id (fst (MenuManager.add_item name category main_category self)).
Proof.
  intros Hin. cbn.
  pose proof (py_max_bounds (map MenuItem.id (MenuManager.menu_items self))
                (MenuItem.id other) (in_map _ _ _ Hin)).
  lia.
Qed.

(** C3. [add_item] gives id 1 on an empty catalog and the greatest present
    id plus one on any other catalog, whatever was deleted before; so the
    new id is above every id still present, and after [delete_item d] the
    id [d] is not given out again while an item with a larger id remains. *)
Theorem add_item_id_max_plus_one
    (name category : string) (main_category : option string) (self : MenuManager.t) :
  let ids := map MenuItem.id (MenuManager.menu_items self) in
  let item := fst (MenuManager.add_item name category main_category self) in
  (MenuManager.menu_items self = [] -> MenuItem.id item = 1)
  /\ (MenuManager.menu_items self <> [] ->
      exists m, In m ids /\ (forall x, In x ids -> x <= m) /\ MenuItem.id item = m + 1)
  /\ (forall d,
        let after_delete := snd (MenuManager.delete_item d self) in
        (exists other,
            In other (MenuManager.menu_items after_delete) /\ d < MenuItem.id other) ->
        MenuItem.id (fst (MenuManager.add_item name category main_category after_delete))
        <> d).
Proof.
  cbn zeta. split; [|split].
  - intros Hempty. cbn. now rewrite Hempty.
  - intros Hne. exists (py_max (map MenuItem.id (MenuManager.menu_items self)) 0).
    assert (Hids : map MenuItem.id (MenuManager.menu_items self) <> []).
    { destruct (MenuManager.menu_items self); [congruence | discriminate]. }
    destruct (py_max_greatest _ 0 Hids) as [Hin Hge]. auto.
  - intros d [other [Hin Hlt]].
    pose proof (add_item_id_above name category main_category _ other Hin). lia.
Qed.

(** C6. [delete_item] on an id the catalog does not hold returns [False]
    and leaves the manager as it was (items, their order, and the file);
    on an id it holds it returns [True] and drops the first item with
    that id. *)
Theorem delete_item_absent_unchanged (item_id : Z) (self : MenuManager.t) :
  (~ In item_id (map MenuItem.id (MenuManager.menu_items self)) ->
   MenuManager.delete_item item_id self = (false, self))
  /\ (In item_id (map MenuItem.id (MenuManager.menu_items self)) ->
      fst (MenuManager.delete_item item_id self) = true
      /\ exists before item after,
           MenuManager.menu_items self = before ++ item :: after
           /\ MenuItem.id item = item_id
           /\ ~ In item_id (map MenuItem.id before)
           /\ MenuManager.menu_items (snd (MenuManager.delete_item item_id self))
              = before ++ after).
Proof.
  unfold MenuManager.delete_item. split.
  - intros Hnot. now rewrite delete_first_absent.
  - intros Hin.
    destruct (delete_first_present _ _ Hin) as (before & item & after & Hsplit & Hid & Hnot & Hdel).
    rewrite Hdel. split; [reflexivity|].
    exists before, item, after. auto.
Qed.

(** C8. Without an explicit main category the constructor takes it from
    the category through [MENU_CATEGORIES]; a category listed nowhere gets
    "Кухня"; the first item of an empty catalog, a "Салаты" one, gets id 1
    and "Кухня". *)
Theorem main_category_from_category :
  (forall id name category,
     MenuItem.main_category (MenuItem.init id name category None)
     = MenuItem._determine_main_category category)
  /\ (forall category main subcats,
        In (main, subcats) Config.MENU_CATEGORIES -> In category subcats ->
        MenuItem._determine_main_category category = main)
  /\ (forall category,
        (forall main subcats,
           In (main, subcats) Config.MENU_CATEGORIES -> ~ In category subcats) ->
        MenuItem._determine_main_category category = "Кухня")
  /\ (forall content,
        let item := fst (MenuManager.add_item "Салат Цезарь" "Салаты" None
                           (MenuManager.mk [] content)) in
        MenuItem.id item = 1 /\ MenuItem.main_category item = "Кухня").
Proof.
  split; [|split; [|split]].
  - reflexivity.
  - intros category main subcats Hentry Hcat.
    unfold Config.MENU_CATEGORIES in Hentry. simpl in Hentry.
    destruct Hentry as [Hentry | [Hentry | []]];
      injection Hentry as <- <-; simpl in Hcat;
      repeat (destruct Hcat as [<- | Hcat]; [reflexivity|]);
      contradiction.
  - intros category Hnone.
    unfold MenuItem._determine_main_category.
    rewrite find_category_none; [reflexivity|].
    intros [main subcats] Hentry. now apply (Hnone main).
  - intros content. split; reflexivity.
Qed.

(** ** Serialisation *)

Lemma menu_item_from_to_dict (item : MenuItem.t) :
  MenuItem.from_dict (MenuItem.to_dict item) = item.
Proof. now destruct item. Qed.

Lemma menu_item_to_from_dict (data : MenuItem.dict) :
  persisted_menu_record data = true ->
  MenuItem.to_dict (MenuItem.from_dict data) = data.
Proof.
  destruct data as [i n c [m|]]; [reflexivity | discriminate].
Qed.

Lemma order_item_from_to_dict (line : OrderItem.t) :
  OrderItem.from_dict (OrderItem.to_dict line) = line.
Proof.
  destruct line as [m q]. unfold OrderItem.from_dict, OrderItem.to_dict. cbn.
  now rewrite menu_item_from_to_dict.
Qed.

Lemma order_items_from_to_dict (lines : list OrderItem.t) :
  map OrderItem.from_dict (map OrderItem.to_dict lines) = lines.
Proof.
  rewrite map_map. rewrite <- (map_id lines) at 2.
  apply map_ext. exact order_item_from_to_dict.
Qed.

Lemma order_items_to_from_dict (ds : list OrderItem.dict) :
  forallb (fun d => persisted_menu_record (OrderItem.d_menu_item d)) ds = true ->
  map OrderItem.to_dict (map OrderItem.from_dict ds) = ds.
Proof.
  induction ds as [|d ds IH]; simpl; [reflexivity|].
  intros H. apply andb_true_iff in H. destruct H as [Hd Hds].
  rewrite IH by assumption. f_equal.
  destruct d as [m q]. unfold OrderItem.to_dict, OrderItem.from_dict. cbn in *.
  now rewrite menu_item_to_from_dict.
Qed.

Lemma items_or_empty (lines : list OrderItem.t) :
  match lines with x :: rest => x :: rest | [] => [] end = lines.
Proof. now destruct lines. Qed.

(** C7. On records of the persisted shapes (a menu record with its
    [main_category], an order record with a non-empty timestamp whose lines
    hold such menu records) [to_dict] after [from_dict] gives the record
    back; and [from_dict] after [to_dict] gives back every menu item and
    every order (an order object has a non-empty timestamp). *)
Theorem to_dict_from_dict_round_trip :
  (forall data, persisted_menu_record data = true ->
     MenuItem.to_dict (MenuItem.from_dict data) = data)
  /\ (forall item, MenuItem.from_dict (MenuItem.to_dict item) = item)
  /\ (forall now data, persisted_order_record data = true ->
        Order.to_dict (Order.from_dict now data) = data)
  /\ (forall now order, Order.timestamp order <> EmptyString ->
        Order.from_dict now (Order.to_dict order) = order).
Proof.
  split; [|split; [|split]].
  - exact menu_item_to_from_dict.
  - exact menu_item_from_to_dict.
  - intros now [i t ls ts a] H. unfold persisted_order_record in H. cbn in H.
    apply andb_true_iff in H. destruct H as [Hts Hls].
    unfold Order.to_dict, Order.from_dict, Order.init. cbn.
    rewrite items_or_empty, order_items_to_from_dict by assumption.
    destruct ts; [discriminate | reflexivity].
  - intros now [i t ls ts a] Hts. cbn in Hts.
    unfold Order.to_dict, Order.from_dict, Order.init. cbn.
    rewrite order_items_from_to_dict, items_or_empty.
    destruct ts; [congruence | reflexivity].
Qed.

(** ** Lines of an order *)

Lemma filter_nil_forall {A : Type} (p : A -> bool) (xs : list A) :
  filter p xs = [] -> forall x, In x xs -> p x = false.
Proof.
  induction xs as [|y xs IH]; simpl; [contradiction|].
  destruct (p y) eqn:Hy; [discriminate|].
  intros Hnil x [<- | Hin]; auto.
Qed.

Lemma add_to_items_present (m : MenuItem.t) (q : Z)
    (before : list OrderItem.t) (line : OrderItem.t) (after : list OrderItem.t) :
  MenuItem.id (OrderItem.menu_item line) = MenuItem.id m ->
  (forall l, In l before -> MenuItem.id (OrderItem.menu_item l) <> MenuItem.id m) ->
  Order.add_to_items m q (before ++ line :: after)
  = before ++ OrderItem.mk (OrderItem.menu_item line) (OrderItem.quantity line + q)
              :: after.
Proof.
  intros Hline. induction before as [|l before IH]; intros Hbefore; simpl.
  - rewrite Hline, Z.eqb_refl. reflexivity.
  - destruct (Z.eqb_spec (MenuItem.id (OrderItem.menu_item l)) (MenuItem.id m)) as [Heq|_].
    + exfalso. apply (Hbefore l); simpl; auto.
    + f_equal. apply IH. intros l' Hl'. apply Hbefore. now right.
Qed.

Lemma add_to_items_absent (m : MenuItem.t) (q : Z) (lines : list OrderItem.t) :
  (forall l, In l lines -> MenuItem.id (OrderItem.menu_item l) <> MenuItem.id m) ->
  Order.add_to_items m q lines = lines ++ [OrderItem.mk m q].
Proof.
  induction lines as [|l lines IH]; intros Habsent; simpl; [reflexivity|].
  destruct (Z.eqb_spec (MenuItem.id (OrderItem.menu_item l)) (MenuItem.id m)) as [Heq|_].
  - exfalso. apply (Habsent l); simpl; auto.
  - f_equal. apply IH. intros l' Hl'. apply Habsent. now right.
Qed.

(** C2, as the code has it. On an order with no line for the item's id,
    the first [add_item] appends a line and the second adds to it: one line
    for that id, with quantity [q1 + q2]. On an order that already holds
    the id, no line is added and the first line with that id has its
    quantity raised by [q1 + q2]. *)
Theorem add_item_twice_aggregates
    (order : Order.t) (m : MenuItem.t) (q1 q2 : Z) :
  let once := Order.add_item m q1 order in
  let twice := Order.add_item m q2 once in
  (Order.lines_for (MenuItem.id m) order = [] ->
   Order.items once = Order.items order ++ [OrderItem.mk m q1]
   /\ Order.items twice = Order.items order ++ [OrderItem.mk m (q1 + q2)]
   /\ Order.lines_for (MenuItem.id m) twice = [OrderItem.mk m (q1 + q2)])
  /\ (forall before line after,
        Order.items order = before ++ line :: after ->
        MenuItem.id (OrderItem.menu_item line) = MenuItem.id m ->
        (forall l, In l before ->
                   MenuItem.id (OrderItem.menu_item l) <> MenuItem.id m) ->
        Order.items twice
        = before ++ OrderItem.mk (OrderItem.menu_item line)
                                 (OrderItem.quantity line + (q1 + q2)) :: after).
Proof.
  cbn zeta. unfold Order.lines_for, Order.add_item. cbn [Order.items]. split.
  - intros Hnone.
    assert (Habsent : forall l, In l (Order.items order) ->
                        MenuItem.id (OrderItem.menu_item l) <> MenuItem.id m).
    { intros l Hl. apply Z.eqb_neq. revert l Hl. now apply filter_nil_forall. }
    rewrite (add_to_items_absent m q1 _ Habsent).
    rewrite (add_to_items_present m q2 (Order.items order) (OrderItem.mk m q1) [])
      by auto.
    cbn [OrderItem.menu_item OrderItem.quantity].
    repeat split.
    rewrite filter_app, Hnone. simpl. now rewrite Z.eqb_refl.
  - intros before line after Hsplit Hline Habsent.
    rewrite Hsplit.
    rewrite (add_to_items_present m q1 before line after Hline Habsent).
    rewrite (add_to_items_present m q2 before _ after) by auto.
    cbn [OrderItem.menu_item OrderItem.quantity]. now rewrite Z.add_assoc.
Qed.

(** ** Order store: generic list facts *)

Lemma filter_all {A : Type} (p : A -> bool) (xs : list A) :
  forallb p xs = true -> filter p xs = xs.
Proof.
  induction xs as [|x xs IH]; simpl; [reflexivity|].
  intros H. apply andb_true_iff in H. destruct H as [-> Hxs].
  now rewrite IH.
Qed.

Lemma forallb_filter {A : Type} (p : A -> bool) (xs : list A) :
  forallb p (filter p xs) = true.
Proof.
  induction xs as [|x xs IH]; simpl; [reflexivity|].
  destruct (p x) eqn:Hx; simpl; [now rewrite Hx | assumption].
Qed.

Lemma NoDup_map_filter {A B : Type} (f : A -> B) (p : A -> bool) (xs : list A) :
  NoDup (map f xs) -> NoDup (map f (filter p xs)).
Proof.
  induction xs as [|x xs IH]; simpl; intros Hnd; [constructor|].
  inversion Hnd as [|? ? Hnot Hrest]; subst.
  destruct (p x); simpl; [|now apply IH].
  constructor; [|now apply IH].
  intros Hin. apply Hnot. apply in_map_iff in Hin.
  destruct Hin as [y [Hy Hin]]. apply filter_In in Hin.
  apply in_map_iff. exists y. tauto.
Qed.

Lemma find_none_iff {A : Type} (p : A -> bool) (xs : list A) :
  find p xs = None <-> forall x, In x xs -> p x = false.
Proof.
  split.
  - apply find_none.
  - induction xs as [|x xs IH]; simpl; intros H; [reflexivity|].
    rewrite (H x) by auto. apply IH. auto.
Qed.

Lemma find_by_key_known {A : Type} (key : A -> Z) (k : Z) (xs : list A) :
  In k (map key xs) -> exists x, find (fun x => key x =? k) xs = Some x.
Proof.
  intros Hin. destruct (find (fun x => key x =? k) xs) as [x|] eqn:Hfind.
  - now exists x.
  - exfalso. apply in_map_iff in Hin. destruct Hin as [y [Hy Hin]].
    pose proof (find_none _ _ Hfind y Hin) as Hfalse. cbn in Hfalse. lia.
Qed.

Lemma find_by_key_unknown {A : Type} (key : A -> Z) (k : Z) (xs : list A) :
  ~ In k (map key xs) -> find (fun x => key x =? k) xs = None.
Proof.
  intros Hnot. apply find_none_iff. intros x Hin. apply Z.eqb_neq.
  intros Heq. apply Hnot. apply in_map_iff. now exists x.
Qed.

Lemma filter_key_absent {A : Type} (key : A -> Z) (k : Z) (xs : list A) :
  ~ In k (map key xs) -> filter (fun x => negb (key x =? k)) xs = xs.
Proof.
  intros Hnot. apply filter_all. apply forallb_forall. intros x Hin.
  apply negb_true_iff, Z.eqb_neq. intros Heq. apply Hnot.
  apply in_map_iff. now exists x.
Qed.

Lemma filter_key_none {A : Type} (key : A -> Z) (p : A -> bool) (k : Z)
    (xs : list A) :
  ~ In k (map key xs) -> filter (fun x => p x && (key x =? k)) xs = [].
Proof.
  induction xs as [|x xs IH]; simpl; intros Hnot; [reflexivity|].
  destruct (Z.eqb_spec (key x) k) as [Heq|Hne].
  - exfalso. apply Hnot. now left.
  - rewrite andb_false_r. apply IH. tauto.
Qed.

Lemma at_most_one_per_key {A : Type} (key : A -> Z) (p : A -> bool) (k : Z)
    (xs : list A) :
  NoDup (map key xs) ->
  Nat.le (List.length (filter (fun x => p x && (key x =? k)) xs)) 1.
Proof.
  induction xs as [|x xs IH]; simpl; intros Hnd; [apply Nat.le_0_l|].
  inversion Hnd as [|? ? Hnot Hrest]; subst.
  destruct (p x && (key x =? k)) eqn:Hx; [|now apply IH].
  apply andb_true_iff in Hx. destruct Hx as [_ Hk]. apply Z.eqb_eq in Hk.
  subst k. rewrite filter_key_none by assumption. apply Nat.le_refl.
Qed.

(** ** Order store: every order is active *)

Lemma all_active_init (clock : nat -> string) (content : file_content Order.dict) :
  OrderManager.all_active (OrderManager.init clock content) = true.
Proof.
  unfold OrderManager.all_active, OrderManager.init, OrderManager.load_orders.
  cbn [OrderManager.file].
  destruct content; cbn [OrderManager.orders OrderManager.save_orders];
    try reflexivity.
  apply forallb_filter.
Qed.

Lemma update_first_all_active (p : Order.t -> bool) (f : Order.t -> Order.t)
    (os : list Order.t) :
  (forall o, Order.is_active (f o) = Order.is_active o) ->
  forallb Order.is_active (update_first p f os) = forallb Order.is_active os.
Proof.
  intros Hf. induction os as [|o os IH]; simpl; [reflexivity|].
  destruct (p o); simpl; [now rewrite Hf | now rewrite IH].
Qed.

Lemma all_active_step (o : OrderManager.op) (self : OrderManager.t) :
  OrderManager.all_active self = true ->
  OrderManager.all_active (OrderManager.step o self) = true.
Proof.
  unfold OrderManager.all_active. intros Hactive.
  destruct o as [now table | order_id m q | order_id | clock]; cbn [OrderManager.step].
  - unfold OrderManager.create_order.
    destruct (negb _); [assumption|].
    destruct (find _ _); [assumption|].
    cbn [OrderManager.save_orders OrderManager.orders].
    rewrite forallb_app, Hactive. reflexivity.
  - unfold OrderManager.add_line.
    destruct (OrderManager.get_order_by_id _ _); [|assumption].
    cbn [OrderManager.save_orders OrderManager.orders].
    now rewrite update_first_all_active.
  - unfold OrderManager.close_order.
    destruct (OrderManager.get_order_by_id _ _); cbn [snd]; [|assumption].
    cbn [OrderManager.orders]. apply forallb_filter.
  - apply all_active_init.
Qed.

Lemma all_active_run (ops : list OrderManager.op) (self : OrderManager.t) :
  OrderManager.all_active self = true ->
  OrderManager.all_active (OrderManager.run ops self) = true.
Proof.
  unfold OrderManager.run. revert self.
  induction ops as [|o ops IH]; intros self Hactive; simpl; [assumption|].
  apply IH. now apply all_active_step.
Qed.

(** C10. Whatever the file held when the manager was constructed, and
    after any calls on it, every order in the collection is active: so
    [get_active_orders] is the whole collection and [get_order_by_id]
    only ever finds an active order. *)
Theorem collection_holds_only_active_orders
    (clock : nat -> string) (content : file_content Order.dict)
    (ops : list OrderManager.op) :
  let self := OrderManager.run ops (OrderManager.init clock content) in
  (forall order, In order (OrderManager.orders self) -> Order.is_active order = true)
  /\ OrderManager.get_active_orders self = OrderManager.orders self
  /\ (forall order_id order,
        OrderManager.get_order_by_id order_id self = Some order ->
        Order.is_active order = true).
Proof.
  cbn zeta.
  pose proof (all_active_run ops _ (all_active_init clock content)) as Hactive.
  unfold OrderManager.all_active in Hactive.
  assert (Hall : forall order,
             In order (OrderManager.orders
                         (OrderManager.run ops (OrderManager.init clock content))) ->
             Order.is_active order = true).
  { now apply forallb_forall. }
  split; [exact Hall | split].
  - now apply filter_all.
  - intros order_id order Hfind. apply find_some in Hfind. now apply Hall.
Qed.

(** ** Order store: the state of a store started on no file *)

Lemma core_projections (os1 os2 : list Order.t) :
  map OrderManager.core os1 = map OrderManager.core os2 ->
  map Order.id os1 = map Order.id os2
  /\ map Order.table_number os1 = map Order.table_number os2
  /\ forallb Order.is_active os1 = forallb Order.is_active os2.
Proof.
  revert os2. induction os1 as [|a os1 IH]; intros [|b os2] H;
    try discriminate; simpl.
  - auto.
  - injection H as Hid Htable Hact Hrest.
    destruct (IH _ Hrest) as (-> & -> & ->). rewrite Hid, Htable, Hact. auto.
Qed.

Lemma load_saved_cores (clock : nat -> string) (k : nat) (os : list Order.t) :
  map OrderManager.core
      (filter Order.is_active
              (OrderManager.from_dicts clock k (map Order.to_dict os)))
  = map OrderManager.core (filter Order.is_active os).
Proof.
  revert k. induction os as [|o os IH]; intros k; simpl; [reflexivity|].
  destruct (Order.is_active o) eqn:Hact; simpl; now rewrite IH.
Qed.

(** Right after [save_orders] the file gives back the active orders. *)
Lemma init_on_saved (clock : nat -> string) (os : list Order.t) :
  map OrderManager.core
      (OrderManager.orders
         (OrderManager.init clock (Records (map Order.to_dict os))))
  = map OrderManager.core (filter Order.is_active os).
Proof. apply load_saved_cores. Qed.

Lemma NoDup_app_singleton {A : Type} (xs : list A) (x : A) :
  NoDup xs -> ~ In x xs -> NoDup (xs ++ [x]).
Proof.
  induction xs as [|y xs IH]; simpl; intros Hnd Hnot.
  - constructor; [tauto | constructor].
  - inversion Hnd as [|? ? Hy Hxs]; subst. constructor.
    + rewrite in_app_iff. simpl. intuition congruence.
    + apply IH; tauto.
Qed.

Lemma well_formed_fresh (clock : nat -> string) :
  OrderManager.well_formed (OrderManager.init clock Absent).
Proof.
  split; cbn; solve [reflexivity | constructor].
Qed.

Lemma well_formed_create (now : string) (table_number : Z) (self : OrderManager.t) :
  OrderManager.well_formed self ->
  OrderManager.well_formed (OrderManager.step (OrderManager.CreateOrder now table_number) self).
Proof.
  intros Hwf. pose proof (all_active_step (OrderManager.CreateOrder now table_number) self
                            (OrderManager.wf_active _ Hwf)) as Hactive.
  destruct Hwf as [Hact Hids Htables Hfile].
  cbn [OrderManager.step] in *. unfold OrderManager.create_order in *.
  destruct (negb _); [now split|].
  destruct (find _ _) eqn:Hfind; [now split|].
  unfold OrderManager.save_orders in *.
  split; cbn [OrderManager.orders OrderManager.file].
  - exact Hactive.
  - rewrite map_app. cbn [map Order.init Order.id].
    apply NoDup_app_singleton; [assumption|].
    intros Hin. apply py_max_bounds in Hin. lia.
  - rewrite map_app. cbn [map Order.init Order.table_number].
    apply NoDup_app_singleton; [assumption|].
    intros Hin. apply in_map_iff in Hin. destruct Hin as [o [Ho Hin]].
    pose proof (find_none _ _ Hfind o Hin) as Hfalse. cbn in Hfalse.
    unfold OrderManager.all_active in Hact.
    rewrite (proj1 (forallb_forall _ _) Hact o Hin), andb_true_r in Hfalse.
    lia.
  - intros clock. rewrite init_on_saved. now rewrite filter_all.
Qed.

Lemma update_first_core (p : Order.t -> bool) (f : Order.t -> Order.t)
    (os : list Order.t) :
  (forall o, OrderManager.core (f o) = OrderManager.core o) ->
  map OrderManager.core (update_first p f os) = map OrderManager.core os.
Proof. apply update_first_map. Qed.

Lemma well_formed_add_line (order_id : Z) (m : MenuItem.t) (q : Z)
    (self : OrderManager.t) :
  OrderManager.well_formed self ->
  OrderManager.well_formed (OrderManager.step (OrderManager.AddLine order_id m q) self).
Proof.
  intros Hwf. cbn [OrderManager.step]. unfold OrderManager.add_line.
  destruct (OrderManager.get_order_by_id order_id self); [|assumption].
  destruct Hwf as [Hact Hids Htables Hfile].
  unfold OrderManager.all_active in Hact.
  set (os' := update_first _ _ _).
  assert (Hcore : map OrderManager.core os' = map OrderManager.core (OrderManager.orders self)).
  { apply update_first_core. reflexivity. }
  destruct (core_projections _ _ Hcore) as (Hi & Ht & Ha).
  unfold OrderManager.save_orders.
  split; unfold OrderManager.all_active; cbn [OrderManager.orders OrderManager.file].
  - congruence.
  - now rewrite Hi.
  - now rewrite Ht.
  - intros clock. rewrite init_on_saved, filter_all; congruence.
Qed.

Lemma well_formed_close (order_id : Z) (self : OrderManager.t) :
  OrderManager.well_formed self ->
  OrderManager.well_formed (OrderManager.step (OrderManager.CloseOrder order_id) self).
Proof.
  intros Hwf. cbn [OrderManager.step]. unfold OrderManager.close_order.
  destruct (OrderManager.get_order_by_id order_id self); cbn [snd]; [|assumption].
  destruct Hwf as [Hact Hids Htables Hfile].
  set (os' := update_first _ _ _).
  assert (Hi : map Order.id os' = map Order.id (OrderManager.orders self)).
  { apply update_first_map. reflexivity. }
  assert (Ht : map Order.table_number os' = map Order.table_number (OrderManager.orders self)).
  { apply update_first_map. reflexivity. }
  unfold OrderManager.save_orders.
  split; unfold OrderManager.all_active; cbn [OrderManager.orders OrderManager.file].
  - apply forallb_filter.
  - apply NoDup_map_filter. now rewrite Hi.
  - apply NoDup_map_filter. now rewrite Ht.
  - intros clock. apply init_on_saved.
Qed.

Lemma well_formed_restart (clock : nat -> string) (self : OrderManager.t) :
  OrderManager.well_formed self ->
  OrderManager.well_formed (OrderManager.step (OrderManager.Restart clock) self).
Proof.
  intros [Hact Hids Htables Hfile]. cbn [OrderManager.step].
  destruct (core_projections _ _ (Hfile clock)) as (Hi & Ht & Ha).
  split.
  - apply all_active_init.
  - now rewrite Hi.
  - now rewrite Ht.
  - intros clock'. rewrite (Hfile clock). rewrite <- (Hfile clock').
    unfold OrderManager.init, OrderManager.load_orders. cbn [OrderManager.file].
    destruct (OrderManager.file self); reflexivity.
Qed.

Lemma well_formed_step (o : OrderManager.op) (self : OrderManager.t) :
  OrderManager.well_formed self ->
  OrderManager.well_formed (OrderManager.step o self).
Proof.
  destruct o.
  - apply well_formed_create.
  - apply well_formed_add_line.
  - apply well_formed_close.
  - apply well_formed_restart.
Qed.

Lemma well_formed_run (ops : list OrderManager.op) (self : OrderManager.t) :
  OrderManager.well_formed self ->
  OrderManager.well_formed (OrderManager.run ops self).
Proof.
  unfold OrderManager.run. revert self.
  induction ops as [|o ops IH]; intros self Hwf; simpl; [assumption|].
  apply IH. now apply well_formed_step.
Qed.

(** C1. From a store started on no file, after any calls of
    [create_order], of the handlers' [add_item] and of [close_order] (and
    after constructing the manager anew from its own file), no table has
    more than one active order. *)
Theorem one_active_order_per_table
    (clock : nat -> string) (ops : list OrderManager.op) (table_number : Z) :
  Nat.le
    (List.length
       (OrderManager.active_for_table table_number
          (OrderManager.run ops (OrderManager.init clock Absent))))
    1.
Proof.
  unfold OrderManager.active_for_table.
  apply at_most_one_per_key.
  apply OrderManager.wf_tables, well_formed_run, well_formed_fresh.
Qed.

(** ** Closing an order *)

Lemma close_drops_the_order (order_id : Z) (os : list Order.t) :
  forallb Order.is_active os = true ->
  NoDup (map Order.id os) ->
  filter Order.is_active
         (update_first (fun order => Order.id order =? order_id)
                       (Order.set_is_active false) os)
  = filter (fun order => negb (Order.id order =? order_id)) os.
Proof.
  induction os as [|o os IH]; simpl; intros Hact Hnd; [reflexivity|].
  apply andb_true_iff in Hact. destruct Hact as [Ho Hos].
  inversion Hnd as [|? ? Hfresh Hrest]; subst.
  destruct (Z.eqb_spec (Order.id o) order_id) as [Heq|Hne]; simpl.
  - rewrite filter_all by assumption.
    rewrite filter_key_absent; [reflexivity | congruence].
  - rewrite Ho. f_equal. now apply IH.
Qed.

Lemma id_absent_after_filter (order_id : Z) (os : list Order.t) :
  ~ In order_id
       (map Order.id (filter (fun order => negb (Order.id order =? order_id)) os)).
Proof.
  intros Hin. apply in_map_iff in Hin. destruct Hin as [o [Hid Hin]].
  apply filter_In in Hin. destruct Hin as [_ Hneq].
  apply negb_true_iff, Z.eqb_neq in Hneq. contradiction.
Qed.

Lemma close_order_unknown (order_id : Z) (self : OrderManager.t) :
  ~ In order_id (map Order.id (OrderManager.orders self)) ->
  OrderManager.close_order order_id self = (false, self).
Proof.
  intros Hunknown. unfold OrderManager.close_order, OrderManager.get_order_by_id.
  now rewrite (find_by_key_unknown Order.id order_id _ Hunknown).
Qed.

Lemma close_order_known (order_id : Z) (self : OrderManager.t) :
  OrderManager.well_formed self ->
  In order_id (map Order.id (OrderManager.orders self)) ->
  exists file',
    OrderManager.close_order order_id self
    = (true,
       {| OrderManager.orders :=
            filter (fun order => negb (Order.id order =? order_id))
                   (OrderManager.orders self);
          OrderManager.file := file' |}).
Proof.
  intros [Hact Hids _ _] Hknown.
  unfold OrderManager.close_order, OrderManager.get_order_by_id.
  destruct (find_by_key_known Order.id order_id _ Hknown) as [order ->].
  unfold OrderManager.save_orders. cbn [OrderManager.orders OrderManager.file].
  rewrite close_drops_the_order by assumption.
  eexists. reflexivity.
Qed.

(** C5. On a store started on no file, after any calls: [close_order] on
    an id the collection holds returns [True] and leaves the collection
    without that order and otherwise as it was; then [get_order_by_id]
    gives [None] for the id, no order of [get_active_orders] has it, and a
    second [close_order] returns [False]. On an id the collection does not
    hold, [close_order] returns [False] and changes nothing. *)
Theorem close_order_removes_order
    (clock : nat -> string) (ops : list OrderManager.op) (order_id : Z) :
  let self := OrderManager.run ops (OrderManager.init clock Absent) in
  let closed := OrderManager.close_order order_id self in
  (In order_id (map Order.id (OrderManager.orders self)) ->
   fst closed = true
   /\ OrderManager.orders (snd closed)
      = filter (fun order => negb (Order.id order =? order_id))
               (OrderManager.orders self)
   /\ OrderManager.get_order_by_id order_id (snd closed) = None
   /\ (forall order, In order (OrderManager.get_active_orders (snd closed)) ->
                     Order.id order <> order_id)
   /\ fst (OrderManager.close_order order_id (snd closed)) = false)
  /\ (~ In order_id (map Order.id (OrderManager.orders self)) ->
      closed = (false, self)).
Proof.
  cbn zeta.
  pose proof (well_formed_run ops _ (well_formed_fresh clock)) as Hwf.
  set (self := OrderManager.run ops (OrderManager.init clock Absent)) in *.
  split; [|apply close_order_unknown].
  intros Hknown.
  destruct (close_order_known order_id self Hwf Hknown) as [file' ->].
  cbn [fst snd].
  set (self' := OrderManager.mk _ file').
  assert (Hgone : ~ In order_id (map Order.id (OrderManager.orders self'))).
  { apply id_absent_after_filter. }
  repeat split.
  - apply find_by_key_unknown. exact Hgone.
  - intros order Hin Hid. apply Hgone. apply filter_In in Hin.
    apply in_map_iff. exists order. tauto.
  - now rewrite close_order_unknown.
Qed.

(** ** Creating an order *)

Lemma find_app_none {A : Type} (p : A -> bool) (xs ys : list A) :
  find p xs = None -> find p (xs ++ ys) = find p ys.
Proof.
  induction xs as [|x xs IH]; simpl; [reflexivity|].
  destruct (p x); [discriminate | exact IH].
Qed.

Lemma create_order_again (now : string) (table_number : Z)
    (self : OrderManager.t) (order : Order.t) (self' : OrderManager.t) :
  OrderManager.create_order now table_number self = Ok (order, self') ->
  forall later, OrderManager.create_order later table_number self' = Ok (order, self').
Proof.
  unfold OrderManager.create_order. intros Hfirst later.
  destruct (negb _) eqn:Hrange; [discriminate|].
  destruct (find _ (OrderManager.orders self)) as [existing|] eqn:Hfind.
  - injection Hfirst as <- <-. now rewrite Hfind.
  - injection Hfirst as <- <-.
    unfold OrderManager.save_orders. cbn [OrderManager.orders].
    rewrite (find_app_none _ _ _ Hfind). cbn [find Order.init Order.table_number
                                               Order.is_active].
    now rewrite Z.eqb_refl.
Qed.

(** C4. [create_order] raises exactly when the table number is outside
    1..TABLE_COUNT. For a table in range that has an active order it
    returns the first such order and leaves the store as it was; for a
    table in range with no active order it appends and returns a new
    active order for that table, with no lines and an id above every id
    in the collection. Either way a second call for the table returns the
    same order and adds nothing. *)
Theorem create_order_cases (now : string) (table_number : Z) (self : OrderManager.t) :
  ((exists msg, OrderManager.create_order now table_number self
                = Raise (ValueError msg))
   <-> ~ (1 <= table_number <= Config.TABLE_COUNT))
  /\ (1 <= table_number <= Config.TABLE_COUNT ->
      (exists existing, In existing (OrderManager.orders self)
                        /\ Order.is_active existing = true
                        /\ Order.table_number existing = table_number) ->
      exists order,
        OrderManager.create_order now table_number self = Ok (order, self)
        /\ In order (OrderManager.orders self)
        /\ Order.is_active order = true
        /\ Order.table_number order = table_number
        /\ OrderManager.get_table_active_order table_number self = Some order)
  /\ (1 <= table_number <= Config.TABLE_COUNT ->
      (forall other, In other (OrderManager.orders self) ->
                     Order.is_active other = true ->
                     Order.table_number other <> table_number) ->
      exists order self',
        OrderManager.create_order now table_number self = Ok (order, self')
        /\ OrderManager.orders self' = OrderManager.orders self ++ [order]
        /\ Order.is_active order = true
        /\ Order.table_number order = table_number
        /\ Order.items order = []
        /\ forall other, In other (OrderManager.orders self) ->
                         Order.id other < Order.id order)
  /\ (forall order self',
        OrderManager.create_order now table_number self = Ok (order, self') ->
        forall later,
          OrderManager.create_order later table_number self' = Ok (order, self')).
Proof.
  split; [|split; [|split]]; [| | |apply create_order_again];
  unfold OrderManager.create_order, OrderManager.get_table_active_order,
    Config.TABLE_COUNT.
  - destruct (Z.leb_spec 1 table_number), (Z.leb_spec table_number 11);
      cbn [andb negb]; split;
      try (intros [msg Hraise]; try discriminate; lia);
      try (intros _; eexists; reflexivity);
      try lia.
    + intros [msg Hraise]. destruct (find _ _); discriminate.
  - intros Hrange [existing (Hin & Hact & Htable)].
    replace ((1 <=? table_number) && (table_number <=? 11)) with true
      by (symmetry; apply andb_true_iff; split; apply Z.leb_le; lia).
    cbn [negb].
    destruct (find _ _) as [order|] eqn:Hfind.
    + exists order. apply find_some in Hfind. destruct Hfind as [Ho Hp].
      apply andb_true_iff in Hp. destruct Hp as [Ht Ha]. apply Z.eqb_eq in Ht.
      auto.
    + exfalso. pose proof (find_none _ _ Hfind existing Hin) as Hfalse.
      cbn in Hfalse. rewrite Hact, Htable, Z.eqb_refl in Hfalse. discriminate.
  - intros Hrange Hnone.
    replace ((1 <=? table_number) && (table_number <=? 11)) with true
      by (symmetry; apply andb_true_iff; split; apply Z.leb_le; lia).
    cbn [negb].
    destruct (find _ _) as [order|] eqn:Hfind.
    + exfalso. apply find_some in Hfind. destruct Hfind as [Ho Hp].
      apply andb_true_iff in Hp. destruct Hp as [Ht Ha]. apply Z.eqb_eq in Ht.
      now apply (Hnone order).
    + eexists. eexists. split; [reflexivity|].
      cbn. repeat split.
      intros other Hin.
      pose proof (py_max_bounds (map Order.id (OrderManager.orders self))
                    (Order.id other) (in_map _ _ _ Hin)).
      lia.
Qed.

(** ** Quantity entry *)

Lemma find_update_first {A : Type} (p : A -> bool) (f : A -> A) (xs : list A) (x : A) :
  find p xs = Some x -> p (f x) = true ->
  find p (update_first p f xs) = Some (f x).
Proof.
  induction xs as [|y xs IH]; simpl; [discriminate|].
  destruct (p y) eqn:Hy.
  - intros [= ->] Hfx. simpl. now rewrite Hfx.
  - intros Hfind Hfx. simpl. rewrite Hy. now apply IH.
Qed.

Lemma find_key_matches {A : Type} (key : A -> Z) (k : Z) (xs : list A) (x : A) :
  find (fun x => key x =? k) xs = Some x -> key x = k.
Proof.
  intros Hfind. apply find_some in Hfind. now apply Z.eqb_eq.
Qed.

Section QuantityEntry.

Variable int : string -> option Z.
Variable lower : string -> string.

Lemma process_quantity_other (text : string) (w : Handlers.world) :
  text <> "Другое количество" -> text <> "🔙 Назад" -> text <> "🔙 Отмена" ->
  Handlers.process_quantity int lower text w
  = match int text with
    | Some quantity =>
        if quantity <=? 0 then
          Ok (Handlers.answer "❌ Пожалуйста, введите корректное положительное число."
                              Handlers.get_quantity_keyboard w)
        else Ok (Handlers.add_item_with_quantity quantity w)
    | None =>
        Ok (Handlers.answer "❌ Пожалуйста, введите корректное положительное число."
                            Handlers.get_quantity_keyboard w)
    end.
Proof.
  intros Hother Hback Hcancel. unfold Handlers.process_quantity.
  apply String.eqb_neq in Hother, Hback, Hcancel.
  now rewrite Hother, Hback, Hcancel.
Qed.


End QuantityEntry.

(** ** The theorems at sample inputs *)

(** Two adds of [caesar] (2, then 3) to an order without it, then to
    [order5], which already has one portion. *)
Lemma add_item_twice_aggregates_witness :
  Order.lines_for 1
    (Order.add_item Sample.caesar 3
       (Order.add_item Sample.caesar 2 (Order.mk 1 5 [] Sample.noon true)))
  = [OrderItem.mk Sample.caesar 5]
  /\ Order.items (Order.add_item Sample.caesar 3
                    (Order.add_item Sample.caesar 2 Sample.order5))
     = [OrderItem.mk Sample.caesar 6].
Proof.
  split.
  - destruct (add_item_twice_aggregates (Order.mk 1 5 [] Sample.noon true)
                Sample.caesar 2 3) as [Habsent _].
    destruct (Habsent eq_refl) as (_ & _ & Hlines). exact Hlines.
  - destruct (add_item_twice_aggregates Sample.order5 Sample.caesar 2 3)
      as [_ Hpresent].
    apply (Hpresent [] (OrderItem.mk Sample.caesar 1) []).
    + reflexivity.
    + reflexivity.
    + intros l [].
Defined.

(** C2 as the specification words it fails on an order that already has
    the item: [order5] holds one [caesar]; after adding 2 and 3 its single
    [caesar] line has quantity 6, not 2 + 3. *)
Lemma add_item_twice_counterexample :
  ~ (exists line,
        Order.lines_for (MenuItem.id Sample.caesar)
          (Order.add_item Sample.caesar 3
             (Order.add_item Sample.caesar 2 Sample.order5))
        = [line]
        /\ OrderItem.quantity line = 2 + 3).
Proof.
  intros [line [Hlines Hquantity]].
  vm_compute in Hlines. injection Hlines as <-.
  vm_compute in Hquantity. discriminate.
Qed.

Lemma add_item_id_max_plus_one_witness :
  MenuItem.id (fst (MenuManager.add_item "Борщ" "Горячее" None
                      (MenuManager.mk [] Absent))) = 1
  /\ (exists m, In m [1; 2] /\ (forall x, In x [1; 2] -> x <= m)
                /\ MenuItem.id (fst (MenuManager.add_item "Борщ" "Горячее" None
                                       Sample.menu)) = m + 1)
  /\ MenuItem.id (fst (MenuManager.add_item "Борщ" "Горячее" None
                         (snd (MenuManager.delete_item 1 Sample.menu)))) <> 1.
Proof.
  split; [|split].
  - destruct (add_item_id_max_plus_one "Борщ" "Горячее" None
                (MenuManager.mk [] Absent)) as (Hempty & _ & _).
    apply Hempty. reflexivity.
  - destruct (add_item_id_max_plus_one "Борщ" "Горячее" None Sample.menu)
      as (_ & Hmax & _).
    apply Hmax. simpl. discriminate.
  - destruct (add_item_id_max_plus_one "Борщ" "Горячее" None Sample.menu)
      as (_ & _ & Hdeleted).
    apply (Hdeleted 1). exists Sample.lager. simpl. split; [auto | lia].
Defined.

Lemma delete_item_absent_unchanged_witness :
  MenuManager.delete_item 999 Sample.menu = (false, Sample.menu)
  /\ fst (MenuManager.delete_item 2 Sample.menu) = true.
Proof.
  split.
  - apply (proj1 (delete_item_absent_unchanged 999 Sample.menu)).
    simpl. intros [H | [H | []]]; discriminate.
  - apply (proj2 (delete_item_absent_unchanged 2 Sample.menu)).
    simpl. auto.
Defined.

Lemma to_dict_from_dict_round_trip_witness :
  MenuItem.to_dict (MenuItem.from_dict (MenuItem.mk_dict 2 "Светлое" "Пиво" (Some "Бар")))
  = MenuItem.mk_dict 2 "Светлое" "Пиво" (Some "Бар")
  /\ Order.to_dict (Order.from_dict Sample.noon (Order.to_dict Sample.order5))
     = Order.to_dict Sample.order5
  /\ Order.from_dict Sample.noon (Order.to_dict Sample.order5) = Sample.order5.
Proof.
  destruct to_dict_from_dict_round_trip as (Hmenu & _ & Horder_dict & Horder).
  split; [|split].
  - apply Hmenu. reflexivity.
  - apply Horder_dict. reflexivity.
  - apply Horder. simpl. discriminate.
Defined.

Lemma main_category_from_category_witness :
  MenuItem._determine_main_category "Пиво" = "Бар"
  /\ MenuItem._determine_main_category "Супы" = "Кухня".
Proof.
  destruct main_category_from_category as (_ & Hlisted & Hfallback & _).
  split.
  - apply (Hlisted "Пиво" "Бар" ["Коктейли"; "Алкоголь"; "Пиво"; "Лимонады"; "Чай"]).
    + simpl. auto.
    + simpl. auto.
  - apply Hfallback. intros main subcats Hentry Hin.
    simpl in Hentry. destruct Hentry as [Hentry | [Hentry | []]];
      injection Hentry as <- <-; simpl in Hin;
      repeat (destruct Hin as [Hin | Hin]; [discriminate|]); contradiction.
Defined.

(** Table 12 is out of range; table 5 has [order5]; table 7 has nothing. *)
Lemma create_order_cases_witness :
  (exists msg, OrderManager.create_order Sample.noon 12 Sample.store
               = Raise (ValueError msg))
  /\ (exists order,
         OrderManager.create_order Sample.noon 5 Sample.store = Ok (order, Sample.store)
         /\ In order (OrderManager.orders Sample.store)
         /\ Order.is_active order = true
         /\ Order.table_number order = 5
         /\ OrderManager.get_table_active_order 5 Sample.store = Some order)
  /\ (exists order self',
         OrderManager.create_order Sample.noon 7 Sample.store = Ok (order, self')
         /\ OrderManager.orders self' = OrderManager.orders Sample.store ++ [order]
         /\ Order.is_active order = true
         /\ Order.table_number order = 7
         /\ Order.items order = []
         /\ forall other, In other (OrderManager.orders Sample.store) ->
                          Order.id other < Order.id order).
Proof.
  split; [|split].
  - apply (proj1 (create_order_cases Sample.noon 12 Sample.store)).
    unfold Config.TABLE_COUNT. lia.
  - destruct (create_order_cases Sample.noon 5 Sample.store) as (_ & Hexisting & _).
    apply Hexisting.
    + unfold Config.TABLE_COUNT. lia.
    + exists Sample.order5. simpl. auto.
  - destruct (create_order_cases Sample.noon 7 Sample.store) as (_ & _ & Hnew & _).
    apply Hnew.
    + unfold Config.TABLE_COUNT. lia.
    + intros other Hin _. simpl in Hin. destruct Hin as [<- | []].
      simpl. lia.
Defined.

(** A fresh store, an order for table 5, two portions of [caesar], then
    the order (id 1) is closed; id 8 was never given out. *)
Lemma close_order_removes_order_witness :
  let self :=
    OrderManager.run
      [OrderManager.CreateOrder Sample.noon 5; OrderManager.AddLine 1 Sample.caesar 2]
      (OrderManager.init Sample.morning Absent) in
  (fst (OrderManager.close_order 1 self) = true
   /\ OrderManager.orders (snd (OrderManager.close_order 1 self))
      = filter (fun order => negb (Order.id order =? 1)) (OrderManager.orders self)
   /\ OrderManager.get_order_by_id 1 (snd (OrderManager.close_order 1 self)) = None
   /\ (forall order,
         In order (OrderManager.get_active_orders (snd (OrderManager.close_order 1 self))) ->
         Order.id order <> 1)
   /\ fst (OrderManager.close_order 1 (snd (OrderManager.close_order 1 self))) = false)
  /\ OrderManager.close_order 8 self = (false, self).
Proof.
  cbn zeta. split.
  - apply (proj1 (close_order_removes_order Sample.morning
                    [OrderManager.CreateOrder Sample.noon 5;
                     OrderManager.AddLine 1 Sample.caesar 2] 1)).
    vm_compute. auto.
  - apply (proj2 (close_order_removes_order Sample.morning
                    [OrderManager.CreateOrder Sample.noon 5;
                     OrderManager.AddLine 1 Sample.caesar 2] 8)).
    vm_compute. intros [H | []]. discriminate.
Defined.

(** A file with a closed and an active order; the manager is constructed
    on it, table 3 gets an order and order 4 is closed. *)
Lemma collection_holds_only_active_orders_witness :
  let self :=
    OrderManager.run
      [OrderManager.CreateOrder Sample.noon 3; OrderManager.CloseOrder 4]
      (OrderManager.init Sample.morning
         (Records [Order.mk_dict 4 2 [] Sample.noon true;
                   Order.mk_dict 5 6 [] Sample.noon false])) in
  Order.is_active (Order.mk 5 3 [] Sample.noon true) = true
  /\ OrderManager.get_active_orders self = OrderManager.orders self.
Proof.
  cbn zeta.
  destruct (collection_holds_only_active_orders Sample.morning
              (Records [Order.mk_dict 4 2 [] Sample.noon true;
                        Order.mk_dict 5 6 [] Sample.noon false])
              [OrderManager.CreateOrder Sample.noon 3; OrderManager.CloseOrder 4])
    as (Hall & Hlist & _).
  split.
  - apply Hall. vm_compute. auto.
  - exact Hlist.
Defined.



(** * Further properties of the catalog and of the order store *)

(** ** Catalog: lookup after a change *)

Lemma find_app_some {A : Type} (p : A -> bool) (xs ys : list A) (x : A) :
  find p xs = Some x -> find p (xs ++ ys) = Some x.
Proof.
  induction xs as [|y xs IH]; simpl; [discriminate|].
  destruct (p y); [trivial | exact IH].
Qed.

Lemma find_key_above {A : Type} (key : A -> Z) (k : Z) (xs : list A) :
  (forall x, In x xs -> key x < k) -> find (fun x => key x =? k) xs = None.
Proof.
  intros Hbelow. apply find_none_iff. intros x Hin.
  apply Z.eqb_neq. specialize (Hbelow x Hin). lia.
Qed.

(** [get_item_by_id] after [add_item]: the new id leads to the new item,
    every other id to what it led to before. *)
Theorem get_item_by_id_after_add_item
    (name category : string) (main_category : option string)
    (self : MenuManager.t) (item_id : Z) :
  let added := MenuManager.add_item name category main_category self in
  MenuManager.get_item_by_id item_id (snd added)
  = if item_id =? MenuItem.id (fst added) then Some (fst added)
    else MenuManager.get_item_by_id item_id self.
Proof.
  cbn zeta. unfold MenuManager.get_item_by_id.
  pose proof (add_item_id_above name category main_category self) as Habove.
  unfold MenuManager.add_item in *. cbn [fst snd] in *.
  unfold MenuManager.save_menu. cbn [MenuManager.menu_items].
  set (item := MenuItem.init _ name category main_category) in *.
  destruct (Z.eqb_spec item_id (MenuItem.id item)) as [-> | Hother].
  - rewrite find_app_none by (apply find_key_above; exact Habove).
    cbn [find]. now rewrite Z.eqb_refl.
  - destruct (find _ (MenuManager.menu_items self)) as [found|] eqn:Hfind.
    + now apply find_app_some.
    + rewrite find_app_none by assumption. cbn [find].
      destruct (Z.eqb_spec (MenuItem.id item) item_id); [congruence | reflexivity].
Qed.

Lemma delete_first_keeps_others (item_id other_id : Z)
    (items items' : list MenuItem.t) :
  other_id <> item_id ->
  MenuManager.delete_first item_id items = Some items' ->
  find (fun item => MenuItem.id item =? other_id) items'
  = find (fun item => MenuItem.id item =? other_id) items.
Proof.
  intros Hother. revert items'.
  induction items as [|item rest IH]; simpl; intros items'; [discriminate|].
  destruct (Z.eqb_spec (MenuItem.id item) item_id) as [Heq | Hne].
  - intros [= <-].
    destruct (Z.eqb_spec (MenuItem.id item) other_id); [congruence | reflexivity].
  - destruct (MenuManager.delete_first item_id rest) as [rest'|]; [|discriminate].
    intros [= <-]. simpl. rewrite (IH rest' eq_refl). reflexivity.
Qed.

(** [delete_item] leaves the lookup of every other id as it was, whether
    the id it was given is in the catalog or not. *)
Theorem delete_item_keeps_other_ids (item_id other_id : Z) (self : MenuManager.t) :
  other_id <> item_id ->
  MenuManager.get_item_by_id other_id (snd (MenuManager.delete_item item_id self))
  = MenuManager.get_item_by_id other_id self.
Proof.
  intros Hother. unfold MenuManager.delete_item, MenuManager.get_item_by_id.
  destruct (MenuManager.delete_first item_id (MenuManager.menu_items self))
    as [items'|] eqn:Hdelete; cbn [snd]; [|reflexivity].
  unfold MenuManager.save_menu. cbn [MenuManager.menu_items].
  now apply (delete_first_keeps_others item_id).
Qed.

Lemma delete_item_keeps_other_ids_witness :
  MenuManager.get_item_by_id 2 (snd (MenuManager.delete_item 1 Sample.menu))
  = Some Sample.lager.
Proof.
  rewrite (delete_item_keeps_other_ids 1 2 Sample.menu) by discriminate.
  reflexivity.
Defined.

(** [add_item] puts the new item at the end of the listing of its
    category and of its main category, and leaves the listing of every
    category that differs after [lower] as it was. *)
Theorem add_item_listed_in_its_category
    (lower : string -> string) (name category : string)
    (main_category : option string) (self : MenuManager.t) :
  let added := MenuManager.add_item name category main_category self in
  MenuManager.get_menu_items_by_category lower category (snd added)
  = MenuManager.get_menu_items_by_category lower category self ++ [fst added]
  /\ MenuManager.get_menu_items_by_main_category
       (MenuItem.main_category (fst added)) (snd added)
     = MenuManager.get_menu_items_by_main_category
         (MenuItem.main_category (fst added)) self ++ [fst added]
  /\ (forall other, lower other <> lower category ->
        MenuManager.get_menu_items_by_category lower other (snd added)
        = MenuManager.get_menu_items_by_category lower other self).
Proof.
  cbn zeta.
  unfold MenuManager.get_menu_items_by_category,
    MenuManager.get_menu_items_by_main_category, MenuManager.add_item,
    MenuManager.save_menu.
  cbn [fst snd MenuManager.menu_items]. split; [|split].
  - rewrite filter_app. cbn [filter MenuItem.init MenuItem.category].
    now rewrite String.eqb_refl.
  - rewrite filter_app. cbn [filter]. now rewrite String.eqb_refl.
  - intros other Hother.
    rewrite filter_app. cbn [filter MenuItem.init MenuItem.category].
    destruct (String.eqb_spec (lower category) (lower other)) as [Heq|_];
      [congruence | apply app_nil_r].
Qed.

Lemma add_item_listed_in_its_category_witness :
  MenuManager.get_menu_items_by_category Handlers.same_case "Пиво"
    (snd (MenuManager.add_item "Борщ" "Горячее" None Sample.menu))
  = [Sample.lager].
Proof.
  destruct (add_item_listed_in_its_category Handlers.same_case "Борщ" "Горячее"
              None Sample.menu) as (_ & _ & Hother).
  rewrite (Hother "Пиво") by discriminate. reflexivity.
Defined.

(** ** Catalog: the file mirrors the catalog; ids from an empty catalog *)

Lemma menu_init_on_saved (self : MenuManager.t) :
  MenuManager.init (MenuManager.file (MenuManager.save_menu self))
  = MenuManager.save_menu self.
Proof.
  unfold MenuManager.init, MenuManager.load_menu, MenuManager.save_menu.
  cbn [MenuManager.file]. f_equal.
  rewrite map_map. rewrite <- (map_id (MenuManager.menu_items self)) at 2.
  apply map_ext. exact menu_item_from_to_dict.
Qed.

Lemma menu_init_idempotent (content : file_content MenuItem.dict) :
  MenuManager.init (MenuManager.file (MenuManager.init content))
  = MenuManager.init content.
Proof. destruct content; reflexivity. Qed.

Lemma menu_step_mirrored (o : MenuManager.op) (self : MenuManager.t) :
  MenuManager.init (MenuManager.file self) = self ->
  MenuManager.init (MenuManager.file (MenuManager.step o self))
  = MenuManager.step o self.
Proof.
  intros Hself. destruct o as [name category main_category | item_id |];
    cbn [MenuManager.step].
  - unfold MenuManager.add_item. cbn [snd]. apply menu_init_on_saved.
  - unfold MenuManager.delete_item.
    destruct (MenuManager.delete_first item_id (MenuManager.menu_items self));
      cbn [snd]; [apply menu_init_on_saved | exact Hself].
  - now rewrite Hself.
Qed.

(** Whatever [menu.json] held at construction, after any sequence of
    [add_item], [delete_item] and re-constructions the file mirrors the
    catalog: a manager constructed from it has the same items in the same
    order, and leaves the file as it is. *)
Theorem menu_file_mirrors_catalog
    (content : file_content MenuItem.dict) (ops : list MenuManager.op) :
  let self := MenuManager.run ops (MenuManager.init content) in
  MenuManager.init (MenuManager.file self) = self.
Proof.
  cbn zeta. unfold MenuManager.run.
  assert (Hstart : MenuManager.init (MenuManager.file (MenuManager.init content))
                   = MenuManager.init content) by apply menu_init_idempotent.
  revert Hstart. generalize (MenuManager.init content) as self.
  induction ops as [|o ops IH]; intros self Hself; simpl; [exact Hself|].
  apply IH. now apply menu_step_mirrored.
Qed.

Lemma py_max_nonnegative (xs : list Z) :
  (forall x, In x xs -> 0 <= x) -> 0 <= py_max xs 0.
Proof.
  destruct xs as [|a xs]; intros Hall; [simpl; lia|].
  destruct (py_max_greatest (a :: xs) 0 ltac:(discriminate)) as [Hin _].
  now apply Hall.
Qed.

Lemma menu_ids_fresh_add (name category : string) (main_category : option string)
    (self : MenuManager.t) :
  MenuManager.ids_fresh (MenuManager.menu_items self) ->
  MenuManager.ids_fresh
    (MenuManager.menu_items (snd (MenuManager.add_item name category main_category self))).
Proof.
  intros [Hnd Hpos].
  pose proof (add_item_id_above name category main_category self) as Habove.
  unfold MenuManager.add_item, MenuManager.save_menu in *.
  cbn [fst snd MenuManager.menu_items] in *.
  set (item := MenuItem.init _ name category main_category) in *.
  split.
  - rewrite map_app. cbn [map]. apply NoDup_app_singleton; [assumption|].
    intros Hin. apply in_map_iff in Hin. destruct Hin as [other [Hid Hin]].
    specialize (Habove other Hin). lia.
  - intros x Hin. apply in_app_iff in Hin. destruct Hin as [Hin | [<- | []]].
    + now apply Hpos.
    + subst item. cbn [MenuItem.init MenuItem.id].
      assert (0 <= py_max (map MenuItem.id (MenuManager.menu_items self)) 0).
      { apply py_max_nonnegative. intros y Hy. apply in_map_iff in Hy.
        destruct Hy as [other [<- Hother]]. specialize (Hpos other Hother). lia. }
      lia.
Qed.

Lemma menu_ids_fresh_delete (item_id : Z) (self : MenuManager.t) :
  MenuManager.ids_fresh (MenuManager.menu_items self) ->
  MenuManager.ids_fresh (MenuManager.menu_items (snd (MenuManager.delete_item item_id self))).
Proof.
  intros [Hnd Hpos]. unfold MenuManager.delete_item.
  destruct (in_dec Z.eq_dec item_id (map MenuItem.id (MenuManager.menu_items self)))
    as [Hin | Hnot].
  - destruct (delete_first_present _ _ Hin)
      as (before & item & after & Hsplit & Hid & Hbefore & ->).
    cbn [snd MenuManager.save_menu MenuManager.menu_items].
    rewrite Hsplit in Hnd, Hpos. split.
    + rewrite map_app in *. cbn [map] in Hnd. now apply NoDup_remove_1 in Hnd.
    + intros x Hx. apply Hpos. apply in_app_iff in Hx. apply in_app_iff.
      simpl. tauto.
  - rewrite delete_first_absent by assumption. now split.
Qed.

Lemma menu_run_ids_fresh (ops : list MenuManager.op) (self : MenuManager.t) :
  MenuManager.init (MenuManager.file self) = self ->
  MenuManager.ids_fresh (MenuManager.menu_items self) ->
  MenuManager.ids_fresh (MenuManager.menu_items (MenuManager.run ops self)).
Proof.
  unfold MenuManager.run. revert self.
  induction ops as [|o ops IH]; intros self Hfile Hfresh; simpl; [exact Hfresh|].
  apply IH; [now apply menu_step_mirrored|].
  destruct o as [name category main_category | item_id |]; cbn [MenuManager.step].
  - now apply menu_ids_fresh_add.
  - now apply menu_ids_fresh_delete.
  - now rewrite Hfile.
Qed.

(** In a catalog grown from no file by [add_item], [delete_item] and
    re-constructions, no id is repeated and every id is at least 1; so
    after [delete_item] the deleted id is not found any more. *)
Theorem menu_ids_unique_from_empty (ops : list MenuManager.op) :
  let self := MenuManager.run ops (MenuManager.init Absent) in
  NoDup (map MenuItem.id (MenuManager.menu_items self))
  /\ (forall item, In item (MenuManager.menu_items self) -> 1 <= MenuItem.id item)
  /\ (forall item_id,
        MenuManager.get_item_by_id item_id
          (snd (MenuManager.delete_item item_id self)) = None).
Proof.
  cbn zeta.
  assert (Hfresh : MenuManager.ids_fresh
                     (MenuManager.menu_items
                        (MenuManager.run ops (MenuManager.init Absent)))).
  { apply menu_run_ids_fresh; [reflexivity|]. split; [constructor | intros ? []]. }
  set (self := MenuManager.run ops (MenuManager.init Absent)) in *.
  destruct Hfresh as [Hnd Hpos]. split; [exact Hnd | split; [exact Hpos|]].
  intros item_id. unfold MenuManager.get_item_by_id, MenuManager.delete_item.
  destruct (in_dec Z.eq_dec item_id (map MenuItem.id (MenuManager.menu_items self)))
    as [Hin | Hnot].
  - destruct (delete_first_present _ _ Hin)
      as (before & item & after & Hsplit & Hid & Hbefore & ->).
    cbn [snd MenuManager.save_menu MenuManager.menu_items].
    apply find_by_key_unknown. rewrite Hsplit, map_app in Hnd. cbn [map] in Hnd.
    apply NoDup_remove_2 in Hnd. rewrite map_app. now rewrite Hid in Hnd.
  - rewrite delete_first_absent by assumption. cbn [snd].
    now apply find_by_key_unknown.
Qed.

Lemma menu_ids_unique_from_empty_witness :
  1 <= MenuItem.id
         (MenuItem.init 1 "Чай чёрный" "Чай" None).
Proof.
  destruct (menu_ids_unique_from_empty
              [MenuManager.AddItem "Чай чёрный" "Чай" None]) as (_ & Hpositive & _).
  apply Hpositive. simpl. auto.
Defined.

(** ** Lines of an order: removal *)

Lemma remove_from_items_absent (menu_item_id : Z) (lines : list OrderItem.t) :
  (forall l, In l lines -> MenuItem.id (OrderItem.menu_item l) <> menu_item_id) ->
  Order.remove_from_items menu_item_id lines = None.
Proof.
  induction lines as [|l lines IH]; intros Habsent; simpl; [reflexivity|].
  destruct (Z.eqb_spec (MenuItem.id (OrderItem.menu_item l)) menu_item_id) as [Heq|_].
  - exfalso. apply (Habsent l); simpl; auto.
  - rewrite IH; [reflexivity|]. intros l' Hl'. apply Habsent. now right.
Qed.

Lemma remove_from_items_present (menu_item_id : Z)
    (before : list OrderItem.t) (line : OrderItem.t) (after : list OrderItem.t) :
  MenuItem.id (OrderItem.menu_item line) = menu_item_id ->
  (forall l, In l before -> MenuItem.id (OrderItem.menu_item l) <> menu_item_id) ->
  Order.remove_from_items menu_item_id (before ++ line :: after)
  = Some (before ++ after).
Proof.
  intros Hline. induction before as [|l before IH]; intros Hbefore; simpl.
  - now rewrite (proj2 (Z.eqb_eq _ _) Hline).
  - destruct (Z.eqb_spec (MenuItem.id (OrderItem.menu_item l)) menu_item_id) as [Heq|_].
    + exfalso. apply (Hbefore l); simpl; auto.
    + rewrite IH; [reflexivity|]. intros l' Hl'. apply Hbefore. now right.
Qed.

(** [remove_item] on an id the order has no line for returns [False] and
    leaves the order as it is; otherwise it returns [True] and drops the
    first line of that id, and only that line. Removing an item right after
    its first [add_item] gives the order back. *)
Theorem remove_item_cases (order : Order.t) (menu_item_id : Z) :
  (Order.lines_for menu_item_id order = [] ->
   Order.remove_item menu_item_id order = (false, order))
  /\ (forall before line after,
        Order.items order = before ++ line :: after ->
        MenuItem.id (OrderItem.menu_item line) = menu_item_id ->
        (forall l, In l before ->
                   MenuItem.id (OrderItem.menu_item l) <> menu_item_id) ->
        fst (Order.remove_item menu_item_id order) = true
        /\ Order.items (snd (Order.remove_item menu_item_id order)) = before ++ after)
  /\ (forall m quantity,
        MenuItem.id m = menu_item_id ->
        Order.lines_for menu_item_id order = [] ->
        Order.remove_item menu_item_id (Order.add_item m quantity order)
        = (true, order)).
Proof.
  unfold Order.remove_item, Order.lines_for. split; [|split].
  - intros Hnone. rewrite remove_from_items_absent; [reflexivity|].
    intros l Hl. apply Z.eqb_neq. revert l Hl. now apply filter_nil_forall.
  - intros before line after Hsplit Hline Hbefore.
    rewrite Hsplit, remove_from_items_present by assumption. split; reflexivity.
  - intros m quantity Hm Hnone.
    assert (Habsent : forall l, In l (Order.items order) ->
                        MenuItem.id (OrderItem.menu_item l) <> menu_item_id).
    { intros l Hl. apply Z.eqb_neq. revert l Hl. now apply filter_nil_forall. }
    cbn [Order.add_item Order.items Order.id Order.table_number Order.timestamp
         Order.is_active].
    rewrite add_to_items_absent by (now rewrite Hm).
    rewrite remove_from_items_present by assumption.
    rewrite app_nil_r. now destruct order.
Qed.

Lemma remove_item_cases_witness :
  Order.remove_item 2 Sample.order5 = (false, Sample.order5)
  /\ Order.items (snd (Order.remove_item 1 Sample.order5)) = []
  /\ Order.remove_item 2 (Order.add_item Sample.lager 4 Sample.order5)
     = (true, Sample.order5).
Proof.
  split; [|split].
  - apply (proj1 (remove_item_cases Sample.order5 2)). reflexivity.
  - destruct (remove_item_cases Sample.order5 1) as (_ & Hpresent & _).
    apply (Hpresent [] (OrderItem.mk Sample.caesar 1) []).
    + reflexivity.
    + reflexivity.
    + intros l [].
  - destruct (remove_item_cases Sample.order5 2) as (_ & _ & Hundo).
    apply Hundo; reflexivity.
Defined.

(** ** Order store: what the file gives back *)

Lemma order_from_to_dict (now : string) (order : Order.t) :
  Order.timestamp order <> EmptyString ->
  Order.from_dict now (Order.to_dict order) = order.
Proof.
  destruct order as [i t ls ts a]. cbn [Order.timestamp]. intros Hts.
  unfold Order.to_dict, Order.from_dict, Order.init. cbn.
  rewrite order_items_from_to_dict, items_or_empty.
  destruct ts; [congruence | reflexivity].
Qed.

Lemma from_dicts_on_saved (clock : nat -> string) (k : nat) (os : list Order.t) :
  (forall order, In order os -> Order.timestamp order <> EmptyString) ->
  OrderManager.from_dicts clock k (map Order.to_dict os) = os.
Proof.
  revert k. induction os as [|o os IH]; intros k Hts; simpl; [reflexivity|].
  rewrite order_from_to_dict by (apply Hts; simpl; auto).
  rewrite IH; [reflexivity|]. intros order Hin. apply Hts. now right.
Qed.

(** A manager constructed on the file that [save_orders] has just written
    holds the saved orders that are active, lines and timestamps included,
    in the same order, and leaves the file as it is. (An order object has a
    non-empty timestamp.) *)
Theorem load_orders_after_save_orders (clock : nat -> string) (self : OrderManager.t) :
  (forall order, In order (OrderManager.orders self) ->
                 Order.timestamp order <> EmptyString) ->
  OrderManager.init clock (OrderManager.file (OrderManager.save_orders self))
  = {| OrderManager.orders := filter Order.is_active (OrderManager.orders self);
       OrderManager.file := OrderManager.file (OrderManager.save_orders self) |}.
Proof.
  intros Hts. unfold OrderManager.init, OrderManager.load_orders,
                OrderManager.save_orders.
  cbn [OrderManager.file OrderManager.orders].
  now rewrite from_dicts_on_saved.
Qed.

Lemma load_orders_after_save_orders_witness :
  OrderManager.orders
    (OrderManager.init Sample.morning
       (OrderManager.file
          (OrderManager.save_orders
             (OrderManager.mk [Sample.order5; Order.set_is_active false Sample.order5]
                              Absent))))
  = [Sample.order5].
Proof.
  rewrite load_orders_after_save_orders.
  - reflexivity.
  - intros order [<- | [<- | []]]; discriminate.
Defined.

(** ** Order store: ids and tables in range *)

Lemma cores_transfer (P : Z * Z * bool -> Prop) (os1 os2 : list Order.t) :
  map OrderManager.core os1 = map OrderManager.core os2 ->
  Forall (fun order => P (OrderManager.core order)) os2 ->
  Forall (fun order => P (OrderManager.core order)) os1.
Proof.
  revert os2. induction os1 as [|a os1 IH]; intros [|b os2] Hcores Hall;
    try discriminate; [constructor|].
  injection Hcores as Hid Htable Hactive Hrest.
  inversion Hall as [|? ? Hb Hos2]; subst.
  constructor; [|now apply (IH os2)].
  unfold OrderManager.core in *. now rewrite Hid, Htable, Hactive.
Qed.

Lemma update_first_Forall {A : Type} (P : A -> Prop) (p : A -> bool) (f : A -> A)
    (xs : list A) :
  (forall x, P x -> P (f x)) -> Forall P xs -> Forall P (update_first p f xs).
Proof.
  intros Hf. induction 1 as [|x xs Hx Hxs IH]; simpl; [constructor|].
  destruct (p x); constructor; auto.
Qed.

Lemma Forall_filter {A : Type} (P : A -> Prop) (p : A -> bool) (xs : list A) :
  Forall P xs -> Forall P (filter p xs).
Proof.
  induction 1 as [|x xs Hx Hxs IH]; simpl; [constructor|].
  destruct (p x); [constructor|]; assumption.
Qed.

Lemma in_range_step (o : OrderManager.op) (self : OrderManager.t) :
  OrderManager.well_formed self ->
  Forall OrderManager.in_range (OrderManager.orders self) ->
  Forall OrderManager.in_range (OrderManager.orders (OrderManager.step o self)).
Proof.
  intros Hwf Hrange.
  destruct o as [now table | order_id m q | order_id | clock]; cbn [OrderManager.step].
  - unfold OrderManager.create_order.
    destruct (negb _) eqn:Hguard; [assumption|].
    destruct (find _ _); [assumption|].
    unfold OrderManager.save_orders. cbn [OrderManager.orders].
    apply Forall_app. split; [assumption|]. constructor; [|constructor].
    apply negb_false_iff, andb_true_iff in Hguard.
    destruct Hguard as [Hlow Hhigh]. apply Z.leb_le in Hlow, Hhigh.
    unfold OrderManager.in_range. cbn [Order.init Order.id Order.table_number].
    assert (0 <= py_max (map Order.id (OrderManager.orders self)) 0).
    { apply py_max_nonnegative. intros x Hx. apply in_map_iff in Hx.
      destruct Hx as [order [<- Hin]].
      pose proof (proj1 (Forall_forall _ _) Hrange order Hin) as [Hid _]. lia. }
    lia.
  - unfold OrderManager.add_line.
    destruct (OrderManager.get_order_by_id _ _); [|assumption].
    unfold OrderManager.save_orders. cbn [OrderManager.orders].
    apply update_first_Forall; [|assumption]. intros x Hx. exact Hx.
  - unfold OrderManager.close_order.
    destruct (OrderManager.get_order_by_id _ _); cbn [snd]; [|assumption].
    unfold OrderManager.save_orders. cbn [OrderManager.orders].
    apply Forall_filter. apply update_first_Forall; [|assumption].
    intros x Hx. exact Hx.
  - eapply (cores_transfer
              (fun c => 1 <= fst (fst c) /\ 1 <= snd (fst c) <= Config.TABLE_COUNT)).
    + apply (OrderManager.wf_file _ Hwf clock).
    + exact Hrange.
Qed.

Lemma in_range_run (ops : list OrderManager.op) (self : OrderManager.t) :
  OrderManager.well_formed self ->
  Forall OrderManager.in_range (OrderManager.orders self) ->
  Forall OrderManager.in_range (OrderManager.orders (OrderManager.run ops self)).
Proof.
  unfold OrderManager.run. revert self.
  induction ops as [|o ops IH]; intros self Hwf Hrange; simpl; [assumption|].
  apply IH; [now apply well_formed_step | now apply in_range_step].
Qed.

(** In a store started on no file, after any calls, no order id is
    repeated, every id is at least 1 and every order is for a table in
    1..TABLE_COUNT. *)
Theorem order_ids_unique_tables_in_range
    (clock : nat -> string) (ops : list OrderManager.op) :
  let self := OrderManager.run ops (OrderManager.init clock Absent) in
  NoDup (map Order.id (OrderManager.orders self))
  /\ forall order, In order (OrderManager.orders self) ->
                   1 <= Order.id order
                   /\ 1 <= Order.table_number order <= Config.TABLE_COUNT.
Proof.
  cbn zeta. split.
  - apply OrderManager.wf_ids, well_formed_run, well_formed_fresh.
  - apply Forall_forall.
    apply (in_range_run ops _ (well_formed_fresh clock)). constructor.
Qed.

Lemma order_ids_unique_tables_in_range_witness :
  1 <= Order.id (Order.mk 1 11 [] Sample.noon true)
  /\ 1 <= Order.table_number (Order.mk 1 11 [] Sample.noon true) <= Config.TABLE_COUNT.
Proof.
  destruct (order_ids_unique_tables_in_range Sample.morning
              [OrderManager.CreateOrder Sample.noon 0;
               OrderManager.CreateOrder Sample.noon 11]) as [_ Hrange].
  apply Hrange. vm_compute. auto.
Defined.

(** ** Order store: lookups after a change *)

Lemma find_update_first_other {A : Type} (p q : A -> bool) (f : A -> A)
    (xs : list A) :
  (forall x, p x = true -> q x = false /\ q (f x) = false) ->
  find q (update_first p f xs) = find q xs.
Proof.
  intros Hdisjoint. induction xs as [|x xs IH]; simpl; [reflexivity|].
  destruct (p x) eqn:Hp; simpl.
  - destruct (Hdisjoint x Hp) as [-> ->]. reflexivity.
  - now rewrite IH.
Qed.

(** The handlers' [order.add_item] + [save_orders] on the order of one id:
    afterwards that id leads to the order with the item added, and every
    other id to the order it led to before. With the id unknown nothing
    changes. *)
Theorem get_order_by_id_after_add_line
    (order_id : Z) (m : MenuItem.t) (quantity : Z) (self : OrderManager.t)
    (other_id : Z) :
  OrderManager.get_order_by_id other_id
    (OrderManager.add_line order_id m quantity self)
  = match OrderManager.get_order_by_id order_id self with
    | Some order =>
        if other_id =? order_id then Some (Order.add_item m quantity order)
        else OrderManager.get_order_by_id other_id self
    | None => OrderManager.get_order_by_id other_id self
    end.
Proof.
  unfold OrderManager.add_line.
  destruct (OrderManager.get_order_by_id order_id self) as [order|] eqn:Hfind;
    [|reflexivity].
  unfold OrderManager.get_order_by_id, OrderManager.save_orders in *.
  cbn [OrderManager.orders].
  destruct (Z.eqb_spec other_id order_id) as [-> | Hother].
  - apply find_update_first; [exact Hfind|].
    cbn [Order.add_item Order.id]. apply Z.eqb_eq.
    exact (find_key_matches Order.id order_id _ _ Hfind).
  - apply find_update_first_other. intros x Hx. apply Z.eqb_eq in Hx.
    cbn [Order.add_item Order.id]. split; apply Z.eqb_neq; congruence.
Qed.

Lemma find_after_close (order_id other_id : Z) (os : list Order.t) :
  other_id <> order_id ->
  forallb Order.is_active os = true ->
  find (fun order => Order.id order =? other_id)
       (filter Order.is_active
               (update_first (fun order => Order.id order =? order_id)
                             (Order.set_is_active false) os))
  = find (fun order => Order.id order =? other_id) os.
Proof.
  intros Hother. induction os as [|o os IH]; simpl; intros Hact; [reflexivity|].
  apply andb_true_iff in Hact. destruct Hact as [Ho Hos].
  destruct (Z.eqb_spec (Order.id o) order_id) as [Heq|Hne]; simpl.
  - rewrite filter_all by assumption.
    destruct (Z.eqb_spec (Order.id o) other_id); [congruence | reflexivity].
  - rewrite Ho. simpl. now rewrite IH.
Qed.

(** Whatever the file held at construction, and after any calls:
    [close_order] on one id leaves the lookup of every other id as it
    was. *)
Theorem close_order_keeps_other_ids
    (clock : nat -> string) (content : file_content Order.dict)
    (ops : list OrderManager.op) (order_id other_id : Z) :
  other_id <> order_id ->
  let self := OrderManager.run ops (OrderManager.init clock content) in
  OrderManager.get_order_by_id other_id (snd (OrderManager.close_order order_id self))
  = OrderManager.get_order_by_id other_id self.
Proof.
  intros Hother. cbn zeta.
  pose proof (all_active_run ops _ (all_active_init clock content)) as Hactive.
  set (self := OrderManager.run ops (OrderManager.init clock content)) in *.
  unfold OrderManager.close_order.
  destruct (OrderManager.get_order_by_id order_id self); cbn [snd]; [|reflexivity].
  unfold OrderManager.get_order_by_id, OrderManager.save_orders.
  cbn [OrderManager.orders]. now apply find_after_close.
Qed.

Lemma close_order_keeps_other_ids_witness :
  let self :=
    OrderManager.run
      [OrderManager.CreateOrder Sample.noon 5; OrderManager.CreateOrder Sample.noon 7]
      (OrderManager.init Sample.morning Absent) in
  OrderManager.get_order_by_id 2 (snd (OrderManager.close_order 1 self))
  = Some (Order.mk 2 7 [] Sample.noon true).
Proof.
  cbn zeta.
  rewrite (close_order_keeps_other_ids Sample.morning Absent
             [OrderManager.CreateOrder Sample.noon 5;
              OrderManager.CreateOrder Sample.noon 7] 1 2) by discriminate.
  reflexivity.
Defined.

Lemma find_unique_key {A : Type} (key : A -> Z) (xs : list A) (x : A) :
  NoDup (map key xs) -> In x xs ->
  find (fun y => key y =? key x) xs = Some x.
Proof.
  induction xs as [|y xs IH]; simpl; intros Hnd Hin; [contradiction|].
  inversion Hnd as [|? ? Hfresh Hrest]; subst.
  destruct Hin as [-> | Hin].
  - now rewrite Z.eqb_refl.
  - destruct (Z.eqb_spec (key y) (key x)) as [Heq|_]; [|now apply IH].
    exfalso. apply Hfresh. rewrite Heq. now apply in_map.
Qed.

Lemma filter_unique_key {A : Type} (key : A -> Z) (xs : list A) (x : A) :
  NoDup (map key xs) -> In x xs ->
  filter (fun y => key y =? key x) xs = [x].
Proof.
  induction xs as [|y xs IH]; simpl; intros Hnd Hin; [contradiction|].
  inversion Hnd as [|? ? Hfresh Hrest]; subst.
  destruct Hin as [-> | Hin].
  - rewrite Z.eqb_refl. f_equal.
    exact (filter_key_none key (fun _ => true) (key x) xs Hfresh).
  - destruct (Z.eqb_spec (key y) (key x)) as [Heq|_]; [|now apply IH].
    exfalso. apply Hfresh. rewrite Heq. now apply in_map.
Qed.

(** In a store started on no file, after any calls: the order that
    [create_order] returns is the one [get_order_by_id] finds under its id
    and the one [get_table_active_order] finds for the table, and it is the
    only order of [get_active_orders] for that table. *)
Theorem create_order_then_lookup
    (clock : nat -> string) (ops : list OrderManager.op)
    (now : string) (table_number : Z) (order : Order.t) (self' : OrderManager.t) :
  OrderManager.create_order now table_number
    (OrderManager.run ops (OrderManager.init clock Absent)) = Ok (order, self') ->
  OrderManager.get_order_by_id (Order.id order) self' = Some order
  /\ OrderManager.get_table_active_order table_number self' = Some order
  /\ filter (fun o => Order.table_number o =? table_number)
            (OrderManager.get_active_orders self') = [order].
Proof.
  intros Hcreate.
  assert (Hwf : OrderManager.well_formed self').
  { pose proof (well_formed_step (OrderManager.CreateOrder now table_number) _
                  (well_formed_run ops _ (well_formed_fresh clock))) as Hstep.
    cbn [OrderManager.step] in Hstep. now rewrite Hcreate in Hstep. }
  assert (Htable : OrderManager.get_table_active_order table_number self'
                   = Some order).
  { pose proof (create_order_again _ _ _ _ _ Hcreate now) as Hagain.
    unfold OrderManager.create_order in Hagain.
    unfold OrderManager.get_table_active_order.
    destruct (negb _); [discriminate|].
    destruct (find _ (OrderManager.orders self')) as [found|];
      [now injection Hagain as -> | ].
    injection Hagain as _ Habsurd.
    exfalso. apply (f_equal (fun s => List.length (OrderManager.orders s))) in Habsurd.
    unfold OrderManager.save_orders in Habsurd. cbn [OrderManager.orders] in Habsurd.
    rewrite length_app in Habsurd. simpl in Habsurd. lia. }
  destruct Hwf as [Hact Hids Htables _].
  unfold OrderManager.get_table_active_order in Htable.
  pose proof (find_some _ _ Htable) as [Hin Hmatch].
  apply andb_true_iff in Hmatch. destruct Hmatch as [Ht _]. apply Z.eqb_eq in Ht.
  split; [|split].
  - now apply find_unique_key.
  - exact Htable.
  - unfold OrderManager.get_active_orders.
    unfold OrderManager.all_active in Hact.
    rewrite (filter_all Order.is_active) by assumption.
    subst table_number. now apply filter_unique_key.
Qed.

Lemma create_order_then_lookup_witness :
  OrderManager.get_order_by_id 1
    (OrderManager.run [OrderManager.CreateOrder Sample.noon 5]
                      (OrderManager.init Sample.morning Absent))
  = Some (Order.mk 1 5 [] Sample.noon true).
Proof.
  apply (create_order_then_lookup Sample.morning
           [OrderManager.CreateOrder Sample.noon 5] Sample.noon 5
           (Order.mk 1 5 [] Sample.noon true)
           (OrderManager.run [OrderManager.CreateOrder Sample.noon 5]
                             (OrderManager.init Sample.morning Absent))).
  reflexivity.
Defined.

(** * Properties of the order-taking handlers *)

(** ** Selecting a table *)

Lemma parse_table_in_range (int : string -> option Z) (text : string) (t : Z) :
  Handlers.parse_table int text = Some t -> 1 <= t <= Config.TABLE_COUNT.
Proof.
  unfold Handlers.parse_table.
  destruct (nth_error _ 1) as [piece|]; [|discriminate].
  destruct (int piece) as [n|]; [|discriminate].
  destruct ((1 <=? n) && (n <=? Config.TABLE_COUNT)) eqn:Hrange; [|discriminate].
  intros [= <-]. apply andb_true_iff in Hrange.
  destruct Hrange as [Hlow Hhigh]. apply Z.leb_le in Hlow, Hhigh. lia.
Qed.

Lemma create_order_in_range (now : string) (t : Z) (om : OrderManager.t) :
  1 <= t <= Config.TABLE_COUNT ->
  OrderManager.get_table_active_order t om = None ->
  exists order,
    OrderManager.create_order now t om
    = Ok (order, OrderManager.save_orders
                   {| OrderManager.orders := OrderManager.orders om ++ [order];
                      OrderManager.file := OrderManager.file om |})
    /\ order = Order.init (py_max (map Order.id (OrderManager.orders om)) 0 + 1)
                          t None None true now.
Proof.
  intros Hrange Hnone.
  unfold OrderManager.create_order, OrderManager.get_table_active_order in *.
  replace ((1 <=? t) && (t <=? Config.TABLE_COUNT)) with true
    by (symmetry; apply andb_true_iff; split; apply Z.leb_le; lia).
  cbn [negb]. rewrite Hnone. eexists. split; reflexivity.
Qed.

(** [select_table] never lets the [ValueError] of [create_order] out, and
    whatever the text it leaves the catalog alone and either leaves the
    order store alone or adds to it one new active order, for a table in
    1..TABLE_COUNT that had no active order. *)
Theorem select_table_never_raises
    (int : string -> option Z) (now text : string) (w : Handlers.world) :
  exists w',
    Handlers.select_table int now text w = Ok w'
    /\ Handlers.menu_manager w' = Handlers.menu_manager w
    /\ (Handlers.order_manager w' = Handlers.order_manager w
        \/ exists table_number order,
             1 <= table_number <= Config.TABLE_COUNT
             /\ OrderManager.get_table_active_order table_number
                  (Handlers.order_manager w) = None
             /\ OrderManager.create_order now table_number (Handlers.order_manager w)
                = Ok (order, Handlers.order_manager w')
             /\ OrderManager.orders (Handlers.order_manager w')
                = OrderManager.orders (Handlers.order_manager w) ++ [order]
             /\ Order.table_number order = table_number
             /\ Order.is_active order = true).
Proof.
  unfold Handlers.select_table.
  destruct (String.eqb text _); [eexists; split; [reflexivity | auto]|].
  destruct (negb _); [eexists; split; [reflexivity | auto]|].
  destruct (Handlers.parse_table int text) as [t|] eqn:Hparse;
    [|eexists; split; [reflexivity | auto]].
  apply parse_table_in_range in Hparse.
  destruct (OrderManager.get_table_active_order t (Handlers.order_manager w))
    as [existing|] eqn:Hactive; [eexists; split; [reflexivity | auto]|].
  destruct (create_order_in_range now t _ Hparse Hactive) as [order [Hcreate Horder]].
  rewrite Hcreate. eexists. split; [reflexivity|].
  split; [reflexivity|]. right. exists t, order.
  cbn [Handlers.answer Handlers.set_state Handlers.update_current_order_id
       Handlers.set_order_manager Handlers.order_manager].
  repeat split; try assumption; try lia; subst order; reflexivity.
Qed.

(** A text that starts with "Стол " and whose second piece between spaces
    reads as a table number in 1..TABLE_COUNT opens the table: with an
    active order for it, the chat goes to [managing_order] on that order
    and the store stays as it was; with none, [create_order] runs and the
    chat goes to [selecting_main_category] on the new order. Any other
    text, the main-menu label apart, only gets the re-prompt. *)
Theorem select_table_cases
    (int : string -> option Z) (now text : string) (w : Handlers.world) :
  text <> "🔙 Вернуться в главное меню" ->
  (forall piece table_number,
      String.prefix "Стол " text = true ->
      nth_error (Handlers.split_on " "%char text) 1 = Some piece ->
      int piece = Some table_number ->
      1 <= table_number <= Config.TABLE_COUNT ->
      (forall existing,
          OrderManager.get_table_active_order table_number
            (Handlers.order_manager w) = Some existing ->
          exists w',
            Handlers.select_table int now text w = Ok w'
            /\ Handlers.state (Handlers.fsm w') = Some Handlers.managing_order
            /\ Handlers.current_order_id (Handlers.fsm w') = Some (Order.id existing)
            /\ Handlers.order_manager w' = Handlers.order_manager w)
      /\ (OrderManager.get_table_active_order table_number
            (Handlers.order_manager w) = None ->
          exists w' order,
            Handlers.select_table int now text w = Ok w'
            /\ OrderManager.create_order now table_number (Handlers.order_manager w)
               = Ok (order, Handlers.order_manager w')
            /\ Handlers.state (Handlers.fsm w')
               = Some Handlers.selecting_main_category
            /\ Handlers.current_order_id (Handlers.fsm w') = Some (Order.id order)))
  /\ (String.prefix "Стол " text = false
      \/ Handlers.parse_table int text = None ->
      exists w',
        Handlers.select_table int now text w = Ok w'
        /\ Handlers.only_answered w w' "❌ Пожалуйста, выберите стол из списка:"
             Handlers.get_tables_keyboard).
Proof.
  intros Hlabel. apply String.eqb_neq in Hlabel.
  unfold Handlers.select_table. rewrite Hlabel. split.
  - intros piece t Hprefix Hpiece Hint Hrange. rewrite Hprefix. cbn [negb].
    assert (Hparse : Handlers.parse_table int text = Some t).
    { unfold Handlers.parse_table. rewrite Hpiece, Hint.
      replace ((1 <=? t) && (t <=? Config.TABLE_COUNT)) with true; [reflexivity|].
      symmetry. apply andb_true_iff. split; apply Z.leb_le; lia. }
    rewrite Hparse. split.
    + intros existing ->. eexists. split; [reflexivity | easy].
    + intros Hnone. rewrite Hnone.
      destruct (create_order_in_range now t _ Hrange Hnone) as [order [Hcreate _]].
      rewrite Hcreate. eexists. eexists. split; [reflexivity|]. easy.
  - intros [Hprefix | Hparse].
    + rewrite Hprefix. cbn [negb]. eexists. split; [reflexivity | easy].
    + destruct (negb _); [eexists; split; [reflexivity | easy]|].
      rewrite Hparse. eexists. split; [reflexivity | easy].
Qed.

Lemma select_table_cases_witness :
  (exists w',
      Handlers.select_table Handlers.decimal_int Sample.noon "Стол 5" Sample.world
      = Ok w'
      /\ Handlers.state (Handlers.fsm w') = Some Handlers.managing_order
      /\ Handlers.current_order_id (Handlers.fsm w') = Some 1
      /\ Handlers.order_manager w' = Sample.store)
  /\ (exists w' order,
         Handlers.select_table Handlers.decimal_int Sample.noon "Стол 7" Sample.world
         = Ok w'
         /\ OrderManager.create_order Sample.noon 7 Sample.store
            = Ok (order, Handlers.order_manager w')
         /\ Handlers.state (Handlers.fsm w') = Some Handlers.selecting_main_category
         /\ Handlers.current_order_id (Handlers.fsm w') = Some (Order.id order))
  /\ (exists w',
         Handlers.select_table Handlers.decimal_int Sample.noon "Стол 12" Sample.world
         = Ok w'
         /\ Handlers.only_answered Sample.world w'
              "❌ Пожалуйста, выберите стол из списка:" Handlers.get_tables_keyboard).
Proof.
  split; [|split].
  - destruct (select_table_cases Handlers.decimal_int Sample.noon "Стол 5"
                Sample.world ltac:(discriminate)) as [Haccept _].
    destruct (Haccept "5" 5 eq_refl eq_refl eq_refl ltac:(unfold Config.TABLE_COUNT; lia))
      as [Hexisting _].
    apply (Hexisting Sample.order5). reflexivity.
  - destruct (select_table_cases Handlers.decimal_int Sample.noon "Стол 7"
                Sample.world ltac:(discriminate)) as [Haccept _].
    destruct (Haccept "7" 7 eq_refl eq_refl eq_refl ltac:(unfold Config.TABLE_COUNT; lia))
      as [_ Hnew].
    apply Hnew. reflexivity.
  - destruct (select_table_cases Handlers.decimal_int Sample.noon "Стол 12"
                Sample.world ltac:(discriminate)) as [_ Hreject].
    apply Hreject. right. reflexivity.
Defined.

(** ** Grouping the lines of an order by category *)

Lemma first_occurrences_snoc (xs : list string) (x : string) :
  Handlers.first_occurrences (xs ++ [x])
  = if str_in x (Handlers.first_occurrences xs) then Handlers.first_occurrences xs
    else Handlers.first_occurrences xs ++ [x].
Proof. unfold Handlers.first_occurrences. now rewrite fold_left_app. Qed.

Lemma first_occurrences_In (xs : list string) (c : string) :
  In c (Handlers.first_occurrences xs) <-> In c xs.
Proof.
  induction xs as [|x xs IH] using rev_ind; [reflexivity|].
  rewrite first_occurrences_snoc, in_app_iff. simpl.
  destruct (str_in x (Handlers.first_occurrences xs)) eqn:Hseen.
  - apply str_in_iff in Hseen. rewrite IH in *. intuition (subst; auto).
  - rewrite in_app_iff, IH. simpl. tauto.
Qed.

Lemma first_occurrences_NoDup (xs : list string) :
  NoDup (Handlers.first_occurrences xs).
Proof.
  induction xs as [|x xs IH] using rev_ind; [constructor|].
  rewrite first_occurrences_snoc.
  destruct (str_in x (Handlers.first_occurrences xs)) eqn:Hseen; [assumption|].
  apply NoDup_app_singleton; [assumption|].
  intros Hin. apply str_in_iff in Hin. congruence.
Qed.

Lemma group_insert_new (c : string) (l : OrderItem.t)
    (f : string -> list OrderItem.t) (cs : list string) :
  ~ In c cs ->
  Handlers.group_insert c l (map (fun c' => (c', f c')) cs)
  = map (fun c' => (c', f c')) cs ++ [(c, [l])].
Proof.
  induction cs as [|c' cs IH]; simpl; intros Hnew; [reflexivity|].
  destruct (String.eqb_spec c' c) as [Heq|_]; [exfalso; auto|].
  rewrite IH; tauto.
Qed.

Lemma group_insert_known (c : string) (l : OrderItem.t)
    (f : string -> list OrderItem.t) (cs : list string) :
  NoDup cs -> In c cs ->
  Handlers.group_insert c l (map (fun c' => (c', f c')) cs)
  = map (fun c' => (c', if String.eqb c' c then f c' ++ [l] else f c')) cs.
Proof.
  induction cs as [|c' cs IH]; simpl; intros Hnd Hin; [contradiction|].
  inversion Hnd as [|? ? Hfresh Hrest]; subst.
  destruct (String.eqb_spec c' c) as [-> | Hne].
  - f_equal. apply map_ext_in. intros c' Hc'.
    destruct (String.eqb_spec c' c) as [-> | _]; [contradiction | reflexivity].
  - f_equal. apply IH; [assumption|]. destruct Hin; [contradiction | assumption].
Qed.

Lemma items_by_category_snoc (lines : list OrderItem.t) (l : OrderItem.t) :
  Handlers.items_by_category (lines ++ [l])
  = Handlers.group_insert (MenuItem.category (OrderItem.menu_item l)) l
      (Handlers.items_by_category lines).
Proof. unfold Handlers.items_by_category. now rewrite fold_left_app. Qed.

Lemma items_by_category_spec (lines : list OrderItem.t) :
  Handlers.items_by_category lines
  = map (fun c => (c, Handlers.lines_of_category c lines))
        (Handlers.first_occurrences
           (map (fun l => MenuItem.category (OrderItem.menu_item l)) lines)).
Proof.
  induction lines as [|l lines IH] using rev_ind; [reflexivity|].
  rewrite items_by_category_snoc, IH, map_app. cbn [map].
  rewrite first_occurrences_snoc.
  set (c := MenuItem.category (OrderItem.menu_item l)).
  set (cs := Handlers.first_occurrences _).
  assert (Hlines : forall c',
             Handlers.lines_of_category c' (lines ++ [l])
             = Handlers.lines_of_category c' lines
               ++ (if String.eqb c c' then [l] else [])).
  { intros c'. unfold Handlers.lines_of_category. rewrite filter_app. reflexivity. }
  destruct (str_in c cs) eqn:Hseen.
  - apply str_in_iff in Hseen.
    rewrite group_insert_known by (assumption || apply first_occurrences_NoDup).
    apply map_ext. intros c'. rewrite Hlines, (String.eqb_sym c c').
    destruct (String.eqb c' c); [reflexivity | now rewrite app_nil_r].
  - assert (Hnew : ~ In c cs).
    { intros Hin. apply str_in_iff in Hin. congruence. }
    rewrite group_insert_new by assumption. rewrite map_app. cbn [map].
    f_equal.
    + apply map_ext_in. intros c' Hc'. rewrite Hlines.
      destruct (String.eqb_spec c c') as [<- | _]; [contradiction|].
      now rewrite app_nil_r.
    + rewrite Hlines, String.eqb_refl.
      replace (Handlers.lines_of_category c lines) with (@nil OrderItem.t);
        [reflexivity|].
      symmetry. unfold Handlers.lines_of_category.
      destruct (filter _ lines) as [|x xs] eqn:Hfilter; [reflexivity|].
      exfalso. apply Hnew. subst cs. apply first_occurrences_In.
      assert (Hx : In x (filter
                           (fun line =>
                              String.eqb (MenuItem.category (OrderItem.menu_item line)) c)
                           lines)) by (rewrite Hfilter; now left).
      apply filter_In in Hx. destruct Hx as [Hx Hc]. apply String.eqb_eq in Hc.
      rewrite <- Hc.
      now apply (in_map (fun l => MenuItem.category (OrderItem.menu_item l))).
Qed.

(** The grouping behind the order summary and the receipt: one group per
    category among the lines, the groups in the order in which the
    categories first appear, and each group holding exactly the lines of
    its category in the order they have in the order. No category heads two
    groups and no group is empty. *)
Theorem items_by_category_groups (lines : list OrderItem.t) :
  Handlers.items_by_category lines
  = map (fun c => (c, Handlers.lines_of_category c lines))
        (Handlers.first_occurrences
           (map (fun l => MenuItem.category (OrderItem.menu_item l)) lines))
  /\ NoDup (map fst (Handlers.items_by_category lines))
  /\ (forall c group, In (c, group) (Handlers.items_by_category lines) ->
        group = Handlers.lines_of_category c lines /\ group <> [])
  /\ (forall l, In l lines ->
        In (MenuItem.category (OrderItem.menu_item l),
            Handlers.lines_of_category
              (MenuItem.category (OrderItem.menu_item l)) lines)
           (Handlers.items_by_category lines)).
Proof.
  pose proof (items_by_category_spec lines) as Hspec.
  split; [exact Hspec|]. rewrite Hspec. split; [|split].
  - rewrite map_map. cbn [fst]. rewrite map_id. apply first_occurrences_NoDup.
  - intros c group Hin. apply in_map_iff in Hin.
    destruct Hin as [c' [[= <- <-] Hc']]. split; [reflexivity|].
    apply first_occurrences_In, in_map_iff in Hc'.
    destruct Hc' as [l [Hcat Hl]]. intros Hempty.
    assert (Hl' : In l (Handlers.lines_of_category c' lines)).
    { apply filter_In. split; [assumption | now apply String.eqb_eq]. }
    rewrite Hempty in Hl'. contradiction.
  - intros l Hl. apply in_map_iff.
    exists (MenuItem.category (OrderItem.menu_item l)). split; [reflexivity|].
    apply first_occurrences_In.
    now apply (in_map (fun l => MenuItem.category (OrderItem.menu_item l))).
Qed.

Lemma items_by_category_groups_witness :
  Handlers.lines_of_category "Пиво"
    [OrderItem.mk Sample.lager 1; OrderItem.mk Sample.caesar 2;
     OrderItem.mk Sample.lager 3]
  = [OrderItem.mk Sample.lager 1; OrderItem.mk Sample.lager 3]
  /\ [OrderItem.mk Sample.lager 1; OrderItem.mk Sample.lager 3] <> [].
Proof.
  destruct (items_by_category_groups
              [OrderItem.mk Sample.lager 1; OrderItem.mk Sample.caesar 2;
               OrderItem.mk Sample.lager 3]) as (_ & _ & Hgroups & _).
  destruct (Hgroups "Пиво" [OrderItem.mk Sample.lager 1; OrderItem.mk Sample.lager 3])
    as [Hlines Hnonempty].
  - vm_compute. auto.
  - split; [now symmetry | exact Hnonempty].
Defined.

(** ** Finishing an order *)

Lemma NoDup_map_injective {A : Type} (key : A -> Z) (xs : list A) (x y : A) :
  NoDup (map key xs) -> In x xs -> In y xs -> key x = key y -> x = y.
Proof.
  induction xs as [|a xs IH]; simpl; intros Hnd Hx Hy Hkey; [contradiction|].
  inversion Hnd as [|? ? Hfresh Hrest]; subst.
  destruct Hx as [-> | Hx], Hy as [-> | Hy]; auto.
  - exfalso. apply Hfresh. rewrite Hkey. now apply in_map.
  - exfalso. apply Hfresh. rewrite <- Hkey. now apply in_map.
Qed.

Lemma table_free_after_close (order_id : Z) (order : Order.t) (om : OrderManager.t) :
  OrderManager.well_formed om ->
  OrderManager.get_order_by_id order_id om = Some order ->
  OrderManager.get_order_by_id order_id (snd (OrderManager.close_order order_id om))
  = None
  /\ OrderManager.get_table_active_order (Order.table_number order)
       (snd (OrderManager.close_order order_id om)) = None.
Proof.
  intros Hwf Hfind.
  pose proof (find_some _ _ Hfind) as [Hin Hid]. apply Z.eqb_eq in Hid.
  assert (Hknown : In order_id (map Order.id (OrderManager.orders om))).
  { rewrite <- Hid. now apply in_map. }
  destruct (close_order_known order_id om Hwf Hknown) as [file' ->]. cbn [snd].
  destruct Hwf as [_ _ Htables _]. split.
  - apply find_by_key_unknown. apply id_absent_after_filter.
  - apply find_none_iff. intros o Ho. cbn [OrderManager.orders] in Ho.
    apply filter_In in Ho. destruct Ho as [Ho Hother].
    apply negb_true_iff, Z.eqb_neq in Hother.
    destruct (Z.eqb_spec (Order.table_number o) (Order.table_number order)) as [Heq|_];
      [|reflexivity].
    exfalso. apply Hother.
    rewrite (NoDup_map_injective Order.table_number _ o order Htables Ho Hin Heq).
    exact Hid.
Qed.

(** The text "✅ Завершить заказ" in [select_main_category]: with the
    chat's order gone it only answers; with an order that has no line it
    closes the order and clears the chat, after which (in a store that
    started on no file) neither the id nor the table leads to an order;
    with an order that has lines it clears the chat and leaves the store as
    it was, the order still active. *)
Theorem finish_order_cases (w : Handlers.world) :
  let w' := Handlers.select_main_category "✅ Завершить заказ" w in
  (Handlers.current_order w = None ->
   Handlers.only_answered w w' "❌ Заказ не найден." Handlers.get_main_keyboard)
  /\ (forall order_id order,
        Handlers.current_order_id (Handlers.fsm w) = Some order_id ->
        OrderManager.get_order_by_id order_id (Handlers.order_manager w) = Some order ->
        (Order.items order = [] ->
         Handlers.fsm w' = Handlers.mk_ctx None None None None None None
         /\ Handlers.order_manager w'
            = snd (OrderManager.close_order order_id (Handlers.order_manager w))
         /\ (OrderManager.well_formed (Handlers.order_manager w) ->
             OrderManager.get_order_by_id order_id (Handlers.order_manager w') = None
             /\ OrderManager.get_table_active_order (Order.table_number order)
                  (Handlers.order_manager w') = None))
        /\ (Order.items order <> [] ->
            Handlers.fsm w' = Handlers.mk_ctx None None None None None None
            /\ Handlers.order_manager w' = Handlers.order_manager w)).
Proof.
  cbn zeta. unfold Handlers.select_main_category. cbn [String.eqb Ascii.eqb Bool.eqb].
  split.
  - intros ->. easy.
  - intros order_id order Hid Hfind.
    assert (Hcurrent : Handlers.current_order w = Some order).
    { unfold Handlers.current_order. now rewrite Hid. }
    rewrite Hcurrent. split.
    + intros ->. unfold Handlers.close_current_order. rewrite Hid.
      cbn [snd Handlers.clear Handlers.answer Handlers.set_order_manager
           Handlers.fsm Handlers.order_manager].
      split; [reflexivity | split; [reflexivity|]].
      intros Hwf. now apply (table_free_after_close order_id order).
    + destruct (Order.items order); [congruence|]. intros _. split; reflexivity.
Qed.

Lemma finish_order_cases_witness :
  let w :=
    Handlers.mk_world
      (Handlers.mk_ctx (Some Handlers.selecting_main_category) (Some 1) None None None None)
      (OrderManager.run [OrderManager.CreateOrder Sample.noon 5]
                        (OrderManager.init Sample.morning Absent))
      Sample.menu [] in
  let w' := Handlers.select_main_category "✅ Завершить заказ" w in
  OrderManager.get_order_by_id 1 (Handlers.order_manager w') = None
  /\ OrderManager.get_table_active_order 5 (Handlers.order_manager w') = None
  /\ Handlers.order_manager
       (Handlers.select_main_category "✅ Завершить заказ" Sample.world)
     = Sample.store.
Proof.
  cbn zeta. split; [|split].
  - destruct (finish_order_cases
                (Handlers.mk_world
                   (Handlers.mk_ctx (Some Handlers.selecting_main_category) (Some 1)
                                    None None None None)
                   (OrderManager.run [OrderManager.CreateOrder Sample.noon 5]
                                     (OrderManager.init Sample.morning Absent))
                   Sample.menu [])) as [_ Hfound].
    destruct (Hfound 1 (Order.mk 1 5 [] Sample.noon true) eq_refl eq_refl)
      as [Hempty _].
    destruct (Hempty eq_refl) as (_ & _ & Hgone).
    apply Hgone. apply well_formed_run, well_formed_fresh.
  - destruct (finish_order_cases
                (Handlers.mk_world
                   (Handlers.mk_ctx (Some Handlers.selecting_main_category) (Some 1)
                                    None None None None)
                   (OrderManager.run [OrderManager.CreateOrder Sample.noon 5]
                                     (OrderManager.init Sample.morning Absent))
                   Sample.menu [])) as [_ Hfound].
    destruct (Hfound 1 (Order.mk 1 5 [] Sample.noon true) eq_refl eq_refl)
      as [Hempty _].
    destruct (Hempty eq_refl) as (_ & _ & Hgone).
    apply Hgone. apply well_formed_run, well_formed_fresh.
  - destruct (finish_order_cases Sample.world) as [_ Hfound].
    destruct (Hfound 1 Sample.order5 eq_refl eq_refl) as [_ Hlines].
    apply Hlines. discriminate.
Defined.

(** ** Picking a menu item *)

Lemma find_first_match {A : Type} (p : A -> bool) (before : list A) (x : A)
    (after : list A) :
  (forall y, In y before -> p y = false) -> p x = true ->
  find p (before ++ x :: after) = Some x.
Proof.
  intros Hbefore Hx. induction before as [|y before IH]; simpl.
  - now rewrite Hx.
  - rewrite (Hbefore y) by (simpl; auto). apply IH.
    intros z Hz. apply Hbefore. now right.
Qed.

Lemma prefix_refl (s : string) : String.prefix s s = true.
Proof.
  induction s as [|c s IH]; simpl; [reflexivity|].
  destruct (ascii_dec c c); [assumption | congruence].
Qed.

(** [select_menu_item] takes the first item of the current category whose
    name the text starts with. So the text of an item's button selects that
    item when no item listed before it in the category has a name the text
    starts with; the chat then goes to [entering_quantity] on that item. A
    text that starts with no item's name only gets the re-prompt. The
    stores are never touched. *)
Theorem select_menu_item_cases
    (lower : string -> string) (text category : string) (w : Handlers.world) :
  Handlers.current_category (Handlers.fsm w) = Some category ->
  let items :=
    MenuManager.get_menu_items_by_category lower category (Handlers.menu_manager w) in
  (forall before item after,
      items = before ++ item :: after ->
      text = MenuItem.name item ->
      (forall earlier, In earlier before ->
                       String.prefix (MenuItem.name earlier) text = false) ->
      exists w',
        Handlers.select_menu_item lower text w = Ok w'
        /\ Handlers.state (Handlers.fsm w') = Some Handlers.entering_quantity
        /\ Handlers.current_item_id (Handlers.fsm w') = Some (MenuItem.id item)
        /\ Handlers.current_order_id (Handlers.fsm w')
           = Handlers.current_order_id (Handlers.fsm w)
        /\ Handlers.order_manager w' = Handlers.order_manager w
        /\ Handlers.menu_manager w' = Handlers.menu_manager w)
  /\ ((forall item, In item items -> String.prefix (MenuItem.name item) text = false) ->
      exists w',
        Handlers.select_menu_item lower text w = Ok w'
        /\ Handlers.only_answered w w' "❌ Пожалуйста, выберите блюдо из списка:"
             (Handlers.items_keyboard items)).
Proof.
  intros Hcategory. cbn zeta.
  unfold Handlers.select_menu_item, Handlers.items_of_current_category.
  rewrite Hcategory. split.
  - intros before item after Hsplit Htext Hbefore. rewrite Hsplit.
    rewrite (find_first_match _ before item after Hbefore)
      by (rewrite Htext; apply prefix_refl).
    eexists. split; [reflexivity | easy].
  - intros Hnone. rewrite (proj2 (find_none_iff _ _) Hnone).
    eexists. split; [reflexivity | easy].
Qed.

Lemma select_menu_item_cases_witness :
  (exists w',
      Handlers.select_menu_item Handlers.same_case "Салат Цезарь" Sample.world = Ok w'
      /\ Handlers.state (Handlers.fsm w') = Some Handlers.entering_quantity
      /\ Handlers.current_item_id (Handlers.fsm w') = Some 1
      /\ Handlers.current_order_id (Handlers.fsm w') = Some 1
      /\ Handlers.order_manager w' = Sample.store
      /\ Handlers.menu_manager w' = Sample.menu)
  /\ (exists w',
         Handlers.select_menu_item Handlers.same_case "Борщ" Sample.world = Ok w'
         /\ Handlers.only_answered Sample.world w'
              "❌ Пожалуйста, выберите блюдо из списка:"
              (Handlers.items_keyboard [Sample.caesar])).
Proof.
  split.
  - destruct (select_menu_item_cases Handlers.same_case "Салат Цезарь" "Салаты"
                Sample.world eq_refl) as [Hpick _].
    apply (Hpick [] Sample.caesar []).
    + reflexivity.
    + reflexivity.
    + intros earlier [].
  - destruct (select_menu_item_cases Handlers.same_case "Борщ" "Салаты"
                Sample.world eq_refl) as [_ Hnone].
    apply Hnone. intros item [<- | []]. reflexivity.
Defined.

(** ** Closing an order from the chat *)

(** In a store that started on no file, with the chat on an order that is
    still there: confirming closes the order through [close_order] and
    leaves the FSM context as it was (the state stays [confirm_close]);
    the handler raises, after the close, exactly when the order's
    timestamp cannot be formatted. The id then leads to no order, and a
    second confirmation only answers that the order was not found.
    Denying leaves the store as it was and returns to [managing_order]. *)
Theorem close_confirmation_cases
    (format_timestamp : string -> option string) (w : Handlers.world)
    (order_id : Z) (order : Order.t) :
  OrderManager.well_formed (Handlers.order_manager w) ->
  Handlers.current_order_id (Handlers.fsm w) = Some order_id ->
  order_id <> 0 ->
  OrderManager.get_order_by_id order_id (Handlers.order_manager w) = Some order ->
  let confirmed := Handlers.confirm_close_order format_timestamp w in
  let w' := Handlers.world_of confirmed in
  Handlers.order_manager w'
  = snd (OrderManager.close_order order_id (Handlers.order_manager w))
  /\ Handlers.fsm w' = Handlers.fsm w
  /\ ((exists e, confirmed = Handlers.Raised e w')
      <-> format_timestamp (Order.timestamp order) = None)
  /\ OrderManager.get_order_by_id order_id (Handlers.order_manager w') = None
  /\ Handlers.confirm_close_order format_timestamp w'
     = Handlers.Returned
         (Handlers.answer "❌ Заказ не найден! Возможно, он был уже закрыт."
                          Handlers.get_main_keyboard w')
  /\ Handlers.order_manager (Handlers.cancel_close_order w) = Handlers.order_manager w
  /\ Handlers.state (Handlers.fsm (Handlers.cancel_close_order w))
     = Some Handlers.managing_order.
Proof.
  intros Hwf Hid Hnonzero Hfind. cbn zeta.
  assert (Hcurrent : Handlers.current_order w = Some order).
  { unfold Handlers.current_order. now rewrite Hid. }
  assert (Hfalsy : Handlers.falsy_id (Handlers.current_order_id (Handlers.fsm w))
                   = false).
  { rewrite Hid. cbn. now apply Z.eqb_neq. }
  pose proof (find_some _ _ Hfind) as [Hin Hkey]. apply Z.eqb_eq in Hkey.
  assert (Hknown : In order_id (map Order.id
                                    (OrderManager.orders (Handlers.order_manager w)))).
  { rewrite <- Hkey. now apply in_map. }
  destruct (table_free_after_close order_id order _ Hwf Hfind) as [Hgone _].
  destruct (close_order_known order_id _ Hwf Hknown) as [file' Hclose].
  unfold Handlers.confirm_close_order, Handlers.cancel_close_order.
  rewrite Hfalsy, Hcurrent. unfold Handlers.close_current_order.
  rewrite Hid. rewrite Hclose in *. cbn [fst snd] in *.
  set (om' := OrderManager.mk _ file') in *.
  assert (Hagain : forall w1,
             Handlers.fsm w1 = Handlers.fsm w ->
             Handlers.order_manager w1 = om' ->
             Handlers.confirm_close_order format_timestamp w1
             = Handlers.Returned
                 (Handlers.answer "❌ Заказ не найден! Возможно, он был уже закрыт."
                                  Handlers.get_main_keyboard w1)).
  { intros w1 Hfsm Hom. unfold Handlers.confirm_close_order, Handlers.current_order.
    rewrite Hfsm, Hfalsy, Hid, Hom, Hgone. reflexivity. }
  destruct (format_timestamp (Order.timestamp order)) as [timestamp|];
    cbn [Handlers.world_of];
    (split; [reflexivity|]); (split; [reflexivity|]); split.
  - split; [intros [e He]; discriminate | discriminate].
  - split; [exact Hgone|]. split; [|split; reflexivity].
    apply Hagain; reflexivity.
  - split; [intros _; reflexivity | intros _; eexists; reflexivity].
  - split; [exact Hgone|]. split; [|split; reflexivity].
    apply Hagain; reflexivity.
Qed.

Lemma close_confirmation_cases_witness :
  let w :=
    Handlers.mk_world
      (Handlers.mk_ctx (Some Handlers.confirm_close) (Some 1) None None None None)
      (OrderManager.run
         [OrderManager.CreateOrder Sample.noon 5; OrderManager.AddLine 1 Sample.caesar 2]
         (OrderManager.init Sample.morning Absent))
      Sample.menu [] in
  let w' := Handlers.world_of (Handlers.confirm_close_order (fun ts => Some ts) w) in
  OrderManager.orders (Handlers.order_manager w') = []
  /\ Handlers.state (Handlers.fsm w') = Some Handlers.confirm_close
  /\ OrderManager.get_order_by_id 1 (Handlers.order_manager w') = None.
Proof.
  cbn zeta.
  destruct (close_confirmation_cases (fun ts => Some ts)
              (Handlers.mk_world
                 (Handlers.mk_ctx (Some Handlers.confirm_close) (Some 1)
                                  None None None None)
                 (OrderManager.run
                    [OrderManager.CreateOrder Sample.noon 5;
                     OrderManager.AddLine 1 Sample.caesar 2]
                    (OrderManager.init Sample.morning Absent))
                 Sample.menu [])
              1 (Order.mk 1 5 [OrderItem.mk Sample.caesar 2] Sample.noon true))
    as (Hstore & Hfsm & _ & Hgone & _).
  - apply well_formed_run, well_formed_fresh.
  - reflexivity.
  - discriminate.
  - reflexivity.
  - split; [|split].
    + rewrite Hstore. reflexivity.
    + rewrite Hfsm. reflexivity.
    + exact Hgone.
Defined.

(** ** From the main category to the new line *)

Lemma select_main_category_accepts (main : string) (w : Handlers.world) :
  In main Config.MAIN_CATEGORIES ->
  Handlers.select_main_category main w
  = Handlers.answer
      ("<b>" ++ main ++ "</b>" ++ Handlers.nl ++ Handlers.nl
       ++ "Выберите категорию блюд:")%string
      (Handlers.get_subcategories_keyboard (Some main))
      (Handlers.set_state Handlers.selecting_category
         (Handlers.update_current_main_category main w)).
Proof.
  intros [<- | [<- | []]]; reflexivity.
Qed.

Lemma subcategory_known (main c : string) :
  In c (MenuManager.get_subcategories main) ->
  String.eqb c "🔙 Назад к основным категориям" = false
  /\ str_in c (MenuManager.get_subcategories main) = true.
Proof.
  intros Hc. split; [|now apply str_in_iff].
  unfold MenuManager.get_subcategories, Config.MENU_CATEGORIES in Hc.
  cbn [find fst snd] in Hc.
  destruct (String.eqb "Кухня" main).
  - repeat (destruct Hc as [<- | Hc]; [reflexivity|]). contradiction.
  - destruct (String.eqb "Бар" main).
    + repeat (destruct Hc as [<- | Hc]; [reflexivity|]). contradiction.
    + contradiction.
Qed.

Lemma select_subcategory_accepts (lower : string -> string) (main c : string)
    (w : Handlers.world) (item : MenuItem.t) (rest : list MenuItem.t) :
  Handlers.current_main_category (Handlers.fsm w) = Some main ->
  In c (MenuManager.get_subcategories main) ->
  MenuManager.get_menu_items_by_category lower c (Handlers.menu_manager w)
  = item :: rest ->
  Handlers.select_subcategory lower c w
  = Handlers.answer
      ("🍽️ <b>Выберите позицию из категории " ++ Handlers.dquote ++ c
       ++ Handlers.dquote ++ "</b>")%string
      (Handlers.items_keyboard (item :: rest))
      (Handlers.set_state Handlers.selecting_menu_item
         (Handlers.update_current_category c w)).
Proof.
  intros Hmain Hc Hitems. destruct (subcategory_known main c Hc) as [Hback Hin].
  unfold Handlers.select_subcategory. rewrite Hback, Hmain.
  cbn [Handlers.subcategories_of]. rewrite Hin. cbn [negb].
  cbn [Handlers.update_current_category Handlers.menu_manager].
  now rewrite Hitems.
Qed.

(** The order-taking flow, handler after handler: a main category, one of
    its categories, the button of an item of that category (no item listed
    before it having a name the button starts with) and a text that [int]
    reads as a positive quantity. The chat ends in
    [selecting_main_category] and the store is the old one with
    [Order.add_item] run on the chat's order for that item and quantity. *)
Theorem order_taking_flow_adds_line
    (int : string -> option Z) (lower : string -> string)
    (main category quantity_text : string) (quantity : Z)
    (w : Handlers.world) (order_id : Z) (order : Order.t)
    (before : list MenuItem.t) (item : MenuItem.t) (after : list MenuItem.t) :
  Handlers.current_order_id (Handlers.fsm w) = Some order_id ->
  OrderManager.get_order_by_id order_id (Handlers.order_manager w) = Some order ->
  In main Config.MAIN_CATEGORIES ->
  In category (MenuManager.get_subcategories main) ->
  MenuManager.get_menu_items_by_category lower category (Handlers.menu_manager w)
  = before ++ item :: after ->
  (forall earlier, In earlier before ->
                   String.prefix (MenuItem.name earlier) (MenuItem.name item) = false) ->
  MenuManager.get_item_by_id (MenuItem.id item) (Handlers.menu_manager w) = Some item ->
  quantity_text <> "Другое количество" -> quantity_text <> "🔙 Назад" ->
  quantity_text <> "🔙 Отмена" ->
  int quantity_text = Some quantity -> 0 < quantity ->
  exists w3 w4,
    Handlers.select_menu_item lower (MenuItem.name item)
      (Handlers.select_subcategory lower category
         (Handlers.select_main_category main w)) = Ok w3
    /\ Handlers.process_quantity int lower quantity_text w3 = Ok w4
    /\ Handlers.state (Handlers.fsm w4) = Some Handlers.selecting_main_category
    /\ Handlers.order_manager w4
       = OrderManager.add_line order_id item quantity (Handlers.order_manager w)
    /\ OrderManager.get_order_by_id order_id (Handlers.order_manager w4)
       = Some (Order.add_item item quantity order)
    /\ Handlers.menu_manager w4 = Handlers.menu_manager w.
Proof.
  intros Hid Horder Hmain Hcategory Hitems Hfirst Hitem Hother Hback Hcancel
         Hint Hpositive.
  rewrite (select_main_category_accepts main w Hmain).
  assert (Hlisted : exists first rest, before ++ item :: after = first :: rest).
  { destruct before; simpl; eauto. }
  destruct Hlisted as (first & rest & Hlisted).
  rewrite (select_subcategory_accepts lower main category _ first rest);
    [| reflexivity | assumption | rewrite <- Hlisted; exact Hitems].
  unfold Handlers.select_menu_item, Handlers.items_of_current_category.
  cbn [Handlers.answer Handlers.set_state Handlers.update_current_category
       Handlers.update_current_main_category Handlers.fsm Handlers.menu_manager
       Handlers.current_category].
  rewrite Hitems.
  rewrite (find_first_match _ before item after Hfirst) by apply prefix_refl.
  eexists. eexists. split; [reflexivity|].
  rewrite process_quantity_other by assumption. rewrite Hint.
  rewrite (proj2 (Z.leb_gt quantity 0) Hpositive).
  unfold Handlers.add_item_with_quantity.
  cbn [Handlers.answer Handlers.set_state Handlers.update_current_item_id
       Handlers.update_current_category Handlers.update_current_main_category
       Handlers.fsm Handlers.menu_manager Handlers.order_manager
       Handlers.current_order_id Handlers.current_item_id].
  rewrite Hid, Horder, Hitem.
  assert (Hkey : Order.id order = order_id).
  { exact (find_key_matches Order.id order_id _ _ Horder). }
  rewrite Hkey. split; [reflexivity|].
  cbn [Handlers.answer Handlers.set_state Handlers.set_order_manager
       Handlers.update_current_item_id
       Handlers.update_current_category Handlers.update_current_main_category
       Handlers.fsm Handlers.order_manager Handlers.menu_manager Handlers.state].
  repeat split.
  unfold OrderManager.add_line. rewrite Horder.
  unfold OrderManager.get_order_by_id, OrderManager.save_orders in *.
  cbn [OrderManager.orders].
  apply find_update_first; [exact Horder|].
  cbn [Order.add_item Order.id]. now apply Z.eqb_eq.
Qed.

Lemma order_taking_flow_adds_line_witness :
  exists w3 w4,
    Handlers.select_menu_item Handlers.same_case "Светлое"
      (Handlers.select_subcategory Handlers.same_case "Пиво"
         (Handlers.select_main_category "Бар" Sample.world)) = Ok w3
    /\ Handlers.process_quantity Handlers.decimal_int Handlers.same_case "3" w3 = Ok w4
    /\ Handlers.state (Handlers.fsm w4) = Some Handlers.selecting_main_category
    /\ Handlers.order_manager w4 = OrderManager.add_line 1 Sample.lager 3 Sample.store
    /\ OrderManager.get_order_by_id 1 (Handlers.order_manager w4)
       = Some (Order.add_item Sample.lager 3 Sample.order5)
    /\ Handlers.menu_manager w4 = Sample.menu.
Proof.
  apply (order_taking_flow_adds_line Handlers.decimal_int Handlers.same_case
           "Бар" "Пиво" "3" 3 Sample.world 1 Sample.order5 [] Sample.lager []).
  - reflexivity.
  - reflexivity.
  - simpl. auto.
  - simpl. auto.
  - reflexivity.
  - intros earlier [].
  - reflexivity.
  - discriminate.
  - discriminate.
  - discriminate.
  - reflexivity.
  - lia.
Defined.

(** ** The list of active orders *)

Lemma digits_no_space (d : Decimal.uint) (c : ascii) :
  In c (list_ascii_of_string (NilEmpty.string_of_uint d)) -> c <> " "%char.
Proof.
  induction d; simpl; intros Hin; try contradiction;
    (destruct Hin as [<- | Hin]; [discriminate | now apply IHd]).
Qed.

Lemma py_str_no_space (n : Z) (c : ascii) :
  In c (list_ascii_of_string (py_str n)) -> c <> " "%char.
Proof.
  unfold py_str, NilZero.string_of_int, NilZero.string_of_uint.
  destruct (Z.to_int n) as [d | d].
  - destruct d; try apply digits_no_space.
    simpl. intros [<- | []]. discriminate.
  - simpl. intros [<- | Hin]; [discriminate|].
    destruct d; try (revert Hin; apply digits_no_space).
    simpl in Hin. destruct Hin as [<- | []]. discriminate.
Qed.

Lemma py_str_injective (n n' : Z) : py_str n = py_str n' -> n = n'.
Proof.
  unfold py_str. intros Heq. apply DecimalZ.to_int_inj.
  assert (Hnonnil : forall z, Z.to_int z <> Decimal.Pos Decimal.Nil
                              /\ Z.to_int z <> Decimal.Neg Decimal.Nil).
  { intros [|p|p]; simpl; split; try discriminate;
      intros [= H]; now apply DecimalPos.Unsigned.to_uint_nonnil in H. }
  destruct (Hnonnil n) as [Hp Hn], (Hnonnil n') as [Hp' Hn'].
  pose proof (NilZero.isi _ Hp Hn) as Hread.
  rewrite Heq, (NilZero.isi _ Hp' Hn') in Hread. congruence.
Qed.

Lemma append_space_injective (s1 s2 r1 r2 : string) :
  (forall c, In c (list_ascii_of_string s1) -> c <> " "%char) ->
  (forall c, In c (list_ascii_of_string s2) -> c <> " "%char) ->
  (s1 ++ String " " r1)%string = (s2 ++ String " " r2)%string ->
  s1 = s2.
Proof.
  revert s2. induction s1 as [|a s1 IH]; intros [|b s2] H1 H2 Heq; simpl in *.
  - reflexivity.
  - injection Heq as <- _. exfalso. now apply (H2 " "%char); auto.
  - injection Heq as -> _. exfalso. now apply (H1 " "%char); auto.
  - injection Heq as <- Hrest. f_equal. apply IH; auto.
Qed.

Lemma order_button_table (o1 o2 : Order.t) :
  Handlers.order_button o1 = Handlers.order_button o2 ->
  Order.table_number o1 = Order.table_number o2.
Proof.
  unfold Handlers.order_button. intros Heq.
  apply py_str_injective.
  cbn [String.append] in Heq.
  repeat (injection Heq as Heq).
  eapply append_space_injective; [apply py_str_no_space | apply py_str_no_space|].
  exact Heq.
Qed.

Lemma dict_get_set_same (k : string) (v : Z) (d : list (string * Z)) :
  Handlers.dict_get k (Handlers.dict_set k v d) = Some v.
Proof.
  unfold Handlers.dict_get.
  induction d as [|[k' v'] d IH]; simpl.
  - now rewrite String.eqb_refl.
  - destruct (String.eqb k' k) eqn:Hk; simpl; rewrite Hk; [reflexivity | exact IH].
Qed.

Lemma dict_get_set_other (k k' : string) (v : Z) (d : list (string * Z)) :
  k' <> k ->
  Handlers.dict_get k' (Handlers.dict_set k v d) = Handlers.dict_get k' d.
Proof.
  intros Hne. unfold Handlers.dict_get.
  induction d as [|[k0 v0] d IH]; simpl.
  - destruct (String.eqb_spec k k'); [congruence | reflexivity].
  - destruct (String.eqb_spec k0 k) as [-> | Hk0]; simpl.
    + destruct (String.eqb_spec k k'); [congruence | reflexivity].
    + destruct (String.eqb k0 k'); [reflexivity | exact IH].
Qed.

Lemma order_map_of_snoc (orders : list Order.t) (o : Order.t) :
  Handlers.order_map_of (orders ++ [o])
  = Handlers.dict_set (Handlers.order_button o) (Order.id o)
      (Handlers.order_map_of orders).
Proof. unfold Handlers.order_map_of. now rewrite fold_left_app. Qed.

Lemma order_map_of_lookup (orders : list Order.t) (order : Order.t) :
  NoDup (map Order.table_number orders) -> In order orders ->
  Handlers.dict_get (Handlers.order_button order) (Handlers.order_map_of orders)
  = Some (Order.id order).
Proof.
  induction orders as [|o orders IH] using rev_ind; [contradiction|].
  intros Hnd Hin. rewrite order_map_of_snoc.
  rewrite map_app in Hnd. cbn [map] in Hnd.
  apply in_app_iff in Hin. destruct Hin as [Hin | [<- | []]].
  - rewrite dict_get_set_other.
    + apply IH; [|assumption]. now apply NoDup_remove_1 in Hnd; rewrite app_nil_r in Hnd.
    + intros Hbutton. apply order_button_table in Hbutton.
      apply NoDup_remove_2 in Hnd. apply Hnd. rewrite app_nil_r.
      rewrite <- Hbutton. now apply in_map.
  - apply dict_get_set_same.
Qed.

Lemma show_active_orders_some (w : Handlers.world) :
  OrderManager.get_active_orders (Handlers.order_manager w) <> [] ->
  Handlers.show_active_orders w
  = Handlers.answer
      ("📋 <b>Активные заказы</b>" ++ Handlers.nl ++ Handlers.nl
       ++ "Выберите заказ для просмотра:")%string
      (Handlers.get_active_orders_keyboard (Handlers.order_manager w))
      (Handlers.set_state Handlers.viewing_order
         (Handlers.update_active_orders
            (Handlers.order_map_of
               (OrderManager.get_active_orders (Handlers.order_manager w))) w)).
Proof.
  intros Hsome. unfold Handlers.show_active_orders.
  destruct (OrderManager.get_active_orders (Handlers.order_manager w));
    [congruence | reflexivity].
Qed.

(** In a store that started on no file: after [show_active_orders] the
    chat is in [viewing_order], every order of the store has its button on
    the keyboard, and the text of an order's button makes [view_order] open
    that very order: the chat goes to [managing_order] with the order's id,
    the store untouched. *)
Theorem active_order_button_opens_order
    (clock : nat -> string) (ops : list OrderManager.op)
    (w : Handlers.world) (order : Order.t) :
  Handlers.order_manager w = OrderManager.run ops (OrderManager.init clock Absent) ->
  In order (OrderManager.orders (Handlers.order_manager w)) ->
  let w1 := Handlers.show_active_orders w in
  let w2 := Handlers.view_order (Handlers.order_button order) w1 in
  Handlers.state (Handlers.fsm w1) = Some Handlers.viewing_order
  /\ (exists answer,
         Handlers.sent w1 = Handlers.sent w ++ [answer]
         /\ In [Handlers.order_button order] (Handlers.reply_markup answer))
  /\ Handlers.state (Handlers.fsm w2) = Some Handlers.managing_order
  /\ Handlers.current_order_id (Handlers.fsm w2) = Some (Order.id order)
  /\ Handlers.order_manager w2 = Handlers.order_manager w.
Proof.
  intros Hstore Hin. cbn zeta.
  pose proof (well_formed_run ops _ (well_formed_fresh clock)) as Hwf.
  pose proof (in_range_run ops _ (well_formed_fresh clock)
                ltac:(constructor)) as Hrange.
  rewrite <- Hstore in Hwf, Hrange. destruct Hwf as [Hact Hids Htables _].
  unfold OrderManager.all_active in Hact.
  assert (Hactive : OrderManager.get_active_orders (Handlers.order_manager w)
                    = OrderManager.orders (Handlers.order_manager w)).
  { now apply filter_all. }
  rewrite show_active_orders_some
    by (rewrite Hactive; intros Hnone; now rewrite Hnone in Hin).
  split; [reflexivity | split].
  - eexists. split; [reflexivity|].
    cbn [Handlers.reply_markup]. unfold Handlers.get_active_orders_keyboard.
    rewrite Hactive. apply in_app_iff. left.
    now apply (in_map (fun order => [Handlers.order_button order])).
  - unfold Handlers.view_order.
    assert (Hlabel : String.eqb (Handlers.order_button order)
                                "🔙 Вернуться в главное меню" = false).
    { reflexivity. }
    rewrite Hlabel.
    cbn [Handlers.answer Handlers.set_state Handlers.update_active_orders
         Handlers.fsm Handlers.active_orders Handlers.order_manager].
    rewrite Hactive, (order_map_of_lookup _ order Htables Hin).
    pose proof (proj1 (Forall_forall _ _) Hrange order Hin) as [Hpositive _].
    replace (Order.id order =? 0) with false by (symmetry; apply Z.eqb_neq; lia).
    unfold OrderManager.get_order_by_id.
    rewrite (find_unique_key Order.id _ order Hids Hin).
    repeat split.
Qed.

Lemma active_order_button_opens_order_witness :
  Handlers.current_order_id
    (Handlers.fsm
       (Handlers.view_order (Handlers.order_button (Order.mk 2 7 [] Sample.noon true))
          (Handlers.show_active_orders
             (Handlers.mk_world
                (Handlers.mk_ctx None None None None None None)
                (OrderManager.run
                   [OrderManager.CreateOrder Sample.noon 5;
                    OrderManager.CreateOrder Sample.noon 7]
                   (OrderManager.init Sample.morning Absent))
                Sample.menu []))))
  = Some 2.
Proof.
  destruct (active_order_button_opens_order Sample.morning
              [OrderManager.CreateOrder Sample.noon 5;
               OrderManager.CreateOrder Sample.noon 7]
              (Handlers.mk_world
                 (Handlers.mk_ctx None None None None None None)
                 (OrderManager.run
                    [OrderManager.CreateOrder Sample.noon 5;
                     OrderManager.CreateOrder Sample.noon 7]
                    (OrderManager.init Sample.morning Absent))
                 Sample.menu [])
              (Order.mk 2 7 [] Sample.noon true))
    as (_ & _ & _ & Hid & _).
  - reflexivity.
  - vm_compute. auto.
  - exact Hid.
Defined.

(** * Properties of the menu-editing handlers *)

(** ** Adding an item through the dialogue *)

Lemma subcategory_not_back (main c : string) :
  In c (MenuManager.get_subcategories main) ->
  String.eqb c "🔙 Назад" = false
  /\ MenuItem._determine_main_category c = main.
Proof.
  intros Hc.
  unfold MenuManager.get_subcategories, Config.MENU_CATEGORIES in Hc.
  cbn [find fst snd] in Hc.
  destruct (String.eqb_spec "Кухня" main) as [<- | _].
  - repeat (destruct Hc as [<- | Hc]; [split; reflexivity|]). contradiction.
  - destruct (String.eqb_spec "Бар" main) as [<- | _].
    + repeat (destruct Hc as [<- | Hc]; [split; reflexivity|]). contradiction.
    + contradiction.
Qed.

Lemma select_add_main_category_accepts (main : string) (w : MenuHandlers.world) :
  In main Config.MAIN_CATEGORIES ->
  MenuHandlers.select_add_main_category main w
  = MenuHandlers.answer
      ("➕ <b>Добавление позиции</b>" ++ MenuHandlers.nl ++ MenuHandlers.nl
       ++ "Выбрана основная категория: " ++ main ++ MenuHandlers.nl
       ++ "Выберите подкатегорию:")%string
      (Some (MenuHandlers.column_keyboard (MenuManager.get_subcategories main)))
      (MenuHandlers.set_state MenuHandlers.adding_item_category
         (MenuHandlers.update_new_item_main_category main w)).
Proof.
  intros [<- | [<- | []]]; reflexivity.
Qed.

(** The add flow, handler after handler: a main category, one of its
    categories and a name other than the back label. The catalog gets one
    new item at its end, with the next id, that name and category and the
    chosen main category, which is the one [MENU_CATEGORIES] gives for the
    category; the file is rewritten and the chat is back in [edit_menu]. *)
Theorem add_item_flow_appends_item
    (main category name : string) (w : MenuHandlers.world) :
  In main Config.MAIN_CATEGORIES ->
  In category (MenuManager.get_subcategories main) ->
  name <> "🔙 Назад" ->
  exists w4 item,
    MenuHandlers.process_item_name name
      (MenuHandlers.select_add_category category
         (MenuHandlers.select_add_main_category main
            (MenuHandlers.add_item_start w))) = Some w4
    /\ MenuManager.menu_items (MenuHandlers.menu_manager w4)
       = MenuManager.menu_items (MenuHandlers.menu_manager w) ++ [item]
    /\ item = MenuItem.mk
                (py_max (map MenuItem.id
                             (MenuManager.menu_items (MenuHandlers.menu_manager w))) 0 + 1)
                name category main
    /\ MenuItem._determine_main_category category = main
    /\ MenuManager.file (MenuHandlers.menu_manager w4)
       = Records (map MenuItem.to_dict
                      (MenuManager.menu_items (MenuHandlers.menu_manager w4)))
    /\ MenuHandlers.state (MenuHandlers.fsm w4) = Some MenuHandlers.edit_menu.
Proof.
  intros Hmain Hcategory Hname. apply String.eqb_neq in Hname.
  destruct (subcategory_not_back main category Hcategory) as [Hback Hderived].
  rewrite (select_add_main_category_accepts main _ Hmain).
  unfold MenuHandlers.select_add_category. rewrite Hback.
  cbn [MenuHandlers.answer MenuHandlers.set_state MenuHandlers.with_fsm
       MenuHandlers.update_new_item_main_category MenuHandlers.fsm
       MenuHandlers.new_item_main_category Handlers.subcategories_of].
  rewrite (proj2 (str_in_iff _ _) Hcategory). cbn [negb].
  unfold MenuHandlers.process_item_name. rewrite Hname.
  cbn [MenuHandlers.answer MenuHandlers.set_state MenuHandlers.with_fsm
       MenuHandlers.update_new_item_category MenuHandlers.update_new_item_name
       MenuHandlers.fsm MenuHandlers.new_item_category
       MenuHandlers.new_item_main_category MenuHandlers.menu_manager
       MenuHandlers.add_item_start].
  eexists. eexists. split; [reflexivity|].
  cbn. repeat split. exact Hderived.
Qed.

Lemma add_item_flow_appends_item_witness :
  exists w4 item,
    MenuHandlers.process_item_name "Борщ"
      (MenuHandlers.select_add_category "Горячее"
         (MenuHandlers.select_add_main_category "Кухня"
            (MenuHandlers.add_item_start
               (MenuHandlers.mk_world
                  (MenuHandlers.mk_ctx (Some MenuHandlers.edit_menu)
                                       None None None None None None None)
                  Sample.menu [])))) = Some w4
    /\ MenuManager.menu_items (MenuHandlers.menu_manager w4)
       = MenuManager.menu_items Sample.menu ++ [item]
    /\ item = MenuItem.mk 3 "Борщ" "Горячее" "Кухня"
    /\ MenuItem._determine_main_category "Горячее" = "Кухня"
    /\ MenuManager.file (MenuHandlers.menu_manager w4)
       = Records (map MenuItem.to_dict
                      (MenuManager.menu_items (MenuHandlers.menu_manager w4)))
    /\ MenuHandlers.state (MenuHandlers.fsm w4) = Some MenuHandlers.edit_menu.
Proof.
  apply (add_item_flow_appends_item "Кухня" "Горячее" "Борщ"
           (MenuHandlers.mk_world
              (MenuHandlers.mk_ctx (Some MenuHandlers.edit_menu)
                                   None None None None None None None)
              Sample.menu [])).
  - simpl. auto.
  - simpl. auto.
  - discriminate.
Defined.

(** ** Deleting an item through the dialogue *)

Lemma select_delete_main_category_accepts (main : string) (w : MenuHandlers.world) :
  In main Config.MAIN_CATEGORIES ->
  MenuHandlers.select_delete_main_category main w
  = MenuHandlers.answer
      ("➖ <b>Удаление позиции</b>" ++ MenuHandlers.nl ++ MenuHandlers.nl
       ++ "Выбрана основная категория: " ++ main ++ MenuHandlers.nl
       ++ "Выберите подкатегорию:")%string
      (Some (MenuHandlers.column_keyboard (MenuManager.get_subcategories main)))
      (MenuHandlers.set_state MenuHandlers.deleting_category
         (MenuHandlers.update_delete_main_category main w)).
Proof.
  intros [<- | [<- | []]]; reflexivity.
Qed.

(** The delete flow, handler after handler: a main category, one of its
    categories that lists some item, and the name of a listed item (the
    first of that name in the category). The chat is then asked to confirm,
    with that item's id stored and the catalog untouched. "✅ Да" runs
    [delete_item] on that id and returns to [edit_menu]; "❌ Нет" goes back
    to the item list and leaves the catalog as it was; any other text only
    gets the re-prompt. *)
Theorem delete_item_flow_cases
    (lower : string -> string) (main category : string) (w : MenuHandlers.world)
    (before : list MenuItem.t) (item : MenuItem.t) (after : list MenuItem.t) :
  In main Config.MAIN_CATEGORIES ->
  In category (MenuManager.get_subcategories main) ->
  MenuManager.get_menu_items_by_category lower category (MenuHandlers.menu_manager w)
  = before ++ item :: after ->
  (forall earlier, In earlier before -> MenuItem.name earlier <> MenuItem.name item) ->
  MenuItem.name item <> "🔙 Назад" ->
  exists w4,
    MenuHandlers.confirm_delete_item lower (MenuItem.name item)
      (MenuHandlers.select_delete_category lower category
         (MenuHandlers.select_delete_main_category main
            (MenuHandlers.delete_item_start w))) = Ok w4
    /\ MenuHandlers.state (MenuHandlers.fsm w4) = Some MenuHandlers.confirm_delete
    /\ MenuHandlers.delete_item_id (MenuHandlers.fsm w4) = Some (MenuItem.id item)
    /\ MenuHandlers.menu_manager w4 = MenuHandlers.menu_manager w
    /\ (exists w5,
           MenuHandlers.final_delete_item lower "✅ Да" w4 = Ok w5
           /\ MenuHandlers.menu_manager w5
              = snd (MenuManager.delete_item (MenuItem.id item)
                                             (MenuHandlers.menu_manager w))
           /\ MenuHandlers.state (MenuHandlers.fsm w5) = Some MenuHandlers.edit_menu)
    /\ (exists w5,
           MenuHandlers.final_delete_item lower "❌ Нет" w4 = Ok w5
           /\ MenuHandlers.menu_manager w5 = MenuHandlers.menu_manager w
           /\ MenuHandlers.state (MenuHandlers.fsm w5)
              = Some MenuHandlers.deleting_item_select)
    /\ (forall text, text <> "✅ Да" -> text <> "❌ Нет" ->
          MenuHandlers.final_delete_item lower text w4
          = Ok (MenuHandlers.answer "❌ Пожалуйста, выберите Да или Нет." None w4)).
Proof.
  intros Hmain Hcategory Hitems Hfirst Hname. apply String.eqb_neq in Hname.
  destruct (subcategory_not_back main category Hcategory) as [Hback _].
  rewrite (select_delete_main_category_accepts main _ Hmain).
  unfold MenuHandlers.select_delete_category. rewrite Hback.
  cbn [MenuHandlers.answer MenuHandlers.set_state MenuHandlers.with_fsm
       MenuHandlers.update_delete_main_category MenuHandlers.fsm
       MenuHandlers.delete_main_category MenuHandlers.menu_manager
       MenuHandlers.delete_item_start Handlers.subcategories_of].
  rewrite (proj2 (str_in_iff _ _) Hcategory). cbn [negb].
  rewrite Hitems.
  assert (Hlisted : exists first rest, before ++ item :: after = first :: rest).
  { destruct before; simpl; eauto. }
  destruct Hlisted as (first & rest & Hlisted).
  rewrite Hlisted. cbv iota. rewrite <- Hlisted.
  unfold MenuHandlers.confirm_delete_item, MenuHandlers.items_to_delete.
  rewrite Hname.
  cbn [MenuHandlers.answer MenuHandlers.set_state MenuHandlers.with_fsm
       MenuHandlers.update_delete_category MenuHandlers.update_delete_main_category
       MenuHandlers.delete_item_start MenuHandlers.fsm
       MenuHandlers.delete_category MenuHandlers.menu_manager].
  rewrite Hitems.
  rewrite (find_first_match _ before item after)
    by (try apply String.eqb_refl;
        intros earlier Hin; apply String.eqb_neq; now apply Hfirst).
  eexists. split; [reflexivity|].
  split; [reflexivity | split; [reflexivity | split; [reflexivity|]]].
  unfold MenuHandlers.final_delete_item, MenuHandlers.items_to_delete.
  cbn [MenuHandlers.answer MenuHandlers.set_state MenuHandlers.with_fsm
       MenuHandlers.update_delete_item MenuHandlers.update_delete_category
       MenuHandlers.update_delete_main_category MenuHandlers.delete_item_start
       MenuHandlers.fsm MenuHandlers.delete_category MenuHandlers.delete_item_id
       MenuHandlers.menu_manager MenuHandlers.set_menu_manager].
  split; [|split].
  - cbn [String.eqb Ascii.eqb Bool.eqb].
    destruct (fst (MenuManager.delete_item (MenuItem.id item)
                                           (MenuHandlers.menu_manager w)));
      eexists; split; reflexivity || (split; reflexivity).
  - cbn [String.eqb Ascii.eqb Bool.eqb].
    eexists. split; [reflexivity | split; reflexivity].
  - intros text Hyes Hno. apply String.eqb_neq in Hyes, Hno.
    now rewrite Hyes, Hno.
Qed.

Lemma delete_item_flow_cases_witness :
  exists w4,
    MenuHandlers.confirm_delete_item Handlers.same_case "Светлое"
      (MenuHandlers.select_delete_category Handlers.same_case "Пиво"
         (MenuHandlers.select_delete_main_category "Бар"
            (MenuHandlers.delete_item_start
               (MenuHandlers.mk_world
                  (MenuHandlers.mk_ctx (Some MenuHandlers.edit_menu)
                                       None None None None None None None)
                  Sample.menu [])))) = Ok w4
    /\ MenuHandlers.delete_item_id (MenuHandlers.fsm w4) = Some 2
    /\ exists w5,
         MenuHandlers.final_delete_item Handlers.same_case "✅ Да" w4 = Ok w5
         /\ MenuManager.menu_items (MenuHandlers.menu_manager w5) = [Sample.caesar].
Proof.
  destruct (delete_item_flow_cases Handlers.same_case "Бар" "Пиво"
              (MenuHandlers.mk_world
                 (MenuHandlers.mk_ctx (Some MenuHandlers.edit_menu)
                                      None None None None None None None)
                 Sample.menu [])
              [] Sample.lager [])
    as (w4 & Hconfirm & _ & Hid & _ & (w5 & Hyes & Hmenu & _) & _).
  - simpl. auto.
  - simpl. auto.
  - reflexivity.
  - intros earlier [].
  - discriminate.
  - exists w4. split; [exact Hconfirm | split; [exact Hid|]].
    exists w5. split; [exact Hyes|]. rewrite Hmenu. reflexivity.
Defined.

(** * What browsing never does *)

(** The navigation handlers of the order-taking flow leave both managers
    as they were, whatever the text and the chat's context; in
    [select_main_category] only the finish label can change the order
    store. A text that is no legal choice in [select_main_category],
    [select_subcategory], [view_order] or [manage_order] only gets the
    re-prompt: the FSM context is as before too. *)
Theorem order_flow_browsing
    (lower : string -> string) (text : string) (w : Handlers.world) :
  Handlers.same_stores w (Handlers.new_order w)
  /\ Handlers.same_stores w (Handlers.show_active_orders w)
  /\ Handlers.same_stores w (Handlers.back_to_tables w)
  /\ Handlers.same_stores w (Handlers.select_subcategory lower text w)
  /\ Handlers.same_stores w (Handlers.back_to_subcategories w)
  /\ Handlers.same_stores w (Handlers.view_order text w)
  /\ Handlers.same_stores w (Handlers.manage_order text w)
  /\ Handlers.same_stores w (Handlers.cancel_close_order w)
  /\ (forall w', Handlers.select_menu_item lower text w = Ok w' ->
                 Handlers.same_stores w w')
  /\ (forall w', Handlers.back_to_items lower w = Ok w' -> Handlers.same_stores w w')
  /\ (text <> "✅ Завершить заказ" ->
      Handlers.same_stores w (Handlers.select_main_category text w))
  /\ (text <> "✅ Завершить заказ" -> text <> "🔙 Назад к столам" ->
      ~ In text Config.MAIN_CATEGORIES ->
      Handlers.only_answered w (Handlers.select_main_category text w)
        "❌ Пожалуйста, выберите раздел меню из списка:"
        Handlers.get_main_categories_keyboard)
  /\ (text <> "🔙 Назад к основным категориям" ->
      ~ In text (Handlers.subcategories_of
                   (Handlers.current_main_category (Handlers.fsm w))) ->
      Handlers.only_answered w (Handlers.select_subcategory lower text w)
        "❌ Пожалуйста, выберите категорию из списка:"
        (Handlers.get_subcategories_keyboard
           (Handlers.current_main_category (Handlers.fsm w))))
  /\ (text <> "🔙 Вернуться в главное меню" ->
      (forall order_map, Handlers.active_orders (Handlers.fsm w) = Some order_map ->
                         Handlers.dict_get text order_map = None) ->
      Handlers.only_answered w (Handlers.view_order text w)
        "❌ Пожалуйста, выберите заказ из списка:"
        (Handlers.get_active_orders_keyboard (Handlers.order_manager w)))
  /\ (forall order,
        Handlers.current_order w = Some order ->
        text <> "🔙 Назад к заказам" ->
        String.prefix "➕ Добавить позиции" text = false ->
        String.prefix "✅ Закрыть заказ" text = false ->
        Handlers.only_answered w (Handlers.manage_order text w)
          "❌ Пожалуйста, выберите действие из списка:"
          (Handlers.get_order_actions_keyboard order)).
Proof.
  repeat match goal with |- _ /\ _ => split end;
    unfold Handlers.same_stores.
  - easy.
  - unfold Handlers.show_active_orders.
    destruct (OrderManager.get_active_orders _); easy.
  - easy.
  - unfold Handlers.select_subcategory.
    destruct (String.eqb text _); [easy|]. destruct (negb _); [easy|].
    destruct (MenuManager.get_menu_items_by_category _ _ _); easy.
  - easy.
  - unfold Handlers.view_order.
    destruct (String.eqb text _); [easy|]. destruct (Handlers.dict_get _ _); [|easy].
    destruct (_ =? 0); [easy|]. destruct (OrderManager.get_order_by_id _ _); easy.
  - unfold Handlers.manage_order, Handlers.back_to_active_orders,
      Handlers.show_active_orders.
    destruct (String.eqb text _).
    + destruct (OrderManager.get_active_orders _); easy.
    + destruct (Handlers.current_order w); [|easy].
      destruct (String.prefix _ text); [easy|]. destruct (String.prefix _ text); easy.
  - unfold Handlers.cancel_close_order.
    destruct (Handlers.falsy_id _); [easy|]. destruct (Handlers.current_order w); easy.
  - intros w'. unfold Handlers.select_menu_item.
    destruct (Handlers.items_of_current_category lower w); [|discriminate].
    destruct (find _ _); intros [= <-]; easy.
  - intros w'. unfold Handlers.back_to_items.
    destruct (Handlers.current_category (Handlers.fsm w)).
    + intros [= <-]. easy.
    + destruct (MenuManager.menu_items _); [|discriminate]. intros [= <-]. easy.
  - intros Hfinish. apply String.eqb_neq in Hfinish.
    unfold Handlers.select_main_category. rewrite Hfinish. clear Hfinish.
    destruct (String.eqb text _); [easy|].
    destruct (negb _); split; reflexivity.
  - intros Hfinish Hback Hmain. apply String.eqb_neq in Hfinish, Hback.
    unfold Handlers.select_main_category. rewrite Hfinish, Hback.
    replace (str_in text Config.MAIN_CATEGORIES) with false; [easy|].
    symmetry. apply not_true_is_false. now rewrite str_in_iff.
  - intros Hback Hsub. apply String.eqb_neq in Hback.
    unfold Handlers.select_subcategory. rewrite Hback.
    replace (str_in text _) with false; [easy|].
    symmetry. apply not_true_is_false. now rewrite str_in_iff.
  - intros Hlabel Hunknown. apply String.eqb_neq in Hlabel.
    unfold Handlers.view_order. rewrite Hlabel.
    destruct (Handlers.active_orders (Handlers.fsm w)) as [order_map|].
    + rewrite (Hunknown order_map eq_refl). easy.
    + easy.
  - intros order Horder Hback Hadd Hclose. apply String.eqb_neq in Hback.
    unfold Handlers.manage_order. rewrite Hback, Horder, Hadd, Hclose. easy.
Qed.

Lemma order_flow_browsing_witness :
  Handlers.same_stores Sample.world
    (Handlers.select_main_category "Кухня" Sample.world)
  /\ Handlers.only_answered Sample.world
       (Handlers.select_main_category "Десерты" Sample.world)
       "❌ Пожалуйста, выберите раздел меню из списка:"
       Handlers.get_main_categories_keyboard
  /\ Handlers.only_answered Sample.world
       (Handlers.manage_order "что-то" Sample.world)
       "❌ Пожалуйста, выберите действие из списка:"
       (Handlers.get_order_actions_keyboard Sample.order5).
Proof.
  destruct (order_flow_browsing Handlers.same_case "Кухня" Sample.world)
    as (_ & _ & _ & _ & _ & _ & _ & _ & _ & _ & Hmain & _).
  destruct (order_flow_browsing Handlers.same_case "Десерты" Sample.world)
    as (_ & _ & _ & _ & _ & _ & _ & _ & _ & _ & _ & Hreject & _).
  destruct (order_flow_browsing Handlers.same_case "что-то" Sample.world)
    as (_ & _ & _ & _ & _ & _ & _ & _ & _ & _ & _ & _ & _ & _ & Hmanage).
  split; [|split].
  - apply Hmain. discriminate.
  - apply Hreject; try discriminate.
    simpl. intros [H | [H | []]]; discriminate.
  - apply (Hmanage Sample.order5); try reflexivity. discriminate.
Defined.

(** In the menu-editing flow the catalog changes only in
    [process_item_name] (a name is entered) and in [final_delete_item] on
    "✅ Да": every other handler leaves the manager as it was, whatever
    the text. A text that is no legal choice of main category or of
    category only gets an answer, the FSM context as before. *)
Theorem menu_flow_browsing
    (lower : string -> string) (text : string) (w : MenuHandlers.world) :
  MenuHandlers.menu_manager (MenuHandlers.show_menu w) = MenuHandlers.menu_manager w
  /\ MenuHandlers.menu_manager (MenuHandlers.handle_main_menu text w)
     = MenuHandlers.menu_manager w
  /\ MenuHandlers.menu_manager (MenuHandlers.handle_edit_menu text w)
     = MenuHandlers.menu_manager w
  /\ MenuHandlers.menu_manager (MenuHandlers.select_add_main_category text w)
     = MenuHandlers.menu_manager w
  /\ MenuHandlers.menu_manager (MenuHandlers.select_add_category text w)
     = MenuHandlers.menu_manager w
  /\ MenuHandlers.menu_manager (MenuHandlers.select_delete_main_category text w)
     = MenuHandlers.menu_manager w
  /\ MenuHandlers.menu_manager (MenuHandlers.select_delete_category lower text w)
     = MenuHandlers.menu_manager w
  /\ (forall w', MenuHandlers.confirm_delete_item lower text w = Ok w' ->
                 MenuHandlers.menu_manager w' = MenuHandlers.menu_manager w)
  /\ (text <> "✅ Да" ->
      forall w', MenuHandlers.final_delete_item lower text w = Ok w' ->
                 MenuHandlers.menu_manager w' = MenuHandlers.menu_manager w)
  /\ (text <> "🔙 Назад" -> ~ In text Config.MAIN_CATEGORIES ->
      MenuHandlers.select_add_main_category text w
      = MenuHandlers.answer "❌ Пожалуйста, выберите категорию из списка." None w
      /\ MenuHandlers.select_delete_main_category text w
         = MenuHandlers.answer "❌ Пожалуйста, выберите категорию из списка." None w)
  /\ (text <> "🔙 Назад" ->
      ~ In text (Handlers.subcategories_of
                   (MenuHandlers.new_item_main_category (MenuHandlers.fsm w))) ->
      MenuHandlers.select_add_category text w
      = MenuHandlers.answer "❌ Пожалуйста, выберите подкатегорию из списка." None w)
  /\ (text <> "🔙 Назад" ->
      ~ In text (Handlers.subcategories_of
                   (MenuHandlers.delete_main_category (MenuHandlers.fsm w))) ->
      MenuHandlers.select_delete_category lower text w
      = MenuHandlers.answer "❌ Пожалуйста, выберите подкатегорию из списка." None w).
Proof.
  repeat match goal with |- _ /\ _ => split end.
  - reflexivity.
  - unfold MenuHandlers.handle_main_menu.
    destruct (String.eqb text _); [reflexivity|].
    destruct (String.eqb text _); reflexivity.
  - unfold MenuHandlers.handle_edit_menu.
    destruct (String.eqb text _); [reflexivity|].
    destruct (String.eqb text _); [reflexivity|].
    destruct (String.eqb text _); reflexivity.
  - unfold MenuHandlers.select_add_main_category.
    destruct (String.eqb text _); [reflexivity|]. destruct (negb _); reflexivity.
  - unfold MenuHandlers.select_add_category.
    destruct (String.eqb text _); [reflexivity|]. destruct (negb _); reflexivity.
  - unfold MenuHandlers.select_delete_main_category.
    destruct (String.eqb text _); [reflexivity|]. destruct (negb _); reflexivity.
  - unfold MenuHandlers.select_delete_category.
    destruct (String.eqb text _); [reflexivity|]. destruct (negb _); [reflexivity|].
    destruct (MenuManager.get_menu_items_by_category _ _ _); reflexivity.
  - intros w'. unfold MenuHandlers.confirm_delete_item.
    destruct (String.eqb text _); [intros [= <-]; reflexivity|].
    destruct (MenuHandlers.items_to_delete lower w); [|discriminate].
    destruct (find _ _); intros [= <-]; reflexivity.
  - intros Hyes w'. apply String.eqb_neq in Hyes.
    unfold MenuHandlers.final_delete_item. rewrite Hyes. clear Hyes.
    destruct (String.eqb text _); [|intros [= <-]; reflexivity].
    destruct (MenuHandlers.items_to_delete lower w); [|discriminate].
    intros [= <-]. reflexivity.
  - intros Hback Hmain. apply String.eqb_neq in Hback.
    assert (Hunknown : str_in text MenuManager.get_main_categories = false).
    { apply not_true_is_false.
      unfold MenuManager.get_main_categories. now rewrite str_in_iff. }
    unfold MenuHandlers.select_add_main_category,
      MenuHandlers.select_delete_main_category.
    rewrite Hback, Hunknown. split; reflexivity.
  - intros Hback Hsub. apply String.eqb_neq in Hback.
    unfold MenuHandlers.select_add_category. rewrite Hback.
    replace (str_in text _) with false; [reflexivity|].
    symmetry. apply not_true_is_false. now rewrite str_in_iff.
  - intros Hback Hsub. apply String.eqb_neq in Hback.
    unfold MenuHandlers.select_delete_category. rewrite Hback.
    replace (str_in text _) with false; [reflexivity|].
    symmetry. apply not_true_is_false. now rewrite str_in_iff.
Qed.

Lemma menu_flow_browsing_witness :
  MenuHandlers.select_add_main_category "Десерты"
    (MenuHandlers.mk_world
       (MenuHandlers.mk_ctx (Some MenuHandlers.adding_item_main_category)
                            None None None None None None None)
       Sample.menu [])
  = MenuHandlers.answer "❌ Пожалуйста, выберите категорию из списка." None
      (MenuHandlers.mk_world
         (MenuHandlers.mk_ctx (Some MenuHandlers.adding_item_main_category)
                              None None None None None None None)
         Sample.menu []).
Proof.
  destruct (menu_flow_browsing Handlers.same_case "Десерты"
              (MenuHandlers.mk_world
                 (MenuHandlers.mk_ctx (Some MenuHandlers.adding_item_main_category)
                                      None None None None None None None)
                 Sample.menu []))
    as (_ & _ & _ & _ & _ & _ & _ & _ & _ & Hmain & _).
  apply Hmain.
  - discriminate.
  - simpl. intros [H | [H | []]]; discriminate.
Defined.

(** * Keyboards and the handlers that read their buttons *)

Lemma rows_of_two_shape (xs : list string) :
  List.concat (Handlers.rows_of_two xs) = xs
  /\ Forall (fun row => List.length row = 1%nat \/ List.length row = 2%nat)
            (Handlers.rows_of_two xs).
Proof.
  assert (Hboth : forall n xs, Nat.le (List.length xs) n ->
             List.concat (Handlers.rows_of_two xs) = xs
             /\ Forall (fun row => List.length row = 1%nat \/ List.length row = 2%nat)
                       (Handlers.rows_of_two xs)).
  { clear xs. induction n as [|n IH]; intros [|x [|y rest]] Hlen; simpl in *;
      try (split; [reflexivity | repeat constructor; auto]);
      try (exfalso; inversion Hlen; fail).
    destruct (IH rest) as [Hconcat Hrows].
    - apply le_S_n in Hlen. apply Nat.le_trans with (S (List.length rest)); auto.
    - split; [now rewrite Hconcat | constructor; auto]. }
  apply (Hboth (List.length xs)). apply Nat.le_refl.
Qed.

(** The keyboard of subcategories offers, in rows of one or two buttons,
    exactly the subcategories of the main category in their order, then
    the back button; so every button but the last is a text that
    [select_subcategory] takes as a category. *)
Theorem subcategories_keyboard_offers_subcategories
    (lower : string -> string) (w : Handlers.world) :
  let main_category := Handlers.current_main_category (Handlers.fsm w) in
  List.concat (Handlers.get_subcategories_keyboard main_category)
  = Handlers.subcategories_of main_category ++ ["🔙 Назад к основным категориям"]
  /\ Forall (fun row => List.length row = 1%nat \/ List.length row = 2%nat)
            (Handlers.get_subcategories_keyboard main_category)
  /\ (forall label,
        In label (List.concat (Handlers.get_subcategories_keyboard main_category)) ->
        label <> "🔙 Назад к основным категориям" ->
        Handlers.current_category
          (Handlers.fsm (Handlers.select_subcategory lower label w)) = Some label).
Proof.
  cbn zeta. unfold Handlers.get_subcategories_keyboard.
  destruct (rows_of_two_shape
              (Handlers.subcategories_of
                 (Handlers.current_main_category (Handlers.fsm w))))
    as [Hconcat Hrows].
  assert (Hall : List.concat
                   (Handlers.rows_of_two
                      (Handlers.subcategories_of
                         (Handlers.current_main_category (Handlers.fsm w)))
                    ++ [["🔙 Назад к основным категориям"]])
                 = Handlers.subcategories_of
                     (Handlers.current_main_category (Handlers.fsm w))
                   ++ ["🔙 Назад к основным категориям"]).
  { rewrite concat_app, Hconcat. reflexivity. }
  split; [exact Hall | split].
  - apply Forall_app. split; [exact Hrows|]. constructor; [now left | constructor].
  - intros label Hin Hback. rewrite Hall in Hin. apply in_app_iff in Hin.
    destruct Hin as [Hin | [<- | []]]; [|congruence].
    apply String.eqb_neq in Hback. unfold Handlers.select_subcategory.
    rewrite Hback, (proj2 (str_in_iff _ _) Hin). cbn [negb].
    destruct (MenuManager.get_menu_items_by_category _ _ _); reflexivity.
Qed.

Lemma subcategories_keyboard_offers_subcategories_witness :
  Handlers.current_category
    (Handlers.fsm (Handlers.select_subcategory Handlers.same_case "Десерты" Sample.world))
  = Some "Десерты".
Proof.
  destruct (subcategories_keyboard_offers_subcategories Handlers.same_case Sample.world)
    as (_ & _ & Hbutton).
  apply Hbutton.
  - vm_compute. auto 10.
  - discriminate.
Defined.

(** The keyboard of tables has one button per table 1..TABLE_COUNT, in
    order, in rows of at most three, then the main-menu button; the text
    of the button of table [j] is one [select_table] reads as table [j]
    (as long as [int] reads back what [str] printed). *)
Theorem tables_keyboard_buttons_select_tables (int : string -> option Z) :
  (forall j, 1 <= j <= Config.TABLE_COUNT -> int (py_str j) = Some j) ->
  List.concat Handlers.get_tables_keyboard
  = map Handlers.table_button (Handlers.py_range 1 (Config.TABLE_COUNT + 1) 1)
    ++ ["🔙 Вернуться в главное меню"]
  /\ Forall (fun row => Nat.le (List.length row) 3) Handlers.get_tables_keyboard
  /\ (forall j, 1 <= j <= Config.TABLE_COUNT ->
        In (Handlers.table_button j) (List.concat Handlers.get_tables_keyboard)
        /\ String.prefix "Стол " (Handlers.table_button j) = true
        /\ Handlers.parse_table int (Handlers.table_button j) = Some j).
Proof.
  intros Hint. split; [reflexivity | split].
  - unfold Handlers.get_tables_keyboard. vm_compute. repeat constructor.
  - intros j Hj. unfold Config.TABLE_COUNT in Hj.
    assert (Hcases : j = 1 \/ j = 2 \/ j = 3 \/ j = 4 \/ j = 5 \/ j = 6 \/ j = 7
                     \/ j = 8 \/ j = 9 \/ j = 10 \/ j = 11) by lia.
    assert (Hread : int (py_str j) = Some j).
    { apply Hint. unfold Config.TABLE_COUNT. lia. }
    unfold Handlers.parse_table.
    repeat (destruct Hcases as [-> | Hcases]);
      try subst j;
      (split; [vm_compute; auto 20 | split; [reflexivity|]]);
      vm_compute in Hread; vm_compute; rewrite Hread; reflexivity.
Qed.

Lemma tables_keyboard_buttons_select_tables_witness :
  Handlers.parse_table Handlers.decimal_int (Handlers.table_button 11) = Some 11.
Proof.
  destruct (tables_keyboard_buttons_select_tables Handlers.decimal_int) as (_ & _ & Hbutton).
  - intros j Hj. unfold Config.TABLE_COUNT in Hj.
    assert (Hcases : j = 1 \/ j = 2 \/ j = 3 \/ j = 4 \/ j = 5 \/ j = 6 \/ j = 7
                     \/ j = 8 \/ j = 9 \/ j = 10 \/ j = 11) by lia.
    repeat (destruct Hcases as [-> | Hcases]); try subst j; reflexivity.
  - apply (Hbutton 11). unfold Config.TABLE_COUNT. lia.
Defined.
